(** * Patrol simulation engine (Dristi4): shallow embedding of
      [src/hooks/useSimulation.ts] and [src/types/simulation.ts]

    JavaScript numbers are modelled in exact arithmetic as real numbers [R];
    indices produced by [Math.floor] are integers [Z].  [Math.random] is an
    oracle stream read through a counter, [Date.now] is an explicit input, and
    the two number printers ([Number.prototype.toString] and [toFixed]) are
    host functions taken as section variables. *)

From Stdlib Require Import Reals Lra Lia ZArith List String Bool Psatz.
From Stdlib Require Import DecimalString.
Import ListNotations.

Open Scope R_scope.

(** ** Host arithmetic: the [Math] object and comparisons *)

Module JS.

Definition ltb (a b : R) : bool := if Rlt_dec a b then true else false.
Definition leb (a b : R) : bool := if Rle_dec a b then true else false.
Definition gtb (a b : R) : bool := ltb b a.
Definition geb (a b : R) : bool := leb b a.
Definition eqb (a b : R) : bool := if Req_dec_T a b then true else false.

Definition floor (a : R) : Z := Zfloor a.
Definition hypot (a b : R) : R := sqrt (a * a + b * b).
Definition max (a b : R) : R := Rmax a b.
Definition min (a b : R) : R := Rmin a b.

(** [Math.atan2 (dz, dx)], the angle of the vector [(dx, dz)]. *)
Definition atan2 (dz dx : R) : R :=
  if ltb 0 dx then atan (dz / dx)
  else if ltb dx 0 then
    (if leb 0 dz then atan (dz / dx) + PI else atan (dz / dx) - PI)
  else if ltb 0 dz then PI / 2
  else if ltb dz 0 then - (PI / 2)
  else 0.

(** [v || 0] on a number: [0] is the only falsy real. *)
Definition orZero (v : R) : R := if eqb v 0 then 0 else v.

(** Template-literal rendering of a loop index. *)
Definition natToString (n : nat) : string :=
  NilEmpty.string_of_uint (Nat.to_uint n).

(** [xs.slice(0, n)] *)
Definition slice0 {A : Type} (n : nat) (xs : list A) : list A := firstn n xs.

End JS.

(** ** Data model ([src/types/simulation.ts]) *)

Inductive Algorithm := RPA | ZPA | CPA | TFA | PDAP.

Inductive Environment :=
| open_grid | urban_dense | maze_facility | dynamic_risk | changing_env | fog_of_war.

Inductive HeatmapType := coverage | threat | uncertainty | none.

Record Position := mkPosition { px : R; py : R; pz : R }.

Record Size := mkSize { width : R; height : R; depth : R }.

Inductive ObstacleType := static | dynamic.

Record Obstacle := mkObstacle {
  obs_id : string;
  obs_position : Position;
  obs_size : Size;
  obs_type : ObstacleType;
  obs_visible : bool
}.

Inductive ThreatLevel := low | medium | high.

Record Intruder := mkIntruder {
  intr_id : string;
  intr_position : Position;
  detected : bool;
  threatLevel : ThreatLevel;
  detectedAt : option R
}.

Record DroneState := mkDroneState {
  position : Position;
  rotation : R;
  fovAngle : R;
  fovRange : R;
  battery : R;
  drone_speed : R;
  isMoving : bool
}.

Record GridCell := mkGridCell {
  cell_x : Z;
  cell_y : Z;
  visited : bool;
  lastVisited : R;
  coverageValue : R;
  threatValue : R;
  uncertaintyValue : R;
  isVisible : bool
}.

Record DecisionReason := mkReason {
  reason_id : Z;
  reason : string;
  weight : Z;
  icon : string
}.

Inductive EventType := detection | patrol | alert | decision | environment.

Inductive Severity := info | warning | danger.

Record TimelineEvent := mkEvent {
  ev_id : string;
  timestamp : R;
  ev_type : EventType;
  message : string;
  severity : Severity
}.

Record Metrics := mkMetrics {
  areaObserved : R;
  blindSpots : R;
  detectionLatency : R;
  m_battery : R;
  intrudersDetected : nat;
  totalIntruders : nat;
  patrolEfficiency : R;
  avgResponseTime : R
}.

Definition Grid := list (list GridCell).

Record SimulationState := mkState {
  isRunning : bool;
  isPaused : bool;
  speed : R;
  currentAlgorithm : Algorithm;
  currentEnvironment : Environment;
  activeHeatmap : HeatmapType;
  drone : DroneState;
  obstacles : list Obstacle;
  intruders : list Intruder;
  grid : Grid;
  metrics : Metrics;
  decisionReasons : list DecisionReason;
  timeline : list TimelineEvent;
  elapsedTime : R
}.

Definition Environment_eqb (a b : Environment) : bool :=
  match a, b with
  | open_grid, open_grid | urban_dense, urban_dense
  | maze_facility, maze_facility | dynamic_risk, dynamic_risk
  | changing_env, changing_env | fog_of_war, fog_of_war => true
  | _, _ => false
  end.

Definition Environment_name (e : Environment) : string :=
  match e with
  | open_grid => "open-grid"
  | urban_dense => "urban-dense"
  | maze_facility => "maze-facility"
  | dynamic_risk => "dynamic-risk"
  | changing_env => "changing-env"
  | fog_of_war => "fog-of-war"
  end.

Definition GRID_SIZE : Z := 20.

(** ** Generators: code that draws from [Math.random]

    A computation of type [Gen A] reads the oracle [random : nat -> R] at the
    current counter and returns the advanced counter, one step per call of
    [Math.random ()]. *)

Definition Gen (A : Type) : Type := (nat -> R) -> nat -> A * nat.

Definition ret {A} (a : A) : Gen A := fun _ n => (a, n).

Definition bind {A B} (m : Gen A) (k : A -> Gen B) : Gen B :=
  fun random n => let (a, n') := m random n in k a random n'.

Definition Math_random : Gen R := fun random n => (random n, S n).

Declare Scope gen_scope.
Delimit Scope gen_scope with gen.
Notation "x <- m ;; k" := (bind m (fun x => k))
  (at level 61, m at next level, right associativity) : gen_scope.

(** [for (let i = 0; i < n; i++) out.push (body i)], written over the index
    list [seq 0 n]. *)
Fixpoint forPush {A} (idx : list nat) (body : nat -> Gen A) : Gen (list A) :=
  match idx with
  | [] => ret []
  | i :: rest =>
      (a <- body i ;; out <- forPush rest body ;; ret (a :: out))%gen
  end.

Section Generators.

Open Scope gen_scope.

(** [createGrid], lines 20-38: the cell literal of the inner loop. *)
Definition createCell (fogOfWar : bool) (x y : nat) : Gen GridCell :=
  t <- Math_random ;;
  u <- (if fogOfWar then ret 1 else (r <- Math_random ;; ret (r * 0.5))) ;;
  ret {| cell_x := Z.of_nat x; cell_y := Z.of_nat y;
         visited := false; lastVisited := 0; coverageValue := 0;
         threatValue := t * 0.3; uncertaintyValue := u;
         isVisible := negb fogOfWar |}.

Definition createGrid (fogOfWar : bool) : Gen Grid :=
  forPush (seq 0 (Z.to_nat GRID_SIZE)) (fun x =>
    forPush (seq 0 (Z.to_nat GRID_SIZE)) (fun y => createCell fogOfWar x y)).

(** The nine wall segments of 'maze-facility': [(x, z, w, d)]. *)
Definition wallPositions : list (R * R * R * R) :=
  [ (-6, 0, 0.3, 8); (-3, -4, 0.3, 8); (0, 2, 0.3, 8); (3, -2, 0.3, 8);
    (6, 0, 0.3, 8); (-4, -6, 8, 0.3); (2, -3, 6, 0.3); (-2, 3, 8, 0.3);
    (4, 6, 6, 0.3) ].

Fixpoint wallObstacles (i : nat) (walls : list (R * R * R * R)) : list Obstacle :=
  match walls with
  | [] => []
  | (wx, wz, ww, wd) :: rest =>
      {| obs_id := "wall-" ++ JS.natToString i;
         obs_position := mkPosition wx 0 wz;
         obs_size := mkSize ww 1.5 wd;
         obs_type := static; obs_visible := true |}
      :: wallObstacles (S i) rest
  end.

(** [generateObstacles], lines 41-143. *)
Definition generateObstacles (env : Environment) : Gen (list Obstacle) :=
  match env with
  | open_grid => ret []
  | urban_dense =>
      forPush (seq 0 15) (fun i =>
        ox <- Math_random ;; oz <- Math_random ;;
        w <- Math_random ;; h <- Math_random ;; d <- Math_random ;;
        ret {| obs_id := "obs-" ++ JS.natToString i;
               obs_position := mkPosition (ox * 16 - 8) 0 (oz * 16 - 8);
               obs_size := mkSize (0.8 + w * 1.2) (1 + h * 2) (0.8 + d * 1.2);
               obs_type := static; obs_visible := true |})
  | maze_facility => ret (wallObstacles 0 wallPositions)
  | dynamic_risk =>
      forPush (seq 0 6) (fun i =>
        ox <- Math_random ;; oz <- Math_random ;;
        ret {| obs_id := "obs-" ++ JS.natToString i;
               obs_position := mkPosition (ox * 14 - 7) 0 (oz * 14 - 7);
               obs_size := mkSize 1 1 1;
               obs_type := static; obs_visible := true |})
  | changing_env =>
      forPush (seq 0 10) (fun i =>
        ox <- Math_random ;; oz <- Math_random ;; v <- Math_random ;;
        ret {| obs_id := "obs-" ++ JS.natToString i;
               obs_position := mkPosition (ox * 16 - 8) 0 (oz * 16 - 8);
               obs_size := mkSize 1 1.5 1;
               obs_type := dynamic; obs_visible := JS.gtb v 0.3 |})
  | fog_of_war =>
      forPush (seq 0 8) (fun i =>
        ox <- Math_random ;; oz <- Math_random ;;
        ret {| obs_id := "obs-" ++ JS.natToString i;
               obs_position := mkPosition (ox * 14 - 7) 0 (oz * 14 - 7);
               obs_size := mkSize 1 1 1;
               obs_type := static; obs_visible := true |})
  end.

Definition clusterCenters : list (R * R) := [ (-5, -5); (5, -5); (-5, 5); (5, 5) ].

(** [['low', 'medium', 'high'][Math.floor (r * 3)]]; [Math.random] yields
    [0 <= r < 1], so the index is 0, 1 or 2 (lemma [threat_index_in_range]);
    the last arm stands for every other index. *)
Definition pickThreatLevel (r : R) : ThreatLevel :=
  match JS.floor (r * 3) with
  | 0%Z => low
  | 1%Z => medium
  | _ => high
  end.

(** [generateIntruders], lines 146-177: the body of the loop. *)
Definition generateIntruder (env : Environment) (i : nat) : Gen Intruder :=
  r0 <- Math_random ;;
  r1 <- Math_random ;;
  let x := r0 * 14 - 7 in
  let z := r1 * 14 - 7 in
  xz <- (if Environment_eqb env dynamic_risk && Nat.ltb 0 i
         then
           let cluster := Nat.div i 2 in
           let center := nth (Nat.modulo cluster 4) clusterCenters (0, 0) in
           rx <- Math_random ;;
           rz <- Math_random ;;
           ret (fst center + (rx - 0.5) * 3, snd center + (rz - 0.5) * 3)
         else ret (x, z)) ;;
  t <- Math_random ;;
  ret {| intr_id := "intruder-" ++ JS.natToString i;
         intr_position := mkPosition (fst xz) 0 (snd xz);
         detected := false;
         threatLevel := pickThreatLevel t;
         detectedAt := None |}.

Definition generateIntruders (env : Environment) : Gen (list Intruder) :=
  let count := if Environment_eqb env dynamic_risk then 8%nat else 4%nat in
  forPush (seq 0 count) (generateIntruder env).

End Generators.

(** ** Decision engine: [getNextPosition] *)

(** [grid[gx]?.[gz]]: [undefined] outside the array. *)
Definition gridAt (g : Grid) (gx gz : Z) : option GridCell :=
  if (gx <? 0)%Z || (gz <? 0)%Z then None
  else match nth_error g (Z.to_nat gx) with
       | None => None
       | Some row => nth_error row (Z.to_nat gz)
       end.

Definition setXZ (p : Position) (nx nz : R) : Position :=
  {| px := nx; py := py p; pz := nz |}.

Definition clampPosition (p : Position) : Position :=
  setXZ p (JS.max (-9) (JS.min 9 (px p))) (JS.max (-9) (JS.min 9 (pz p))).

Record Sector := mkSector { sec_id : nat; sec_x : R; sec_z : R; score : nat }.

Definition sectors0 : list Sector :=
  [ mkSector 1 5 5 0; mkSector 2 (-5) 5 0; mkSector 3 (-5) (-5) 0; mkSector 4 5 (-5) 0 ].

(** The nine sample offsets [(dx, dz)] of the sector scoring loop. *)
Definition sampleOffsets : list (R * R) :=
  flat_map (fun dx => map (fun dz => (dx, dz)) [-2; 0; 2]) [-2; 0; 2].

Definition scoreSector (g : Grid) (s : Sector) : Sector :=
  fold_left (fun (s : Sector) (d : R * R) =>
    let gx := JS.floor (sec_x s + fst d + 10) in
    let gz := JS.floor (sec_z s + snd d + 10) in
    match gridAt g gx gz with
    | Some c => if negb (visited c)
                then mkSector (sec_id s) (sec_x s) (sec_z s) (S (score s))
                else s
    | None => s
    end) sampleOffsets s.

(** [sectors.sort ((a, b) => b.score - a.score)]: stable, descending score. *)
Fixpoint insertSector (s : Sector) (sorted : list Sector) : list Sector :=
  match sorted with
  | [] => [s]
  | t :: rest => if Nat.ltb (score s) (score t)
                 then t :: insertSector s rest
                 else s :: t :: rest
  end.

Definition sortSectors (l : list Sector) : list Sector :=
  fold_right insertSector [] l.

Definition cellDist (drone : DroneState) (c : GridCell) : R :=
  JS.hypot (IZR (cell_x c) - 10 - px (position drone))
           (IZR (cell_y c) - 10 - pz (position drone)).

(** [localUnvisited.reduce ((best, cell) => d < bd ? cell : best)] *)
Definition nearestCell (drone : DroneState) (first : GridCell) (rest : list GridCell)
  : GridCell :=
  fold_left (fun best cell =>
    if JS.ltb (cellDist drone cell) (cellDist drone best) then cell else best)
    rest first.

Inductive CandType := cand_threat | cand_sector.

Record Candidate := mkCand { cand_x : R; cand_z : R; cand_type : CandType; cand_val : R }.

(** The 5 x 5 lattice of sector candidates, [sx] outer and [sz] inner. *)
Definition sectorCandidates : list Candidate :=
  flat_map (fun sx => map (fun sz => mkCand sx sz cand_sector 0) [-8; -4; 0; 4; 8])
           [-8; -4; 0; 4; 8].

(** Running best of the PDAP scan; [bestScore = None] is [-Infinity]. *)
Record Best := mkBest {
  bestScore : option R;
  bestTarget : option (R * R);
  primeReason : string
}.

Definition includes (needle s : string) : bool :=
  match String.index 0 needle s with Some _ => true | None => false end.

Section Host.

(** [Number.prototype.toFixed] and the template-literal rendering of a
    number, supplied by the JavaScript host. *)
Variable toFixed : R -> nat -> string.
Variable numToString : R -> string.

Open Scope gen_scope.

(** [getNextPosition], lines 223-477, one definition per [case]. *)
Definition decideRPA (drone : DroneState)
  : Gen (Position * list DecisionReason) :=
  r0 <- Math_random ;;
  let angle := r0 * PI * 2 in
  r1 <- Math_random ;;
  let distance := 1 + r1 * 2 in
  ret (setXZ (position drone)
         (JS.max (-9) (JS.min 9 (px (position drone) + cos angle * distance)))
         (JS.max (-9) (JS.min 9 (pz (position drone) + sin angle * distance))),
       [ mkReason 1 "Random direction selected" 100 "Shuffle" ]).

Definition decideZPA (drone : DroneState) : Position * list DecisionReason :=
  let nextPos := position drone in
  let gridX := JS.floor ((px (position drone) + 10) / 2) in
  let direction : R := if (Z.rem gridX 2 =? 0)%Z then 1 else -1 in
  let '(nextPos, reasons) :=
    if JS.geb (pz (position drone) * direction) 8
    then (setXZ nextPos (px (position drone) + 2) (pz nextPos),
          [ mkReason 1 "Advancing to next row" 80 "ArrowRight" ])
    else (setXZ nextPos (px nextPos) (pz (position drone) + direction * 2),
          [ mkReason 1 "Continuing zigzag pattern" 80 "TrendingUp" ]) in
  let nextPos :=
    if JS.gtb (px nextPos) 9 then setXZ nextPos (-9) (pz nextPos) else nextPos in
  (nextPos, reasons ++ [ mkReason 2 "Systematic coverage" 60 "Grid3x3" ]).

Definition decideCPA (drone : DroneState) (g : Grid)
  : Position * list DecisionReason :=
  let nextPos := position drone in
  let unvisitedCells := filter (fun c => negb (visited c)) (List.concat g) in
  let sectors := sortSectors (map (scoreSector g) sectors0) in
  match sectors with
  | [] => (nextPos, [])
  | targetSector :: _ =>
      if Nat.ltb 0 (score targetSector) then
        let distToSector :=
          JS.hypot (sec_x targetSector - px (position drone))
                   (sec_z targetSector - pz (position drone)) in
        if JS.gtb distToSector 5 then
          (setXZ nextPos (sec_x targetSector) (sec_z targetSector),
           [ mkReason 1 ("Transit to Sector " ++ JS.natToString (sec_id targetSector))
               100 "ArrowRight" ])
        else
          match unvisitedCells with
          | [] => (nextPos, [])
          | _ :: _ =>
              let localUnvisited :=
                filter (fun c =>
                  JS.ltb (Rabs ((IZR (cell_x c) - 10) - sec_x targetSector)) 8
                  && JS.ltb (Rabs ((IZR (cell_y c) - 10) - sec_z targetSector)) 8)
                  unvisitedCells in
              match localUnvisited with
              | first :: rest =>
                  let target := nearestCell drone first rest in
                  (setXZ nextPos (IZR (cell_x target) - 10) (IZR (cell_y target) - 10),
                   [ mkReason 1
                       ("Sweeping Sector " ++ JS.natToString (sec_id targetSector))
                       90 "Grid" ])
              | [] =>
                  (setXZ nextPos (sec_x targetSector) (sec_z targetSector),
                   [ mkReason 1 "Sector Finishing" 60 "Check" ])
              end
          end
      else
        (setXZ nextPos 0 0, [ mkReason 1 "Mission Complete - RTB" 100 "Home" ])
  end.

(** The [try] block of TFA evaluates only total arithmetic here, so its
    [catch] arm has no counterpart. *)
Definition decideTFA (now : R) (drone : DroneState) (detectedIntruders : list Intruder)
  : Position * list DecisionReason :=
  let nextPos := position drone in
  if Nat.ltb 0 (List.length detectedIntruders) then
    let sum :=
      fold_left (fun (acc : R * R) (curr : Intruder) =>
        (fst acc + JS.orZero (px (intr_position curr)),
         snd acc + JS.orZero (pz (intr_position curr))))
        detectedIntruders (0, 0) in
    let count := JS.max 1 (INR (List.length detectedIntruders)) in
    let cx := fst sum / count in
    let cz := snd sum / count in
    let dx := cx - px (position drone) in
    let dz := cz - pz (position drone) in
    let dist := JS.hypot dx dz in
    let angle := JS.atan2 dz dx in
    let '(nextPos, reasons) :=
      if JS.gtb dist 4 then
        (setXZ nextPos (px (position drone) + cos angle * 3)
                       (pz (position drone) + sin angle * 3),
         [ mkReason 1 "Intercepting target(s)" 100 "Crosshair" ])
      else if JS.ltb dist 2.5 then
        (setXZ nextPos (px (position drone) - cos angle * 2)
                       (pz (position drone) - sin angle * 2),
         [ mkReason 1 "Maintaing tactical standoff" 90 "Shield" ])
      else
        (setXZ nextPos (px (position drone) + cos (angle + PI / 2) * 1)
                       (pz (position drone) + sin (angle + PI / 2) * 1),
         [ mkReason 1 "Tracking & Monitoring" 85 "Eye" ]) in
    (nextPos,
     reasons ++
     [ mkReason 2 ("Threat Centroid: [" ++ toFixed cx 1 ++ ", " ++ toFixed cz 1 ++ "]")
         80 "MapPin" ])
  else
    let t := now / 1000 in
    let spiralRadius := 3 + sin (t * 0.5) * 5 in
    (setXZ nextPos (cos t * spiralRadius) (sin t * spiralRadius),
     [ mkReason 1 "Scanning for hostiles (Spiral)" 50 "Search";
       mkReason 2 "Sector clear" 30 "CheckCircle" ]).

(** One iteration of [candidates.forEach] in PDAP. *)
Definition considerCandidate (drone : DroneState) (g : Grid)
    (maxRange moveCostWeight : R) (b : Best) (cand : Candidate) : Best :=
  let uncertaintyWeight := 2 in
  let coverageWeight := 1 in
  let dist := JS.hypot (cand_x cand - px (position drone))
                       (cand_z cand - pz (position drone)) in
  if JS.gtb dist maxRange then b
  else
    let score := JS.orZero (cand_val cand) in
    let gx := JS.floor (cand_x cand + 10) in
    let gz := JS.floor (cand_z cand + 10) in
    let score :=
      match gridAt g gx gz with
      | Some c =>
          let score := score + JS.orZero (uncertaintyValue c) * uncertaintyWeight * 10 in
          if negb (visited c) then score + coverageWeight * 5 else score
      | None => score
      end in
    let score := score - dist * moveCostWeight in
    let better := match bestScore b with
                  | None => true
                  | Some bs => JS.gtb score bs
                  end in
    if better then
      {| bestScore := Some score;
         bestTarget := Some (cand_x cand, cand_z cand);
         primeReason := match cand_type cand with
                        | cand_threat => "Engaging identified threat"
                        | cand_sector => "Exploring high-value sector"
                        end |}
    else b.

(** As for TFA, nothing in the [try] block of PDAP can throw. *)
Definition decidePDAP (drone : DroneState) (g : Grid) (detectedIntruders : list Intruder)
  : Position * list DecisionReason :=
  let nextPos := position drone in
  let maxRange := if JS.gtb (JS.orZero (battery drone)) 50 then 20 else 10 in
  let moveCostWeight := if JS.gtb (JS.orZero (battery drone)) 30 then 0.05 else 0.2 in
  let threats :=
    map (fun i => mkCand (px (intr_position i)) (pz (intr_position i)) cand_threat 10)
        detectedIntruders in
  let primeReason0 : string :=
    (if Nat.ltb 0 (List.length detectedIntruders)
     then "Responding to threats" else "Patrolling")%string in
  let candidates := (threats ++ sectorCandidates)%list in
  let best :=
    fold_left (considerCandidate drone g maxRange moveCostWeight) candidates
      (mkBest None None primeReason0) in
  match bestTarget best, bestScore best with
  | Some (tx, tz), Some bs =>
      (setXZ nextPos tx tz,
       [ mkReason 1 (primeReason best) 95
           (if includes "threat" (primeReason best) then "AlertTriangle" else "Compass");
         mkReason 2 ("Utility Score: " ++ toFixed bs 1) 60 "Activity" ])
  | _, _ =>
      (setXZ nextPos 0 0, [ mkReason 1 "Returning to base" 50 "Home" ])
  end.

Definition getNextPosition (now : R) (algorithm : Algorithm) (drone : DroneState)
    (g : Grid) (intrs : list Intruder) (obs : list Obstacle)
  : Gen (Position * list DecisionReason) :=
  let detectedIntruders := filter detected intrs in
  r <- match algorithm with
       | RPA => decideRPA drone
       | ZPA => ret (decideZPA drone)
       | CPA => ret (decideCPA drone g)
       | TFA => ret (decideTFA now drone detectedIntruders)
       | PDAP => ret (decidePDAP drone g detectedIntruders)
       end ;;
  ret (clampPosition (fst r), JS.slice0 3 (snd r)).

(** ** Kinematics and sensing: one tick *)

(** The mutable cells of the hook: the React state and [targetPositionRef]. *)
Record Hook := mkHook {
  state : SimulationState;
  targetPositionRef : option Position
}.

(** [xs[n] = f (xs[n])] on an existing element; [None] when there is none. *)
Fixpoint updateAt {A} (n : nat) (f : A -> A) (xs : list A) : option (list A) :=
  match n, xs with
  | _, [] => None
  | O, a :: rest => Some (f a :: rest)
  | S n', a :: rest => option_map (cons a) (updateAt n' f rest)
  end.

(** Field writes on [newGrid[gx][gz]].  Where the row or the cell is
    missing JavaScript throws a TypeError: [None]. *)
Definition writeCell (g : Grid) (gx gz : Z) (f : GridCell -> GridCell) : option Grid :=
  match nth_error g (Z.to_nat gx) with
  | None => None
  | Some row =>
      match updateAt (Z.to_nat gz) f row with
      | None => None
      | Some row' => updateAt (Z.to_nat gx) (fun _ => row') g
      end
  end.

Definition markCell (newElapsed : R) (c : GridCell) : GridCell :=
  {| cell_x := cell_x c; cell_y := cell_y c;
     visited := true;
     lastVisited := newElapsed;
     coverageValue := 1;
     threatValue := threatValue c;
     uncertaintyValue := JS.max 0 (uncertaintyValue c - 0.1);
     isVisible := true |}.

(** The offsets [(dx, dz)] of the two nested loops, [dx] outer, both from
    [-3] to [3]. *)
Definition windowOffsets : list (Z * Z) :=
  flat_map (fun dx => map (fun dz => (dx, dz)) [-3; -2; -1; 0; 1; 2; 3]%Z)
           [-3; -2; -1; 0; 1; 2; 3]%Z.

Definition inBounds (gx gz : Z) : bool :=
  ((0 <=? gx) && (gx <? GRID_SIZE) && (0 <=? gz) && (gz <? GRID_SIZE))%Z.

Definition observeStep (droneGridX droneGridZ : Z) (fov newElapsed : R)
    (acc : option Grid) (d : Z * Z) : option Grid :=
  match acc with
  | None => None
  | Some g =>
      let gx := (droneGridX + fst d)%Z in
      let gz := (droneGridZ + snd d)%Z in
      if inBounds gx gz then
        let dist := JS.hypot (IZR (fst d)) (IZR (snd d)) in
        if JS.leb dist fov then writeCell g gx gz (markCell newElapsed) else Some g
      else Some g
  end.

(** The coverage-marking loops of the tick (lines 530-551), on the copy
    [newGrid]. *)
Definition markObserved (g : Grid) (droneGridX droneGridZ : Z) (fov newElapsed : R)
  : option Grid :=
  fold_left (observeStep droneGridX droneGridZ fov newElapsed) windowOffsets (Some g).

Definition detectIntruder (newDrone : DroneState) (newElapsed : R) (i : Intruder)
  : Intruder :=
  let dist := JS.hypot (px (intr_position i) - px (position newDrone))
                       (pz (intr_position i) - pz (position newDrone)) in
  if JS.leb dist (fovRange newDrone) && negb (detected i)
  then {| intr_id := intr_id i; intr_position := intr_position i;
          detected := true; threatLevel := threatLevel i;
          detectedAt := Some newElapsed |}
  else i.

Definition detectionEvent (newElapsed : R) (i : Intruder) : TimelineEvent :=
  {| ev_id := "detection-" ++ intr_id i ++ "-" ++ numToString newElapsed;
     timestamp := newElapsed;
     ev_type := detection;
     message := "Intruder detected at (" ++ toFixed (px (intr_position i)) 1
                ++ ", " ++ toFixed (pz (intr_position i)) 1 ++ ")";
     severity := match threatLevel i with
                 | high => danger
                 | medium => warning
                 | low => info
                 end |}.

(** [newIntruders.forEach ((intruder, i) => ... newTimeline.unshift (...))],
    pairing each new intruder with [prev.intruders[i]]. *)
Definition logDetections (newElapsed : R) (newIntruders prevIntruders : list Intruder)
    (tl : list TimelineEvent) : list TimelineEvent :=
  fold_left (fun (acc : list TimelineEvent) (p : Intruder * Intruder) =>
    if detected (fst p) && negb (detected (snd p))
    then detectionEvent newElapsed (fst p) :: acc
    else acc)
    (combine newIntruders prevIntruders) tl.

(** Truthiness of [i.detectedAt]: defined and not [0]. *)
Definition truthy (v : option R) : bool :=
  match v with
  | None => false
  | Some r => negb (JS.eqb r 0)
  end.

Definition computeMetrics (prev : SimulationState) (newDrone : DroneState)
    (newGrid : Grid) (newIntruders : list Intruder) (newElapsed : R) : Metrics :=
  let visitedCount := List.length (filter visited (List.concat newGrid)) in
  let totalCells := IZR (GRID_SIZE * GRID_SIZE) in
  let detectedCount := List.length (filter detected newIntruders) in
  {| areaObserved := (INR visitedCount / totalCells) * 100;
     blindSpots := ((totalCells - INR visitedCount) / totalCells) * 100;
     detectionLatency :=
       if Nat.ltb 0 detectedCount
       then fold_left (fun sum i =>
              sum + match detectedAt i with
                    | Some v => JS.orZero v
                    | None => 0
                    end)
              (filter (fun i => detected i && truthy (detectedAt i)) newIntruders) 0
            / INR detectedCount
       else 0;
     m_battery := battery newDrone;
     intrudersDetected := detectedCount;
     totalIntruders := List.length newIntruders;
     patrolEfficiency := (INR visitedCount / JS.max 1 newElapsed) * 10;
     avgResponseTime :=
       if Nat.ltb 0 detectedCount then detectionLatency (metrics prev) else 0 |}.

(** The guard of the target-reacquisition branch. *)
Definition needsTarget (ref : option Position) (d : DroneState) : bool :=
  match ref with
  | None => true
  | Some t => JS.ltb (JS.hypot (px (position d) - px t) (pz (position d) - pz t)) 0.5
  end.

Definition moveDrone (dt : R) (target : Position) (d : DroneState) : DroneState :=
  let dx := px target - px (position d) in
  let dz := pz target - pz (position d) in
  let distance := JS.hypot dx dz in
  let moveSpeed := 2 * dt in
  let moveX := if JS.gtb distance 0.1
               then (dx / distance) * JS.min moveSpeed distance else 0 in
  let moveZ := if JS.gtb distance 0.1
               then (dz / distance) * JS.min moveSpeed distance else 0 in
  {| position := {| px := px (position d) + moveX;
                    py := py (position d);
                    pz := pz (position d) + moveZ |};
     rotation := JS.atan2 dz dx;
     fovAngle := fovAngle d;
     fovRange := fovRange d;
     battery := JS.max 0 (battery d - 0.01 * dt);
     drone_speed := drone_speed d;
     isMoving := JS.gtb distance 0.1 |}.

(** The movement branch of the tick (lines 508-612), for the current
    [target]. *)
Definition moveTick (dt : R) (target : Position) (prev : SimulationState)
  : option SimulationState :=
  let newElapsed := elapsedTime prev + dt in
  let newDrone := moveDrone dt target (drone prev) in
  let droneGridX := JS.floor (px (position newDrone) + 10) in
  let droneGridZ := JS.floor (pz (position newDrone) + 10) in
  match markObserved (grid prev) droneGridX droneGridZ (fovRange newDrone) newElapsed with
  | None => None
  | Some newGrid =>
      let newIntruders := map (detectIntruder newDrone newElapsed) (intruders prev) in
      let newTimeline :=
        logDetections newElapsed newIntruders (intruders prev) (timeline prev) in
      let newMetrics := computeMetrics prev newDrone newGrid newIntruders newElapsed in
      Some {| isRunning := isRunning prev;
              isPaused := isPaused prev;
              speed := speed prev;
              currentAlgorithm := currentAlgorithm prev;
              currentEnvironment := currentEnvironment prev;
              activeHeatmap := activeHeatmap prev;
              drone := newDrone;
              obstacles := obstacles prev;
              intruders := newIntruders;
              grid := newGrid;
              metrics := newMetrics;
              decisionReasons := decisionReasons prev;
              timeline := JS.slice0 50 newTimeline;
              elapsedTime := newElapsed |}
  end.

Definition withDecisionReasons (prev : SimulationState) (rs : list DecisionReason)
  : SimulationState :=
  {| isRunning := isRunning prev;
     isPaused := isPaused prev;
     speed := speed prev;
     currentAlgorithm := currentAlgorithm prev;
     currentEnvironment := currentEnvironment prev;
     activeHeatmap := activeHeatmap prev;
     drone := drone prev;
     obstacles := obstacles prev;
     intruders := intruders prev;
     grid := grid prev;
     metrics := metrics prev;
     decisionReasons := rs;
     timeline := timeline prev;
     elapsedTime := elapsedTime prev |}.

(** [updateSimulation (deltaTime)], lines 480-614: the state updater
    together with its write to [targetPositionRef].  [None] is a tick aborted
    by a TypeError. *)
Definition updateSimulation (now deltaTime : R) (h : Hook) : Gen (option Hook) :=
  let prev := state h in
  if negb (isRunning prev) || isPaused prev then ret (Some h)
  else
    let dt := deltaTime * speed prev in
    if needsTarget (targetPositionRef h) (drone prev) then
      r <- getNextPosition now (currentAlgorithm prev) (drone prev) (grid prev)
             (intruders prev) (obstacles prev) ;;
      ret (Some {| state := withDecisionReasons prev (snd r);
                   targetPositionRef := Some (fst r) |})
    else
      match targetPositionRef h with
      | None => ret (Some h)
      | Some target =>
          ret (option_map (fun s => {| state := s; targetPositionRef := Some target |})
                 (moveTick dt target prev))
      end.

(** Successive ticks with inputs [(now, deltaTime)]; the result lists the
    hook after each tick. *)
Fixpoint runTicks (inputs : list (R * R)) (h : Hook) : Gen (option (list Hook)) :=
  match inputs with
  | [] => ret (Some [])
  | (now, deltaTime) :: rest =>
      r <- updateSimulation now deltaTime h ;;
      match r with
      | None => ret None
      | Some h' => t <- runTicks rest h' ;; ret (option_map (cons h') t)
      end
  end.

(** ** Coordinator: initial values and control actions *)

(** Lines 179-198 and the initial [useState] value, lines 201-216. *)
Definition initialDroneState : DroneState :=
{| position := {| px := 0; py := 2; pz := 0 |};
   rotation := 0;
   fovAngle := 60;
   fovRange := 4;
   battery := 100;
   drone_speed := 1;
   isMoving := false |}.

Definition initialMetrics : Metrics :=
{| areaObserved := 0;
   blindSpots := 100;
   detectionLatency := 0;
   m_battery := 100;
   intrudersDetected := 0;
   totalIntruders := 0;
   patrolEfficiency := 0;
   avgResponseTime := 0 |}.

Definition withTotalIntruders (m : Metrics) (n : nat) : Metrics :=
{| areaObserved := areaObserved m;
   blindSpots := blindSpots m;
   detectionLatency := detectionLatency m;
   m_battery := m_battery m;
   intrudersDetected := intrudersDetected m;
   totalIntruders := n;
   patrolEfficiency := patrolEfficiency m;
   avgResponseTime := avgResponseTime m |}.

(** The hook as [useSimulation] first builds it. *)
Definition initialHook : Gen Hook :=
intrs <- generateIntruders open_grid ;;
g <- createGrid false ;;
ret {| state :=
         {| isRunning := false;
            isPaused := false;
            speed := 1;
            currentAlgorithm := PDAP;
            currentEnvironment := open_grid;
            activeHeatmap := none;
            drone := initialDroneState;
            obstacles := [];
            intruders := intrs;
            grid := g;
            metrics := withTotalIntruders initialMetrics 4;
            decisionReasons := [];
            timeline := [];
            elapsedTime := 0 |};
       targetPositionRef := None |}.

Definition withRunFlags (prev : SimulationState) (running paused : bool)
: SimulationState :=
{| isRunning := running;
   isPaused := paused;
   speed := speed prev;
   currentAlgorithm := currentAlgorithm prev;
   currentEnvironment := currentEnvironment prev;
   activeHeatmap := activeHeatmap prev;
   drone := drone prev;
   obstacles := obstacles prev;
   intruders := intruders prev;
   grid := grid prev;
   metrics := metrics prev;
   decisionReasons := decisionReasons prev;
   timeline := timeline prev;
   elapsedTime := elapsedTime prev |}.

(** The actions, lines 639-718. *)
Definition startSimulation (h : Hook) : Hook :=
{| state := withRunFlags (state h) true false;
   targetPositionRef := targetPositionRef h |}.

Definition pauseSimulation (h : Hook) : Hook :=
{| state := withRunFlags (state h) (isRunning (state h)) true;
   targetPositionRef := targetPositionRef h |}.

Definition resumeSimulation (h : Hook) : Hook :=
{| state := withRunFlags (state h) (isRunning (state h)) false;
   targetPositionRef := targetPositionRef h |}.

Definition stopSimulation (h : Hook) : Hook :=
{| state := withRunFlags (state h) false false;
   targetPositionRef := None |}.

Definition resetSimulation (h : Hook) : Gen Hook :=
let prev := state h in
g <- createGrid (Environment_eqb (currentEnvironment prev) fog_of_war) ;;
intrs <- generateIntruders (currentEnvironment prev) ;;
obs <- generateObstacles (currentEnvironment prev) ;;
again <- generateIntruders (currentEnvironment prev) ;;
ret {| state :=
         {| isRunning := false;
            isPaused := false;
            speed := speed prev;
            currentAlgorithm := currentAlgorithm prev;
            currentEnvironment := currentEnvironment prev;
            activeHeatmap := activeHeatmap prev;
            drone := initialDroneState;
            obstacles := obs;
            intruders := intrs;
            grid := g;
            metrics := withTotalIntruders initialMetrics (List.length again);
            decisionReasons := [];
            timeline := [];
            elapsedTime := 0 |};
       targetPositionRef := None |}.

Definition setAlgorithm (algorithm : Algorithm) (h : Hook) : Hook :=
let prev := state h in
{| state :=
     {| isRunning := isRunning prev;
        isPaused := isPaused prev;
        speed := speed prev;
        currentAlgorithm := algorithm;
        currentEnvironment := currentEnvironment prev;
        activeHeatmap := activeHeatmap prev;
        drone := drone prev;
        obstacles := obstacles prev;
        intruders := intruders prev;
        grid := grid prev;
        metrics := metrics prev;
        decisionReasons := decisionReasons prev;
        timeline := timeline prev;
        elapsedTime := elapsedTime prev |};
   targetPositionRef := None |}.

Definition environmentEvent (now : R) (env : Environment) : TimelineEvent :=
{| ev_id := "env-change-" ++ numToString now;
   timestamp := 0;
   ev_type := environment;
   message := "Environment changed to " ++ Environment_name env;
   severity := info |}.

Definition setEnvironment (now : R) (env : Environment) (h : Hook) : Gen Hook :=
let prev := state h in
newObstacles <- generateObstacles env ;;
newIntruders <- generateIntruders env ;;
let isFogOfWar := Environment_eqb env fog_of_war in
g <- createGrid isFogOfWar ;;
ret {| state :=
         {| isRunning := false;
            isPaused := false;
            speed := speed prev;
            currentAlgorithm := currentAlgorithm prev;
            currentEnvironment := env;
            activeHeatmap := activeHeatmap prev;
            drone := initialDroneState;
            obstacles := newObstacles;
            intruders := newIntruders;
            grid := g;
            metrics := withTotalIntruders initialMetrics (List.length newIntruders);
            decisionReasons := decisionReasons prev;
            timeline := [ environmentEvent now env ];
            elapsedTime := 0 |};
       targetPositionRef := None |}.

Definition setHeatmap (heatmap : HeatmapType) (h : Hook) : Hook :=
let prev := state h in
{| state :=
     {| isRunning := isRunning prev;
        isPaused := isPaused prev;
        speed := speed prev;
        currentAlgorithm := currentAlgorithm prev;
        currentEnvironment := currentEnvironment prev;
        activeHeatmap := heatmap;
        drone := drone prev;
        obstacles := obstacles prev;
        intruders := intruders prev;
        grid := grid prev;
        metrics := metrics prev;
        decisionReasons := decisionReasons prev;
        timeline := timeline prev;
        elapsedTime := elapsedTime prev |};
   targetPositionRef := targetPositionRef h |}.

Definition setSpeed (newSpeed : R) (h : Hook) : Hook :=
let prev := state h in
{| state :=
     {| isRunning := isRunning prev;
        isPaused := isPaused prev;
        speed := newSpeed;
        currentAlgorithm := currentAlgorithm prev;
        currentEnvironment := currentEnvironment prev;
        activeHeatmap := activeHeatmap prev;
        drone := drone prev;
        obstacles := obstacles prev;
        intruders := intruders prev;
        grid := grid prev;
        metrics := metrics prev;
        decisionReasons := decisionReasons prev;
        timeline := timeline prev;
        elapsedTime := elapsedTime prev |};
   targetPositionRef := targetPositionRef h |}.

Definition addTimelineEvent (event : TimelineEvent) (h : Hook) : Hook :=
let prev := state h in
{| state :=
     {| isRunning := isRunning prev;
        isPaused := isPaused prev;
        speed := speed prev;
        currentAlgorithm := currentAlgorithm prev;
        currentEnvironment := currentEnvironment prev;
        activeHeatmap := activeHeatmap prev;
        drone := drone prev;
        obstacles := obstacles prev;
        intruders := intruders prev;
        grid := grid prev;
        metrics := metrics prev;
        decisionReasons := decisionReasons prev;
        timeline := JS.slice0 50 (event :: timeline prev);
        elapsedTime := elapsedTime prev |};
   targetPositionRef := targetPositionRef h |}.

End Host.

(** ** Alert pipeline ([src/hooks/useAlertSystem.ts]) *)

(** [Math.round]: the nearest integer, halves towards plus infinity. *)
Definition Math_round (v : R) : Z := JS.floor (v + 0.5).

(** [n.toString ()] on an integer. *)
Definition intToString (z : Z) : string := NilEmpty.string_of_int (Z.to_int z).

Record Detection := mkDetection {
  det_id : string;
  det_label : string;
  confidence : R;
  bbox : R * R * R * R;
  det_timestamp : R
}.

Record AlertState := mkAlertState {
  isAlertActive : bool;
  lastAlertTime : option R;
  alertCount : nat;
  isMuted : bool
}.

(** The alert hook: its React state and [lastAlertTimeRef]. *)
Record AlertHook := mkAlertHook {
  alertState : AlertState;
  lastAlertTimeRef : option R
}.

(** What an accepted detection sends out: whether the alarm sounds, the file
    name of the screenshot download if one was captured, the event passed to
    [onTimelineEvent], and the description of the toast. *)
Record AlertEffects := mkAlertEffects {
  alarmPlayed : bool;
  screenshotSaved : option string;
  timelineEvent : TimelineEvent;
  toastDescription : string
}.

Definition initialAlertHook : AlertHook :=
  {| alertState := {| isAlertActive := false; lastAlertTime := None;
                      alertCount := 0; isMuted := false |};
     lastAlertTimeRef := None |}.

Section AlertSystem.

Variable numToString : R -> string.
Variable toUpperCase : string -> string.

(** Truthiness of a string result: [null] and the empty string are falsy. *)
Definition truthyString (v : option string) : bool :=
  match v with
  | Some s => negb (String.eqb s EmptyString)
  | None => false
  end.

(** [handleDetection (detection)], lines 85-143, with [Date.now ()] read as
    [now] and [onScreenshot ()] returning [shot].  [None] is the early return
    inside the cooldown. *)
Definition handleDetection (cooldownMs : R) (shot : option string) (now : R)
    (det : Detection) (a : AlertHook) : AlertHook * option AlertEffects :=
  if truthy (lastAlertTimeRef a)
     && JS.ltb (now - match lastAlertTimeRef a with Some t => t | None => 0 end) cooldownMs
  then (a, None)
  else
    let percent := intToString (Math_round (confidence det * 100)) in
    ({| alertState :=
          {| isAlertActive := true;
             lastAlertTime := Some now;
             alertCount := alertCount (alertState a) + 1;
             isMuted := isMuted (alertState a) |};
        lastAlertTimeRef := Some now |},
     Some {| alarmPlayed := negb (isMuted (alertState a));
             screenshotSaved :=
               if truthyString shot
               then Some ("intruder-alert-" ++ numToString now ++ ".png")%string
               else None;
             timelineEvent :=
               {| ev_id := "cv-detection-" ++ numToString now;
                  timestamp := now / 1000;
                  ev_type := alert;
                  message := "CV DETECTION: " ++ det_label det ++ " detected ("
                             ++ percent ++ "% confidence)";
                  severity := danger |};
             toastDescription :=
               toUpperCase (det_label det) ++ " detected with " ++ percent
               ++ "% confidence. Screenshot captured." |}).

(** The 1000 ms timer of [triggerFlash] firing. *)
Definition flashTimeout (a : AlertHook) : AlertHook :=
  {| alertState :=
       {| isAlertActive := false;
          lastAlertTime := lastAlertTime (alertState a);
          alertCount := alertCount (alertState a);
          isMuted := isMuted (alertState a) |};
     lastAlertTimeRef := lastAlertTimeRef a |}.

Definition toggleMute (a : AlertHook) : AlertHook :=
  {| alertState :=
       {| isAlertActive := isAlertActive (alertState a);
          lastAlertTime := lastAlertTime (alertState a);
          alertCount := alertCount (alertState a);
          isMuted := negb (isMuted (alertState a)) |};
     lastAlertTimeRef := lastAlertTimeRef a |}.

Definition resetAlerts (a : AlertHook) : AlertHook :=
  {| alertState :=
       {| isAlertActive := false;
          lastAlertTime := lastAlertTime (alertState a);
          alertCount := 0;
          isMuted := isMuted (alertState a) |};
     lastAlertTimeRef := lastAlertTimeRef a |}.

(** Detections handled one after the other, each at its own clock reading;
    the result lists the effects of the accepted ones in order. *)
Fixpoint handleDetections (cooldownMs : R) (shot : option string)
    (arrivals : list (R * Detection)) (a : AlertHook) : AlertHook * list AlertEffects :=
  match arrivals with
  | [] => (a, [])
  | (now, det) :: rest =>
      let (a1, out) := handleDetection cooldownMs shot now det a in
      let (a2, outs) := handleDetections cooldownMs shot rest a1 in
      (a2, match out with Some e => e :: outs | None => outs end)
  end.

End AlertSystem.

(** ** Clock display ([formatTime] of [MetricsPanel.tsx] and
    [AlgorithmSelector.tsx]) *)

(** The remainder [a % b] of JavaScript numbers: [a - b * trunc (a / b)]. *)
Definition Math_trunc (v : R) : Z :=
  if JS.leb 0 v then JS.floor v else (- JS.floor (- v))%Z.

Definition JS_rem (a b : R) : R := a - b * IZR (Math_trunc (a / b)).

(** [s.padStart (2, '0')] *)
Definition padStart2 (s : string) : string :=
  match String.length s with
  | 0%nat => "00"
  | 1%nat => "0" ++ s
  | _ => s
  end.

Definition formatTime (seconds : R) : string :=
  let mins := JS.floor (seconds / 60) in
  let secs := JS.floor (JS_rem seconds 60) in
  (padStart2 (intToString mins) ++ ":" ++ padStart2 (intToString secs))%string.

(** Accepted alerts, oldest first, keep the cooldown between neighbours. *)
Fixpoint spacedBy (cooldownMs : R) (times : list R) : Prop :=
  match times with
  | t1 :: ((t2 :: _) as rest) => cooldownMs <= t2 - t1 /\ spacedBy cooldownMs rest
  | _ => True
  end.

(** ** Predicates used in the statements, and sample scenarios *)

(** Target reacquisition fires: there is no current target, or the agent is
    within [0.5] of it. *)
Definition reacquires (h : Hook) : Prop :=
  targetPositionRef h = None
  \/ exists t, targetPositionRef h = Some t
       /\ JS.hypot (px (position (drone (state h))) - px t)
                   (pz (position (drone (state h))) - pz t) < 0.5.

(** A grid as [createGrid] builds it: [GRID_SIZE] rows of [GRID_SIZE] cells. *)
Definition wfGrid (g : Grid) : Prop :=
  List.length g = Z.to_nat GRID_SIZE
  /\ Forall (fun row : list GridCell => List.length row = Z.to_nat GRID_SIZE) g.

Definition noFixed : R -> nat -> string := fun _ _ => EmptyString.
Definition noPrint : R -> string := fun _ => EmptyString.
Definition zeroRandom : nat -> R := fun _ => 0.

Definition sampleGrid : Grid := fst (createGrid true zeroRandom 0%nat).

Definition sampleIntruder : Intruder :=
  {| intr_id := "intruder-0";
     intr_position := {| px := 1; py := 2; pz := 1 |};
     detected := false;
     threatLevel := high;
     detectedAt := None |}.

(** The detection scenario: agent at [(0, 2, 0)] with sensor radius 4, one
    undetected intruder at [(1, 2, 1)], Running and not paused. *)
Definition sampleState : SimulationState :=
  {| isRunning := true;
     isPaused := false;
     speed := 1;
     currentAlgorithm := ZPA;
     currentEnvironment := open_grid;
     activeHeatmap := none;
     drone := initialDroneState;
     obstacles := [];
     intruders := [ sampleIntruder ];
     grid := sampleGrid;
     metrics := withTotalIntruders initialMetrics 1;
     decisionReasons := [];
     timeline := [];
     elapsedTime := 0 |}.

Definition droneAt (x z : R) : DroneState :=
  {| position := {| px := x; py := 2; pz := z |};
     rotation := 0;
     fovAngle := 60;
     fovRange := 4;
     battery := 100;
     drone_speed := 1;
     isMoving := false |}.

(** The cell [(gx, gz)] lies in the marking window of a drone at grid cell
    [(droneGridX, droneGridZ)]: offset at most 3 on each axis and Euclidean
    length of the offset at most the sensor radius. *)
Definition inWindow (droneGridX droneGridZ : Z) (fov : R) (gx gz : Z) : bool :=
  (Z.abs (gx - droneGridX) <=? 3)%Z && (Z.abs (gz - droneGridZ) <=? 3)%Z
  && JS.leb (JS.hypot (IZR (gx - droneGridX)) (IZR (gz - droneGridZ))) fov.

(** The loop offset [d] writes the cell [(gx, gz)]. *)
Definition hits (droneGridX droneGridZ : Z) (fov : R) (gx gz : Z) (d : Z * Z) : bool :=
  (droneGridX + fst d =? gx)%Z && (droneGridZ + snd d =? gz)%Z
  && inBounds gx gz
  && JS.leb (JS.hypot (IZR (fst d)) (IZR (snd d))) fov.

(** The intruders whose [detected] flag rose on this tick, in list order. *)
Definition newlyDetected (newIntruders prevIntruders : list Intruder) : list Intruder :=
  map fst (filter (fun p : Intruder * Intruder => detected (fst p) && negb (detected (snd p)))
             (combine newIntruders prevIntruders)).

Fixpoint nonIncreasing (l : list R) : Prop :=
  match l with
  | a :: (b :: _) as rest => b <= a /\ nonIncreasing rest
  | _ => True
  end.

Definition batteryOf (h : Hook) : R := battery (drone (state h)).

(** Invariant of the marking loops: after the offsets in [done], a cell is
    [markCell] of its original exactly when one of those offsets wrote it. *)
Definition markedBy (dgx dgz : Z) (fov e : R) (g : Grid) (done : list (Z * Z))
    (acc : option Grid) : Prop :=
  exists gk, acc = Some gk /\ wfGrid gk
    /\ forall x z, gridAt gk x z
         = option_map (fun c => if existsb (hits dgx dgz fov x z) done
                                then markCell e c else c) (gridAt g x z).

(** The sample hook with a current target 9 units east of the agent. *)
Definition eastTarget : Position := {| px := 9; py := 2; pz := 0 |}.
Definition movingHook : Hook := {| state := sampleState; targetPositionRef := Some eastTarget |}.

(** The same hook after [setSpeed (-1)]. *)
Definition reversedHook : Hook := setSpeed (-1) movingHook.

(** The same hook after [setSpeed 100]. *)
Definition hastyHook : Hook := setSpeed 100 movingHook.

(** The patrol field: [x] and [z] within [-9, 9]. *)
Definition inField (p : Position) : Prop :=
  -9 <= px p <= 9 /\ -9 <= pz p <= 9.

(** The candidate list PDAP scans: detected intruders first, then the lattice. *)
Definition pdapCandidates (intrs : list Intruder) : list Candidate :=
  (map (fun i => mkCand (px (intr_position i)) (pz (intr_position i)) cand_threat 10)
     (filter detected intrs) ++ sectorCandidates)%list.

(** A decision's justification as the breakdown panel expects it: one or two
    reasons, the first of rank 1, every weight a percentage. *)
Definition wellFormedReasons (rs : list DecisionReason) : Prop :=
  (1 <= List.length rs <= 2)%nat
  /\ option_map reason_id (nth_error rs 0) = Some 1%Z
  /\ Forall (fun r => (0 <= weight r <= 100)%Z) rs.

(** The range within which PDAP accepts a candidate at the given battery. *)
Definition pdapMaxRange (d : DroneState) : R :=
  if JS.gtb (JS.orZero (battery d)) 50 then 20 else 10.

Definition pdapMoveCost (d : DroneState) : R :=
  if JS.gtb (JS.orZero (battery d)) 30 then 0.05 else 0.2.

Definition candDist (d : DroneState) (c : Candidate) : R :=
  JS.hypot (cand_x c - px (position d)) (cand_z c - pz (position d)).

(** The scan keeps these together: a target is recorded exactly when a score
    is, and the recorded target is a candidate in range. *)
Definition scanned (d : DroneState) (cands : list Candidate) (b : Best) : Prop :=
  (bestTarget b = None -> bestScore b = None)
  /\ (bestTarget b <> None -> bestScore b <> None)
  /\ forall p, bestTarget b = Some p ->
       exists c, In c cands /\ p = (cand_x c, cand_z c)
                 /\ candDist d c <= pdapMaxRange d.

(** How a grid cell may change over ticks: coordinates and threat value are
    kept, [visited] and [isVisible] only rise, and a non-negative uncertainty
    only falls, never below 0. *)
Definition cellAdvances (c c' : GridCell) : Prop :=
  cell_x c' = cell_x c /\ cell_y c' = cell_y c /\ threatValue c' = threatValue c
  /\ (visited c = true -> visited c' = true)
  /\ (isVisible c = true -> isVisible c' = true)
  /\ (0 <= uncertaintyValue c -> 0 <= uncertaintyValue c' <= uncertaintyValue c).

Definition gridAdvances (g g' : Grid) : Prop :=
  forall gx gz, match gridAt g gx gz, gridAt g' gx gz with
                | Some c, Some c' => cellAdvances c c'
                | None, None => True
                | _, _ => False
                end.

(** How an intruder may change over ticks: not at all, or from undetected to
    detected with a time stamp, keeping id, position and threat level. *)
Definition intruderAdvances (i i' : Intruder) : Prop :=
  i' = i
  \/ (detected i = false /\ detected i' = true /\ detectedAt i' <> None
      /\ intr_id i' = intr_id i /\ intr_position i' = intr_position i
      /\ threatLevel i' = threatLevel i).

(** The fields a tick never writes. *)
Definition sameControls (s s' : SimulationState) : Prop :=
  isRunning s' = isRunning s /\ isPaused s' = isPaused s /\ speed s' = speed s
  /\ currentAlgorithm s' = currentAlgorithm s
  /\ currentEnvironment s' = currentEnvironment s
  /\ activeHeatmap s' = activeHeatmap s /\ obstacles s' = obstacles s.

Definition advances (h h' : Hook) : Prop :=
  gridAdvances (grid (state h)) (grid (state h'))
  /\ Forall2 intruderAdvances (intruders (state h)) (intruders (state h'))
  /\ sameControls (state h) (state h').

(** The agent and its current target, if any, are in the field. *)
Definition patrolsField (h : Hook) : Prop :=
  inField (position (drone (state h)))
  /\ forall t, targetPositionRef h = Some t -> inField t.

(** [Math.random] returns numbers in [0, 1). *)
Definition unitDraws (random : nat -> R) : Prop := forall k, 0 <= random k < 1.

(** Number of obstacles of each preset. *)
Definition obstacleCount (env : Environment) : nat :=
  match env with
  | open_grid => 0
  | urban_dense => 15
  | maze_facility => 9
  | dynamic_risk => 6
  | changing_env => 10
  | fog_of_war => 8
  end.

Definition intruderCount (env : Environment) : nat :=
  match env with dynamic_risk => 8 | _ => 4 end.

(** Within 1.5 of one of the four cluster centres on both axes. *)
Definition nearCluster (p : Position) : Prop :=
  exists c, In c clusterCenters
            /\ -1.5 <= px p - fst c <= 1.5 /\ -1.5 <= pz p - snd c <= 1.5.

(** What [generateObstacles] promises of each obstacle of preset [env]. *)
Definition obstacleShape (env : Environment) (o : Obstacle) : Prop :=
  obs_type o = (match env with changing_env => dynamic | _ => static end)
  /\ (env <> changing_env -> obs_visible o = true)
  /\ py (obs_position o) = 0
  /\ -8 <= px (obs_position o) <= 8 /\ -8 <= pz (obs_position o) <= 8
  /\ 0 < width (obs_size o) /\ 0 < height (obs_size o) /\ 0 < depth (obs_size o).

(** What [createGrid] promises of the cell at row [x], column [y]. *)
Definition freshCell (fogOfWar : bool) (x y : Z) (c : GridCell) : Prop :=
  cell_x c = x /\ cell_y c = y
  /\ visited c = false /\ lastVisited c = 0 /\ coverageValue c = 0
  /\ isVisible c = negb fogOfWar
  /\ (fogOfWar = true -> uncertaintyValue c = 1)
  /\ (fogOfWar = false -> 0 <= uncertaintyValue c < 0.5)
  /\ 0 <= threatValue c < 0.3.

Definition sampleDetection : Detection :=
  {| det_id := "detection-0-0"; det_label := "person"; confidence := 0.9;
     bbox := (0, 0, 10, 10); det_timestamp := 1000 |}.

(** Time stamps, in seconds, of the events of a list of alert effects. *)
Definition alertTimes (outs : list AlertEffects) : list R :=
  map (fun e => timestamp (timelineEvent e)) outs.

(** Planar distance from the agent to a waypoint. *)
Definition hop (d : DroneState) (p : Position) : R :=
  JS.hypot (px p - px (position d)) (pz p - pz (position d)).

(** * Verification *)

(** ** Comparisons and [Math] helpers *)

Lemma ltb_true (a b : R) : a < b -> JS.ltb a b = true.
Proof. intros H. unfold JS.ltb. destruct (Rlt_dec a b); [reflexivity | contradiction]. Qed.

Lemma ltb_false (a b : R) : b <= a -> JS.ltb a b = false.
Proof. intros H. unfold JS.ltb. destruct (Rlt_dec a b); [lra | reflexivity]. Qed.

Lemma leb_true (a b : R) : a <= b -> JS.leb a b = true.
Proof. intros H. unfold JS.leb. destruct (Rle_dec a b); [reflexivity | contradiction]. Qed.

Lemma leb_false (a b : R) : b < a -> JS.leb a b = false.
Proof. intros H. unfold JS.leb. destruct (Rle_dec a b); [lra | reflexivity]. Qed.

Lemma ltb_spec (a b : R) : JS.ltb a b = true <-> a < b.
Proof.
  unfold JS.ltb. destruct (Rlt_dec a b); split; intros; try easy.
Qed.

Lemma leb_spec (a b : R) : JS.leb a b = true <-> a <= b.
Proof.
  unfold JS.leb. destruct (Rle_dec a b); split; intros; try easy.
Qed.

Lemma max_clamp_id (v : R) : -9 <= v <= 9 -> JS.max (-9) (JS.min 9 v) = v.
Proof.
  intros [Hl Hu]. unfold JS.max, JS.min.
  rewrite Rmin_right by lra. rewrite Rmax_right by lra. reflexivity.
Qed.

Lemma floor_eq (z : Z) (v : R) : IZR z <= v < IZR z + 1 -> JS.floor v = z.
Proof. apply Zfloor_eq. Qed.

Lemma hypot_nonneg (a b : R) : 0 <= JS.hypot a b.
Proof. apply sqrt_pos. Qed.

Lemma hypot_sqr (a b : R) : JS.hypot a b * JS.hypot a b = a * a + b * b.
Proof. unfold JS.hypot. apply sqrt_sqrt. nra. Qed.

Lemma hypot_le_iff (a b r : R) : 0 <= r -> (JS.hypot a b <= r <-> a * a + b * b <= r * r).
Proof.
  intros Hr. pose proof (hypot_nonneg a b) as Hn. pose proof (hypot_sqr a b) as Hs.
  split; intros H; nra.
Qed.

Lemma hypot_lt_iff (a b r : R) : 0 <= r -> (JS.hypot a b < r <-> a * a + b * b < r * r).
Proof.
  intros Hr. pose proof (hypot_nonneg a b) as Hn. pose proof (hypot_sqr a b) as Hs.
  split; intros H; nra.
Qed.

(** ** The generator monad *)

Lemma forPush_length {A} (idx : list nat) (body : nat -> Gen A) random n :
  List.length (fst (forPush idx body random n)) = List.length idx.
Proof.
  revert n. induction idx as [| i rest IH]; intros n; simpl; [reflexivity |].
  unfold bind. destruct (body i random n) as [a n1].
  specialize (IH n1). destruct (forPush rest body random n1) as [out n2].
  simpl in *. now rewrite IH.
Qed.

Lemma forPush_Forall {A} (P : A -> Prop) (idx : list nat) (body : nat -> Gen A) random n :
  (forall i m, P (fst (body i random m))) ->
  Forall P (fst (forPush idx body random n)).
Proof.
  intros HP. revert n. induction idx as [| i rest IH]; intros n; simpl; [constructor |].
  unfold bind. pose proof (HP i n) as Hi. destruct (body i random n) as [a n1].
  specialize (IH n1). destruct (forPush rest body random n1) as [out n2].
  simpl in *. now constructor.
Qed.

Lemma generateIntruder_undetected env i random m :
  detected (fst (generateIntruder env i random m)) = false.
Proof.
  unfold generateIntruder, bind, Math_random, ret.
  destruct (Environment_eqb env dynamic_risk && Nat.ltb 0 i); reflexivity.
Qed.

Lemma threat_index_in_range (r : R) :
  0 <= r < 1 -> (0 <= JS.floor (r * 3) <= 2)%Z.
Proof.
  intros [H0 H1]. unfold JS.floor.
  pose proof (Zfloor_bound (r * 3)) as [Hl Hu].
  split.
  - apply Zfloor_lub. simpl. lra.
  - assert (IZR (Zfloor (r * 3)) < 3) as Hlt by lra.
    apply lt_IZR in Hlt. lia.
Qed.

Example dynamic_risk_obstacle_ids :
  map obs_id (fst (generateObstacles dynamic_risk zeroRandom 0%nat))
  = [ "obs-0"; "obs-1"; "obs-2"; "obs-3"; "obs-4"; "obs-5" ]%string.
Proof. reflexivity. Qed.

Example maze_facility_walls :
  map obs_id (fst (generateObstacles maze_facility zeroRandom 0%nat))
  = [ "wall-0"; "wall-1"; "wall-2"; "wall-3"; "wall-4"; "wall-5"; "wall-6";
      "wall-7"; "wall-8" ]%string.
Proof. reflexivity. Qed.

(** Random draws consumed: two per obstacle of 'dynamic-risk'; for its
    intruders three for the first and five for each of the other seven. *)
Example dynamic_risk_draws :
  snd (generateObstacles dynamic_risk zeroRandom 0%nat) = 12%nat
  /\ snd (generateIntruders dynamic_risk zeroRandom 0%nat) = 38%nat
  /\ snd (generateIntruders open_grid zeroRandom 0%nat) = 12%nat.
Proof. repeat split. Qed.

(** C8. [generateObstacles] on 'open-grid' is the empty list; on
    'dynamic-risk' it is six obstacles, every one of type static; and
    [generateIntruders] on 'dynamic-risk' is eight intruders, none of them
    detected.  This holds for every stream of random draws and every position
    in the stream. *)
Theorem C8_generated_world_shape (random : nat -> R) (n : nat) :
  fst (generateObstacles open_grid random n) = []
  /\ (List.length (fst (generateObstacles dynamic_risk random n)) = 6%nat
      /\ Forall (fun o => obs_type o = static) (fst (generateObstacles dynamic_risk random n)))
  /\ (List.length (fst (generateIntruders dynamic_risk random n)) = 8%nat
      /\ Forall (fun i => detected i = false) (fst (generateIntruders dynamic_risk random n))).
Proof.
  split; [reflexivity |]. split; split.
  - unfold generateObstacles. now rewrite forPush_length.
  - unfold generateObstacles. apply forPush_Forall. intros i m. reflexivity.
  - unfold generateIntruders. simpl Environment_eqb. cbv iota. now rewrite forPush_length.
  - unfold generateIntruders. apply forPush_Forall. intros i m.
    apply generateIntruder_undetected.
Qed.

(** ** Control actions *)

(** C4 (as the code has it). [setSpeed] stores the multiplier it is given,
    whatever its value, also outside [0.25, 4]; every other field of the state
    and the target reference are left as they were. *)
Theorem C4_setSpeed_stores_any_multiplier (v : R) (h : Hook) :
  speed (state (setSpeed v h)) = v
  /\ setSpeed v h
     = {| state :=
            {| isRunning := isRunning (state h);
               isPaused := isPaused (state h);
               speed := v;
               currentAlgorithm := currentAlgorithm (state h);
               currentEnvironment := currentEnvironment (state h);
               activeHeatmap := activeHeatmap (state h);
               drone := drone (state h);
               obstacles := obstacles (state h);
               intruders := intruders (state h);
               grid := grid (state h);
               metrics := metrics (state h);
               decisionReasons := decisionReasons (state h);
               timeline := timeline (state h);
               elapsedTime := elapsedTime (state h) |};
          targetPositionRef := targetPositionRef h |}.
Proof. split; reflexivity. Qed.

(** C4 fails as stated: with the previous speed [1], [setSpeed 5] is not
    rejected; the speed field becomes [5]. *)
Lemma C4_setSpeed_out_of_range_accepted :
  speed sampleState = 1
  /\ ~ (0.25 <= 5 <= 4)
  /\ speed (state (setSpeed 5 (mkHook sampleState None))) <> speed sampleState.
Proof.
  split; [reflexivity |]. split; [lra |]. simpl. lra.
Qed.

(** ** Zigzag patrol *)

Lemma zpa_column_at_x0 : JS.floor ((0 + 10) / 2) = 5%Z.
Proof. apply floor_eq. simpl. lra. Qed.

Lemma decideZPA_at_x0 (d : DroneState) :
  px (position d) = 0 ->
  decideZPA d
  = if JS.geb (pz (position d) * -1) 8
    then (setXZ (position d) 2 (pz (position d)),
          [ mkReason 1 "Advancing to next row" 80 "ArrowRight";
            mkReason 2 "Systematic coverage" 60 "Grid3x3" ])
    else (setXZ (position d) 0 (pz (position d) + -1 * 2),
          [ mkReason 1 "Continuing zigzag pattern" 80 "TrendingUp";
            mkReason 2 "Systematic coverage" 60 "Grid3x3" ]).
Proof.
  intros Hx. unfold decideZPA. rewrite Hx, zpa_column_at_x0. simpl Z.eqb. cbv iota.
  destruct (JS.geb (pz (position d) * -1) 8); cbv beta iota zeta.
  - replace (0 + 2) with 2 by lra.
    unfold JS.gtb. simpl px. rewrite ltb_false by lra. reflexivity.
  - unfold JS.gtb. simpl px. rewrite ltb_false by lra. reflexivity.
Qed.

Lemma zpa_x0_z9 (toFixed : R -> nat -> string) (now : R)
    (d : DroneState) (g : Grid) (intrs : list Intruder) (obs : list Obstacle)
    (random : nat -> R) (n : nat) :
  px (position d) = 0 -> pz (position d) = 9 ->
  getNextPosition toFixed now ZPA d g intrs obs random n
  = (({| px := 0; py := py (position d); pz := 7 |},
      [ mkReason 1 "Continuing zigzag pattern" 80 "TrendingUp";
        mkReason 2 "Systematic coverage" 60 "Grid3x3" ]), n).
Proof.
  intros Hx Hz.
  unfold getNextPosition, bind, ret. rewrite (decideZPA_at_x0 d Hx), Hz.
  unfold JS.geb. rewrite leb_false by lra.
  unfold clampPosition, setXZ. simpl.
  rewrite !max_clamp_id by lra.
  replace (9 + -1 * 2) with 7 by lra. reflexivity.
Qed.

Lemma zpa_x0_zm9 (toFixed : R -> nat -> string) (now : R)
    (d : DroneState) (g : Grid) (intrs : list Intruder) (obs : list Obstacle)
    (random : nat -> R) (n : nat) :
  px (position d) = 0 -> pz (position d) = -9 ->
  getNextPosition toFixed now ZPA d g intrs obs random n
  = (({| px := 2; py := py (position d); pz := -9 |},
      [ mkReason 1 "Advancing to next row" 80 "ArrowRight";
        mkReason 2 "Systematic coverage" 60 "Grid3x3" ]), n).
Proof.
  intros Hx Hz.
  unfold getNextPosition, bind, ret. rewrite (decideZPA_at_x0 d Hx), Hz.
  unfold JS.geb. rewrite leb_true by lra.
  unfold clampPosition, setXZ. simpl.
  rewrite !max_clamp_id by lra. reflexivity.
Qed.

(** C3 (as the code has it). At [x = 0] the column is [floor ((0+10)/2) = 5],
    an odd number, so the direction is [-1].  With [z = 9] (so
    [z * dir = -9 < 8]) the ZPA decision keeps [x] and moves [z] by [-2] to
    [7], with the reason 'Continuing zigzag pattern'.  The row advance, [x]
    advanced by 2 to [2] with [z] unchanged and the reason 'Advancing to next
    row', is taken at [x = 0] with [z = -9] (so [z * dir = 9 >= 8]). *)
Theorem C3_zpa_decision_at_x0 (toFixed : R -> nat -> string) (now : R)
    (d : DroneState) (g : Grid) (intrs : list Intruder) (obs : list Obstacle)
    (random : nat -> R) (n : nat) :
  px (position d) = 0 ->
  (pz (position d) = 9 ->
   getNextPosition toFixed now ZPA d g intrs obs random n
   = (({| px := 0; py := py (position d); pz := 7 |},
       [ mkReason 1 "Continuing zigzag pattern" 80 "TrendingUp";
         mkReason 2 "Systematic coverage" 60 "Grid3x3" ]), n))
  /\ (pz (position d) = -9 ->
      getNextPosition toFixed now ZPA d g intrs obs random n
      = (({| px := px (position d) + 2; py := py (position d); pz := pz (position d) |},
          [ mkReason 1 "Advancing to next row" 80 "ArrowRight";
            mkReason 2 "Systematic coverage" 60 "Grid3x3" ]), n)).
Proof.
  intros Hx. split; intros Hz.
  - now apply zpa_x0_z9.
  - rewrite (zpa_x0_zm9 toFixed now d g intrs obs random n Hx Hz), Hx, Hz.
    replace (0 + 2) with 2 by lra. reflexivity.
Qed.

Lemma C3_zpa_decision_at_x0_witness :
  (px (position (droneAt 0 9)) = 0
   /\ pz (position (droneAt 0 9)) = 9
   /\ fst (getNextPosition noFixed 0 ZPA (droneAt 0 9) [] [] [] zeroRandom 0%nat)
      = ({| px := 0; py := 2; pz := 7 |},
         [ mkReason 1 "Continuing zigzag pattern" 80 "TrendingUp";
           mkReason 2 "Systematic coverage" 60 "Grid3x3" ]))
  /\ (px (position (droneAt 0 (-9))) = 0
      /\ pz (position (droneAt 0 (-9))) = -9
      /\ fst (getNextPosition noFixed 0 ZPA (droneAt 0 (-9)) [] [] [] zeroRandom 0%nat)
         = ({| px := 0 + 2; py := 2; pz := -9 |},
            [ mkReason 1 "Advancing to next row" 80 "ArrowRight";
              mkReason 2 "Systematic coverage" 60 "Grid3x3" ])).
Proof.
  split.
  - split; [reflexivity |]. split; [reflexivity |].
    destruct (C3_zpa_decision_at_x0 noFixed 0 (droneAt 0 9) [] [] [] zeroRandom 0%nat
                eq_refl) as [H _].
    rewrite (H eq_refl). reflexivity.
  - split; [reflexivity |]. split; [reflexivity |].
    destruct (C3_zpa_decision_at_x0 noFixed 0 (droneAt 0 (-9)) [] [] [] zeroRandom 0%nat
                eq_refl) as [_ H].
    rewrite (H eq_refl). reflexivity.
Defined.

(** C3 fails as stated: at [x = 0], [z = 9] the ZPA decision neither advances
    [x] by 2, nor leaves [z] unchanged, nor gives the row-advance reason. *)
Lemma C3_zpa_x0_z9_no_row_advance :
  let r := fst (getNextPosition noFixed 0 ZPA (droneAt 0 9) [] [] [] zeroRandom 0%nat) in
  px (fst r) <> px (position (droneAt 0 9)) + 2
  /\ pz (fst r) <> pz (position (droneAt 0 9))
  /\ ~ In (mkReason 1 "Advancing to next row" 80 "ArrowRight") (snd r).
Proof.
  cbv zeta.
  rewrite (zpa_x0_z9 noFixed 0 (droneAt 0 9) [] [] [] zeroRandom 0%nat eq_refl eq_refl).
  simpl. split; [lra |]. split; [lra |].
  intros [E | [E | []]]; discriminate E.
Qed.

(** ** Lists and grids updated by index *)

Lemma updateAt_length {A} (f : A -> A) (xs xs' : list A) (n : nat) :
  updateAt n f xs = Some xs' -> List.length xs' = List.length xs.
Proof.
  revert n xs'. induction xs as [| a rest IH]; intros [| n] xs' H; simpl in H;
    try discriminate.
  - injection H as <-. reflexivity.
  - destruct (updateAt n f rest) as [r |] eqn:E; simpl in H; [| discriminate].
    injection H as <-. simpl. f_equal. eapply IH. eassumption.
Qed.

Lemma updateAt_in_range {A} (f : A -> A) (xs : list A) (n : nat) :
  (n < List.length xs)%nat -> exists xs', updateAt n f xs = Some xs'.
Proof.
  revert n. induction xs as [| a rest IH]; intros [| n] H; simpl in *; try lia.
  - eexists. reflexivity.
  - destruct (IH n) as [r Hr]; [lia |]. rewrite Hr. eexists. reflexivity.
Qed.

Lemma updateAt_nth_error {A} (f : A -> A) (xs xs' : list A) (n m : nat) :
  updateAt n f xs = Some xs' ->
  nth_error xs' m = if Nat.eqb m n then option_map f (nth_error xs m) else nth_error xs m.
Proof.
  revert n m xs'. induction xs as [| a rest IH]; intros [| n] m xs' H; simpl in H;
    try discriminate.
  - injection H as <-. destruct m; reflexivity.
  - destruct (updateAt n f rest) as [r |] eqn:E; simpl in H; [| discriminate].
    injection H as <-. destruct m as [| m]; simpl; [reflexivity |].
    now apply IH.
Qed.

Lemma updateAt_Forall {A} (P : A -> Prop) (f : A -> A) (xs xs' : list A) (n : nat) :
  (forall a, P a -> P (f a)) -> Forall P xs -> updateAt n f xs = Some xs' -> Forall P xs'.
Proof.
  intros Hf. revert n xs'. induction xs as [| a rest IH]; intros [| n] xs' HF H;
    simpl in H; try discriminate.
  - injection H as <-. inversion HF; subst. constructor; auto.
  - destruct (updateAt n f rest) as [r |] eqn:E; simpl in H; [| discriminate].
    injection H as <-. inversion HF; subst. constructor; eauto.
Qed.

Lemma wfGrid_row (g : Grid) (row : list GridCell) (n : nat) :
  wfGrid g -> nth_error g n = Some row -> List.length row = Z.to_nat GRID_SIZE.
Proof.
  intros [_ HF] Hn. rewrite Forall_forall in HF. apply HF.
  eapply nth_error_In. eassumption.
Qed.

Lemma gridAt_Some_inBounds (g : Grid) (x z : Z) (c : GridCell) :
  wfGrid g -> gridAt g x z = Some c -> inBounds x z = true.
Proof.
  intros Hwf H. unfold gridAt in H. unfold inBounds.
  destruct (x <? 0)%Z eqn:Ex; [discriminate |].
  destruct (z <? 0)%Z eqn:Ez; [discriminate |]. simpl in H.
  destruct (nth_error g (Z.to_nat x)) as [row |] eqn:Er; [| discriminate].
  pose proof (wfGrid_row g row _ Hwf Er) as Hlen.
  assert (Z.to_nat x < List.length g)%nat as Hx
      by (apply nth_error_Some; congruence).
  assert (Z.to_nat z < List.length row)%nat as Hz
      by (apply nth_error_Some; congruence).
  destruct Hwf as [Hg _]. rewrite Hg in Hx. rewrite Hlen in Hz.
  unfold GRID_SIZE in *.
  apply Z.ltb_ge in Ex. apply Z.ltb_ge in Ez.
  rewrite !andb_true_iff. repeat split;
    try (apply Z.leb_le; lia); apply Z.ltb_lt; lia.
Qed.

Lemma inBounds_spec (x z : Z) :
  inBounds x z = true <-> (0 <= x < GRID_SIZE /\ 0 <= z < GRID_SIZE)%Z.
Proof.
  unfold inBounds. rewrite !andb_true_iff, !Z.leb_le, !Z.ltb_lt. tauto.
Qed.

(** A write on an in-bounds cell of a well-formed grid succeeds, changes that
    cell by [f] and no other. *)
Lemma writeCell_spec (g : Grid) (gx gz : Z) (f : GridCell -> GridCell) :
  wfGrid g -> inBounds gx gz = true ->
  exists g', writeCell g gx gz f = Some g'
    /\ wfGrid g'
    /\ forall x z, gridAt g' x z
         = if ((x =? gx) && (z =? gz))%Z then option_map f (gridAt g x z)
           else gridAt g x z.
Proof.
  intros Hwf Hb. apply inBounds_spec in Hb. destruct Hb as [Hx Hz].
  unfold GRID_SIZE in Hx, Hz.
  pose proof Hwf as [Hlen HF]. unfold GRID_SIZE in Hlen.
  unfold writeCell.
  destruct (nth_error g (Z.to_nat gx)) as [row |] eqn:Er.
  2:{ apply nth_error_None in Er. lia. }
  pose proof (wfGrid_row g row _ Hwf Er) as Hrow. unfold GRID_SIZE in Hrow.
  destruct (updateAt_in_range f row (Z.to_nat gz)) as [row' Hrow']; [lia |].
  rewrite Hrow'.
  destruct (updateAt_in_range (fun _ => row') g (Z.to_nat gx)) as [g' Hg']; [lia |].
  exists g'. split; [assumption |]. split.
  - split.
    + erewrite updateAt_length by eassumption. assumption.
    + pose proof (updateAt_nth_error _ _ _ _ (Z.to_nat gx) Hg') as Hn.
      rewrite Nat.eqb_refl, Er in Hn. simpl in Hn.
      apply Forall_forall. intros r Hr. apply In_nth_error in Hr as [k Hk].
      rewrite (updateAt_nth_error _ _ _ _ k Hg') in Hk.
      destruct (Nat.eqb k (Z.to_nat gx)).
      * destruct (nth_error g k); simpl in Hk; [| discriminate].
        injection Hk as <-. erewrite updateAt_length by eassumption. assumption.
      * rewrite Forall_forall in HF. apply HF. eapply nth_error_In. eassumption.
  - intros x z. unfold gridAt.
    destruct (x <? 0)%Z eqn:Ex.
    { simpl. assert ((x =? gx)%Z = false) as -> by (apply Z.eqb_neq; apply Z.ltb_lt in Ex; lia).
      reflexivity. }
    destruct (z <? 0)%Z eqn:Ez.
    { simpl. assert ((z =? gz)%Z = false) as -> by (apply Z.eqb_neq; apply Z.ltb_lt in Ez; lia).
      rewrite andb_false_r. reflexivity. }
    simpl. apply Z.ltb_ge in Ex. apply Z.ltb_ge in Ez.
    rewrite (updateAt_nth_error _ _ _ _ (Z.to_nat x) Hg').
    destruct (Z.eqb_spec x gx) as [-> | Hne].
    + rewrite Nat.eqb_refl, Er. simpl.
      rewrite (updateAt_nth_error _ _ _ _ (Z.to_nat z) Hrow').
      destruct (Z.eqb_spec z gz) as [-> | Hnz].
      * rewrite Nat.eqb_refl. reflexivity.
      * assert (Nat.eqb (Z.to_nat z) (Z.to_nat gz) = false) as ->
            by (apply Nat.eqb_neq; lia).
        reflexivity.
    + assert (Nat.eqb (Z.to_nat x) (Z.to_nat gx) = false) as ->
          by (apply Nat.eqb_neq; lia).
      reflexivity.
Qed.

(** ** Coverage marking *)

Lemma windowOffsets_In (a b : Z) :
  In (a, b) windowOffsets <-> (-3 <= a <= 3 /\ -3 <= b <= 3)%Z.
Proof.
  unfold windowOffsets. rewrite in_flat_map. split.
  - intros [dx [Hdx Hin]]. apply in_map_iff in Hin as [dz [Heq Hdz]].
    injection Heq as <- <-. simpl in Hdx, Hdz. lia.
  - intros [Ha Hb]. exists a. split; [simpl; lia |].
    apply in_map_iff. exists b. split; [reflexivity | simpl; lia].
Qed.

Lemma windowOffsets_NoDup : NoDup windowOffsets.
Proof.
  unfold windowOffsets. simpl.
  repeat (constructor; [simpl; intuition congruence |]). constructor.
Qed.

Lemma hits_unique (dgx dgz : Z) (fov : R) (done : list (Z * Z)) (d : Z * Z) :
  ~ In d done ->
  existsb (hits dgx dgz fov (dgx + fst d) (dgz + snd d)) done = false.
Proof.
  intros Hn. apply not_true_is_false. intros H.
  apply existsb_exists in H as [d' [Hin Hh]]. unfold hits in Hh.
  rewrite !andb_true_iff, !Z.eqb_eq in Hh. destruct Hh as [[[Hx Hz] _] _].
  apply Hn. destruct d as [a b], d' as [a' b']. simpl in *.
  assert (a' = a) as -> by lia. assert (b' = b) as -> by lia. assumption.
Qed.

Lemma hits_elsewhere (dgx dgz : Z) (fov : R) (x z : Z) (d : Z * Z) :
  x <> (dgx + fst d)%Z \/ z <> (dgz + snd d)%Z -> hits dgx dgz fov x z d = false.
Proof.
  intros H. unfold hits.
  destruct (Z.eqb_spec (dgx + fst d) x); [| reflexivity].
  destruct (Z.eqb_spec (dgz + snd d) z); [| reflexivity]. lia.
Qed.

Lemma observeStep_markedBy (dgx dgz : Z) (fov e : R) (g : Grid)
    (done : list (Z * Z)) (acc : option Grid) (d : Z * Z) :
  ~ In d done ->
  markedBy dgx dgz fov e g done acc ->
  markedBy dgx dgz fov e g (done ++ [d]) (observeStep dgx dgz fov e acc d).
Proof.
  intros Hfresh [gk [-> [Hwf Hcells]]]. unfold observeStep.
  assert (forall x z, existsb (hits dgx dgz fov x z) (done ++ [d])
                      = existsb (hits dgx dgz fov x z) done || hits dgx dgz fov x z d) as Hex.
  { intros x z. rewrite existsb_app. simpl. now rewrite orb_false_r. }
  destruct (inBounds (dgx + fst d) (dgz + snd d)) eqn:Hb.
  - destruct (JS.leb (JS.hypot (IZR (fst d)) (IZR (snd d))) fov) eqn:Hr.
    + destruct (writeCell_spec gk _ _ (markCell e) Hwf Hb) as [g' [Hw [Hwf' Hg']]].
      exists g'. split; [assumption |]. split; [assumption |].
      intros x z. rewrite Hg', Hex, Hcells.
      destruct (Z.eqb_spec x (dgx + fst d)) as [-> | Hx]; simpl.
      * destruct (Z.eqb_spec z (dgz + snd d)) as [-> | Hz]; simpl.
        -- rewrite hits_unique by assumption.
           assert (hits dgx dgz fov (dgx + fst d) (dgz + snd d) d = true) as ->
               by (unfold hits; rewrite !Z.eqb_refl, Hb, Hr; reflexivity).
           destruct (gridAt g (dgx + fst d) (dgz + snd d)); reflexivity.
        -- rewrite (hits_elsewhere dgx dgz fov _ z d) by (right; assumption).
           now rewrite orb_false_r.
      * rewrite (hits_elsewhere dgx dgz fov x z d) by (left; assumption).
        now rewrite orb_false_r.
    + exists gk. split; [reflexivity |]. split; [assumption |].
      intros x z. rewrite Hex, Hcells.
      assert (hits dgx dgz fov x z d = false) as ->
          by (unfold hits; rewrite Hr; apply andb_false_r).
      now rewrite orb_false_r.
  - exists gk. split; [reflexivity |]. split; [assumption |].
    intros x z. rewrite Hex, Hcells.
    assert (hits dgx dgz fov x z d = false) as ->.
    { unfold hits. destruct (Z.eqb_spec (dgx + fst d) x) as [<- |]; [| reflexivity].
      destruct (Z.eqb_spec (dgz + snd d) z) as [<- |]; [| reflexivity].
      rewrite Hb. reflexivity. }
    now rewrite orb_false_r.
Qed.

Lemma fold_observe_markedBy (dgx dgz : Z) (fov e : R) (g : Grid)
    (rest done : list (Z * Z)) (acc : option Grid) :
  NoDup (done ++ rest) ->
  markedBy dgx dgz fov e g done acc ->
  markedBy dgx dgz fov e g (done ++ rest)
    (fold_left (observeStep dgx dgz fov e) rest acc).
Proof.
  revert done acc. induction rest as [| d rest IH]; intros done acc Hnd Hinv.
  - simpl. now rewrite app_nil_r.
  - simpl. replace (done ++ d :: rest)%list with ((done ++ [d]) ++ rest)%list in *
      by (rewrite <- app_assoc; reflexivity).
    apply IH; [assumption |].
    apply observeStep_markedBy; [| assumption].
    apply NoDup_app_remove_r in Hnd. apply NoDup_remove_2 with (l' := []) in Hnd.
    now rewrite app_nil_r in Hnd.
Qed.

Lemma hits_window (dgx dgz : Z) (fov : R) (x z : Z) :
  inBounds x z = true ->
  existsb (hits dgx dgz fov x z) windowOffsets = inWindow dgx dgz fov x z.
Proof.
  intros Hb. unfold inWindow.
  destruct (existsb (hits dgx dgz fov x z) windowOffsets) eqn:E.
  - apply existsb_exists in E as [[a b] [Hin Hh]].
    apply windowOffsets_In in Hin. unfold hits in Hh. simpl in Hh.
    rewrite !andb_true_iff, !Z.eqb_eq in Hh. destruct Hh as [[[Hx Hz] _] Hr].
    replace (x - dgx)%Z with a by lia. replace (z - dgz)%Z with b by lia.
    rewrite Hr. symmetry. rewrite !andb_true_iff, !Z.leb_le. lia.
  - symmetry. apply not_true_is_false. intros H.
    rewrite !andb_true_iff, !Z.leb_le in H. destruct H as [[Ha Hbz] Hr].
    assert (existsb (hits dgx dgz fov x z) windowOffsets = true) as Habs; [| congruence].
    apply existsb_exists. exists ((x - dgx)%Z, (z - dgz)%Z). split.
    + apply windowOffsets_In. lia.
    + unfold hits. simpl. rewrite Hb, Hr.
      rewrite !andb_true_iff, !Z.eqb_eq. repeat split; lia.
Qed.

(** On a well-formed grid the marking loops succeed, and the result is the
    input with [markCell] applied to the cells of the window and to no other. *)
Lemma markObserved_spec (g : Grid) (dgx dgz : Z) (fov e : R) :
  wfGrid g ->
  exists g', markObserved g dgx dgz fov e = Some g'
    /\ wfGrid g'
    /\ forall x z, gridAt g' x z
         = option_map (fun c => if inWindow dgx dgz fov x z then markCell e c else c)
             (gridAt g x z).
Proof.
  intros Hwf.
  destruct (fold_observe_markedBy dgx dgz fov e g windowOffsets [] (Some g))
    as [g' [Hg' [Hwf' Hcells]]].
  - exact windowOffsets_NoDup.
  - exists g. split; [reflexivity |]. split; [assumption |].
    intros x z. simpl. destruct (gridAt g x z); reflexivity.
  - exists g'. split; [exact Hg' |]. split; [assumption |].
    change ([] ++ windowOffsets)%list with windowOffsets in Hcells.
    intros x z. rewrite Hcells.
    destruct (gridAt g x z) as [c |] eqn:Ec; [| reflexivity]. cbn [option_map].
    rewrite hits_window by exact (gridAt_Some_inBounds g x z c Hwf Ec).
    reflexivity.
Qed.

(** ** The three branches of a tick *)

Section Tick.

Variable toFixed : R -> nat -> string.
Variable numToString : R -> string.
Variables now deltaTime : R.
Variable h : Hook.
Variable random : nat -> R.
Variable n : nat.

Let prev := state h.
Let dt := deltaTime * speed prev.

Lemma needsTarget_reacquires :
  needsTarget (targetPositionRef h) (drone (state h)) = true <-> reacquires h.
Proof.
  unfold reacquires, needsTarget. destruct (targetPositionRef h) as [t |].
  - rewrite ltb_spec. split.
    + intros H. right. exists t. split; [reflexivity | exact H].
    + intros [H | [t' [Ht H]]]; [discriminate |]. injection Ht as <-. exact H.
  - split; intros; [left |]; reflexivity.
Qed.

Lemma tick_idle :
  negb (isRunning prev) || isPaused prev = true ->
  updateSimulation toFixed numToString now deltaTime h random n = (Some h, n).
Proof.
  intros H. unfold prev in H. unfold updateSimulation. rewrite H. reflexivity.
Qed.

Lemma tick_reacquire :
  isRunning prev = true -> isPaused prev = false -> reacquires h ->
  updateSimulation toFixed numToString now deltaTime h random n
  = let r := getNextPosition toFixed now (currentAlgorithm prev) (drone prev)
               (grid prev) (intruders prev) (obstacles prev) random n in
    (Some {| state := withDecisionReasons prev (snd (fst r));
             targetPositionRef := Some (fst (fst r)) |}, snd r).
Proof.
  intros Hr Hp Hq. apply needsTarget_reacquires in Hq.
  unfold prev in *. unfold updateSimulation, bind, ret. rewrite Hr, Hp, Hq.
  cbn [negb orb]. cbv zeta.
  destruct (getNextPosition toFixed now (currentAlgorithm (state h)) (drone (state h))
              (grid (state h)) (intruders (state h)) (obstacles (state h)) random n)
    as [r n'].
  reflexivity.
Qed.

Lemma tick_move (target : Position) :
  isRunning prev = true -> isPaused prev = false ->
  targetPositionRef h = Some target -> ~ reacquires h ->
  updateSimulation toFixed numToString now deltaTime h random n
  = (option_map (fun s => {| state := s; targetPositionRef := Some target |})
       (moveTick toFixed numToString dt target prev), n).
Proof.
  intros Hr Hp Ht Hq. rewrite <- needsTarget_reacquires in Hq.
  apply not_true_is_false in Hq.
  unfold dt, prev in *. unfold updateSimulation, ret. rewrite Hr, Hp, Hq, Ht.
  reflexivity.
Qed.

(** On a well-formed grid the movement branch returns a state, built from the
    moved drone, the marked grid and the scanned intruders. *)
Lemma moveTick_wf (target : Position) :
  wfGrid (grid prev) ->
  let newElapsed := elapsedTime prev + dt in
  let newDrone := moveDrone dt target (drone prev) in
  let newIntruders := map (detectIntruder newDrone newElapsed) (intruders prev) in
  exists newGrid,
    markObserved (grid prev) (JS.floor (px (position newDrone) + 10))
      (JS.floor (pz (position newDrone) + 10)) (fovRange newDrone) newElapsed
    = Some newGrid
    /\ wfGrid newGrid
    /\ moveTick toFixed numToString dt target prev
       = Some {| isRunning := isRunning prev;
                 isPaused := isPaused prev;
                 speed := speed prev;
                 currentAlgorithm := currentAlgorithm prev;
                 currentEnvironment := currentEnvironment prev;
                 activeHeatmap := activeHeatmap prev;
                 drone := newDrone;
                 obstacles := obstacles prev;
                 intruders := newIntruders;
                 grid := newGrid;
                 metrics := computeMetrics prev newDrone newGrid newIntruders newElapsed;
                 decisionReasons := decisionReasons prev;
                 timeline :=
                   JS.slice0 50
                     (logDetections toFixed numToString newElapsed newIntruders
                        (intruders prev) (timeline prev));
                 elapsedTime := newElapsed |}.
Proof.
  intros Hwf newElapsed newDrone newIntruders.
  destruct (markObserved_spec (grid prev) (JS.floor (px (position newDrone) + 10))
              (JS.floor (pz (position newDrone) + 10)) (fovRange newDrone) newElapsed Hwf)
    as [g' [Hg' [Hwf' _]]].
  exists g'. split; [exact Hg' |]. split; [exact Hwf' |].
  unfold moveTick. fold newElapsed newDrone. rewrite Hg'. reflexivity.
Qed.

End Tick.

(** C10. On a tick processed while Running and not paused in which target
    reacquisition fires (no current target, or the agent within 0.5 of it), the
    tick returns a state that differs from the previous one in
    [decisionReasons] only: drone, grid, intruders, metrics, timeline and
    elapsed time, and every other field, are those of the previous state. *)
Theorem C10_reacquisition_changes_only_reasons (toFixed : R -> nat -> string)
    (numToString : R -> string) (now deltaTime : R) (h : Hook)
    (random : nat -> R) (n : nat) :
  isRunning (state h) = true -> isPaused (state h) = false -> reacquires h ->
  exists h' n',
    updateSimulation toFixed numToString now deltaTime h random n = (Some h', n')
    /\ state h' = withDecisionReasons (state h) (decisionReasons (state h'))
    /\ drone (state h') = drone (state h)
    /\ grid (state h') = grid (state h)
    /\ intruders (state h') = intruders (state h)
    /\ metrics (state h') = metrics (state h)
    /\ timeline (state h') = timeline (state h)
    /\ elapsedTime (state h') = elapsedTime (state h).
Proof.
  intros Hr Hp Hq.
  rewrite (tick_reacquire toFixed numToString now deltaTime h random n Hr Hp Hq).
  cbv zeta. eexists. eexists. split; [reflexivity |].
  simpl. repeat split; reflexivity.
Qed.

Lemma C10_reacquisition_changes_only_reasons_witness :
  isRunning sampleState = true /\ isPaused sampleState = false
  /\ reacquires (mkHook sampleState None)
  /\ exists h' n',
       updateSimulation noFixed noPrint 0 0.1 (mkHook sampleState None) zeroRandom 0%nat
       = (Some h', n')
       /\ state h' = withDecisionReasons sampleState (decisionReasons (state h'))
       /\ drone (state h') = drone sampleState
       /\ grid (state h') = grid sampleState
       /\ intruders (state h') = intruders sampleState
       /\ metrics (state h') = metrics sampleState
       /\ timeline (state h') = timeline sampleState
       /\ elapsedTime (state h') = elapsedTime sampleState.
Proof.
  split; [reflexivity |]. split; [reflexivity |]. split; [left; reflexivity |].
  apply (C10_reacquisition_changes_only_reasons noFixed noPrint 0 0.1
           (mkHook sampleState None) zeroRandom 0%nat);
    [reflexivity | reflexivity | left; reflexivity].
Defined.

(** ** Sample scenarios *)

Lemma createGrid_wf (fogOfWar : bool) (random : nat -> R) (n : nat) :
  wfGrid (fst (createGrid fogOfWar random n)).
Proof.
  unfold wfGrid, createGrid. split.
  - etransitivity; [apply forPush_length | apply length_seq].
  - apply forPush_Forall. intros i m.
    etransitivity; [apply forPush_length | apply length_seq].
Qed.

Lemma sampleGrid_wf : wfGrid sampleGrid.
Proof. apply createGrid_wf. Qed.

Lemma movingHook_moves : ~ reacquires movingHook.
Proof.
  intros [H | [t [Ht Hlt]]]; [discriminate |].
  injection Ht as <-. simpl in Hlt.
  apply hypot_lt_iff in Hlt; lra.
Qed.

Lemma not_reacquires_target (h : Hook) :
  ~ reacquires h -> exists target, targetPositionRef h = Some target.
Proof.
  intros H. destruct (targetPositionRef h) as [t |] eqn:E.
  - exists t. reflexivity.
  - exfalso. apply H. left. exact E.
Qed.

(** ** Battery *)

Lemma battery_step (b dt : R) :
  0 <= dt -> 0 <= b <= 100 ->
  JS.max 0 (b - 0.01 * dt) <= b /\ 0 <= JS.max 0 (b - 0.01 * dt) <= 100.
Proof.
  intros Hdt [Hb0 Hb1]. unfold JS.max, Rmax.
  destruct (Rle_dec 0 (b - 0.01 * dt)); lra.
Qed.

(** C2 (as the code has it). On a tick processed while Running and not paused
    that takes the movement branch (there is a current target and the agent is
    at least 0.5 away from it), the battery becomes
    [max (0, battery - 0.01 * dt)] with [dt = deltaTime * speed], whatever the
    movement of that tick.  On a tick that only acquires a new target the
    battery is left as it was. *)
Theorem C2_battery_drain_per_tick (toFixed : R -> nat -> string)
    (numToString : R -> string) (now deltaTime : R) (h : Hook)
    (random : nat -> R) (n : nat) :
  isRunning (state h) = true -> isPaused (state h) = false ->
  wfGrid (grid (state h)) ->
  (~ reacquires h ->
   exists h',
     updateSimulation toFixed numToString now deltaTime h random n = (Some h', n)
     /\ batteryOf h' = JS.max 0 (batteryOf h - 0.01 * (deltaTime * speed (state h))))
  /\ (reacquires h ->
      exists h' n',
        updateSimulation toFixed numToString now deltaTime h random n = (Some h', n')
        /\ batteryOf h' = batteryOf h).
Proof.
  intros Hr Hp Hwf. split; intros Hq.
  - destruct (not_reacquires_target h Hq) as [target Ht].
    rewrite (tick_move toFixed numToString now deltaTime h random n target Hr Hp Ht Hq).
    destruct (moveTick_wf toFixed numToString deltaTime h target Hwf)
      as [g' [_ [_ Hm]]].
    rewrite Hm. eexists. split; reflexivity.
  - rewrite (tick_reacquire toFixed numToString now deltaTime h random n Hr Hp Hq).
    cbv zeta. eexists. eexists. split; reflexivity.
Qed.

Lemma C2_battery_drain_per_tick_witness :
  isRunning (state movingHook) = true /\ isPaused (state movingHook) = false
  /\ wfGrid (grid (state movingHook))
  /\ ~ reacquires movingHook
  /\ exists h',
       updateSimulation noFixed noPrint 0 0.1 movingHook zeroRandom 0%nat = (Some h', 0%nat)
       /\ batteryOf h' = JS.max 0 (batteryOf movingHook - 0.01 * (0.1 * speed (state movingHook))).
Proof.
  split; [reflexivity |]. split; [reflexivity |].
  split; [exact sampleGrid_wf |]. split; [exact movingHook_moves |].
  destruct (C2_battery_drain_per_tick noFixed noPrint 0 0.1 movingHook zeroRandom 0%nat
              eq_refl eq_refl sampleGrid_wf) as [Hmove _].
  exact (Hmove movingHook_moves).
Defined.

(** C2 fails as stated: Running, not paused, no current target, battery 100,
    [dt = 0.1]; the tick only acquires a target and the battery stays 100
    instead of dropping to [100 - 0.01 * 0.1]. *)
Lemma C2_no_drain_on_reacquisition :
  exists h' n',
    updateSimulation noFixed noPrint 0 0.1 (mkHook sampleState None) zeroRandom 0%nat
    = (Some h', n')
    /\ batteryOf h' = 100
    /\ batteryOf h' <> JS.max 0 (batteryOf (mkHook sampleState None)
                                 - 0.01 * (0.1 * speed sampleState)).
Proof.
  rewrite (tick_reacquire noFixed noPrint 0 0.1 (mkHook sampleState None) zeroRandom 0%nat
             eq_refl eq_refl (or_introl eq_refl)).
  cbv zeta. eexists. eexists. split; [reflexivity |].
  unfold batteryOf. simpl. split; [reflexivity |].
  unfold JS.max. rewrite Rmax_right by lra. lra.
Qed.

(** One tick with a non-negative scaled delta-time keeps the speed and the
    shape of the grid, and does not raise the battery. *)
Lemma tick_battery_step (toFixed : R -> nat -> string) (numToString : R -> string)
    (now deltaTime : R) (h : Hook) (random : nat -> R) (n : nat) :
  wfGrid (grid (state h)) ->
  0 <= deltaTime * speed (state h) ->
  0 <= batteryOf h <= 100 ->
  exists h' n',
    updateSimulation toFixed numToString now deltaTime h random n = (Some h', n')
    /\ speed (state h') = speed (state h)
    /\ wfGrid (grid (state h'))
    /\ batteryOf h' <= batteryOf h
    /\ 0 <= batteryOf h' <= 100.
Proof.
  intros Hwf Hdt Hb.
  destruct (negb (isRunning (state h)) || isPaused (state h)) eqn:Hidle.
  - rewrite (tick_idle toFixed numToString now deltaTime h random n Hidle).
    exists h, n. split; [reflexivity |]. split; [reflexivity |].
    split; [assumption |]. lra.
  - apply orb_false_elim in Hidle as [Hr Hp]. apply negb_false_iff in Hr.
    destruct (needsTarget (targetPositionRef h) (drone (state h))) eqn:Hq.
    + apply needsTarget_reacquires in Hq.
      rewrite (tick_reacquire toFixed numToString now deltaTime h random n Hr Hp Hq).
      cbv zeta. eexists. eexists. split; [reflexivity |].
      unfold batteryOf in *. simpl. split; [reflexivity |].
      split; [assumption |]. lra.
    + assert (~ reacquires h) as Hnq
          by (rewrite <- needsTarget_reacquires; congruence).
      destruct (not_reacquires_target h Hnq) as [target Ht].
      rewrite (tick_move toFixed numToString now deltaTime h random n target Hr Hp Ht Hnq).
      destruct (moveTick_wf toFixed numToString deltaTime h target Hwf)
        as [g' [_ [Hwf' Hm]]].
      rewrite Hm. eexists. eexists. split; [reflexivity |].
      unfold batteryOf in *. simpl.
      pose proof (battery_step (battery (drone (state h)))
                    (deltaTime * speed (state h)) Hdt Hb) as [H1 H2].
      split; [reflexivity |]. split; [assumption |]. lra.
Qed.

(** A reset puts the battery back to 100 on a fresh 20 x 20 grid, with no
    current target. *)
Lemma resetSimulation_fresh (h : Hook) (random : nat -> R) (n : nat) :
  let h' := fst (resetSimulation h random n) in
  batteryOf h' = 100 /\ wfGrid (grid (state h')) /\ targetPositionRef h' = None.
Proof.
  cbv zeta. unfold resetSimulation, bind, ret.
  pose proof (createGrid_wf (Environment_eqb (currentEnvironment (state h)) fog_of_war)
                random n) as Hwf.
  destruct (createGrid _ random n) as [g n1].
  destruct (generateIntruders (currentEnvironment (state h)) random n1) as [intrs n2].
  destruct (generateObstacles (currentEnvironment (state h)) random n2) as [obs n3].
  destruct (generateIntruders (currentEnvironment (state h)) random n3) as [again n4].
  simpl. repeat split; apply Hwf.
Qed.

(** The hook as first built satisfies what the tick theorems assume: battery
    100, a 20 x 20 grid, an empty timeline, and metrics summing to 100. *)
Lemma initialHook_invariants (random : nat -> R) (n : nat) :
  let h := fst (initialHook random n) in
  batteryOf h = 100
  /\ wfGrid (grid (state h))
  /\ timeline (state h) = []
  /\ areaObserved (metrics (state h)) + blindSpots (metrics (state h)) = 100
  /\ speed (state h) = 1
  /\ targetPositionRef h = None.
Proof.
  cbv zeta. unfold initialHook, bind, ret.
  destruct (generateIntruders open_grid random n) as [intrs n1].
  pose proof (createGrid_wf false random n1) as Hwf.
  destruct (createGrid false random n1) as [g n2].
  simpl in *. split; [reflexivity |]. split; [exact Hwf |].
  split; [reflexivity |]. split; [lra |]. split; reflexivity.
Qed.

(** C5 (as the code has it). Over any sequence of ticks whose scaled
    delta-time is non-negative (time deltas and speed multiplier not below 0),
    started with the battery in [0, 100], all ticks return, the battery is
    non-increasing from tick to tick and stays in [0, 100]. *)
Theorem C5_battery_monotone_bounded (toFixed : R -> nat -> string)
    (numToString : R -> string) (inputs : list (R * R)) (h : Hook)
    (random : nat -> R) (n : nat) :
  wfGrid (grid (state h)) ->
  0 <= batteryOf h <= 100 ->
  0 <= speed (state h) ->
  Forall (fun i => 0 <= snd i) inputs ->
  exists hs n',
    runTicks toFixed numToString inputs h random n = (Some hs, n')
    /\ List.length hs = List.length inputs
    /\ nonIncreasing (map batteryOf (h :: hs))
    /\ Forall (fun h' => 0 <= batteryOf h' <= 100) (h :: hs).
Proof.
  revert h n. induction inputs as [| [now deltaTime] rest IH]; intros h n Hwf Hb Hs Hin.
  - exists [], n. simpl. repeat split; auto.
  - inversion Hin as [| ? ? Hd Hrest]; subst. simpl in Hd.
    assert (0 <= deltaTime * speed (state h)) as Hdt by nra.
    destruct (tick_battery_step toFixed numToString now deltaTime h random n Hwf Hdt Hb)
      as [h1 [n1 [Ht [Hs1 [Hwf1 [Hle Hb1]]]]]].
    rewrite <- Hs1 in Hs.
    destruct (IH h1 n1 Hwf1 Hb1 Hs Hrest) as [hs [n2 [Hrun [Hlen [Hmono Hall]]]]].
    exists (h1 :: hs), n2. split.
    + simpl. unfold bind. rewrite Ht. fold (runTicks toFixed numToString rest).
      rewrite Hrun. reflexivity.
    + split; [simpl; now rewrite Hlen |]. split.
      * change (map batteryOf (h :: h1 :: hs))
          with (batteryOf h :: map batteryOf (h1 :: hs)).
        simpl. simpl in Hmono. split; assumption.
      * constructor; assumption.
Qed.

Lemma C5_battery_monotone_bounded_witness :
  wfGrid (grid (state movingHook))
  /\ 0 <= batteryOf movingHook <= 100
  /\ 0 <= speed (state movingHook)
  /\ Forall (fun i : R * R => 0 <= snd i) [ (0, 0.1); (0, 0.1) ]
  /\ exists hs n',
       runTicks noFixed noPrint [ (0, 0.1); (0, 0.1) ] movingHook zeroRandom 0%nat
       = (Some hs, n')
       /\ List.length hs = 2%nat
       /\ nonIncreasing (map batteryOf (movingHook :: hs))
       /\ Forall (fun h' => 0 <= batteryOf h' <= 100) (movingHook :: hs).
Proof.
  assert (0 <= batteryOf movingHook <= 100) as Hb by (unfold batteryOf; simpl; lra).
  assert (0 <= speed (state movingHook)) as Hs by (simpl; lra).
  assert (Forall (fun i : R * R => 0 <= snd i) [ (0, 0.1); (0, 0.1) ]) as Hin
      by (repeat constructor; simpl; lra).
  split; [exact sampleGrid_wf |]. split; [exact Hb |]. split; [exact Hs |].
  split; [exact Hin |].
  exact (C5_battery_monotone_bounded noFixed noPrint [ (0, 0.1); (0, 0.1) ] movingHook
           zeroRandom 0%nat sampleGrid_wf Hb Hs Hin).
Defined.

Lemma reversedHook_moves : ~ reacquires reversedHook.
Proof.
  intros [H | [t [Ht Hlt]]]; [discriminate |].
  injection Ht as <-. simpl in Hlt.
  apply hypot_lt_iff in Hlt; lra.
Qed.

(** C5 fails as stated: after [setSpeed (-1)] a Running tick with
    [deltaTime = 0.1] and battery 100 has [dt = -0.1]; the battery rises to
    [100 + 0.001], above its previous value and above 100. *)
Lemma C5_battery_rises_with_negative_speed :
  batteryOf reversedHook = 100
  /\ exists h',
       updateSimulation noFixed noPrint 0 0.1 reversedHook zeroRandom 0%nat = (Some h', 0%nat)
       /\ batteryOf reversedHook < batteryOf h'
       /\ 100 < batteryOf h'.
Proof.
  split; [reflexivity |].
  rewrite (tick_move noFixed noPrint 0 0.1 reversedHook zeroRandom 0%nat eastTarget
             eq_refl eq_refl eq_refl reversedHook_moves).
  destruct (moveTick_wf noFixed noPrint 0.1 reversedHook eastTarget sampleGrid_wf)
    as [g' [_ [_ Hm]]].
  rewrite Hm. eexists. split; [reflexivity |].
  unfold batteryOf. simpl. unfold JS.max. rewrite Rmax_right by lra. lra.
Qed.

(** ** Metrics *)

Lemma computeMetrics_area_blind (prev : SimulationState) (newDrone : DroneState)
    (newGrid : Grid) (newIntruders : list Intruder) (newElapsed : R) :
  let m := computeMetrics prev newDrone newGrid newIntruders newElapsed in
  let visitedCount := INR (List.length (filter visited (List.concat newGrid))) in
  areaObserved m = visitedCount / 400 * 100
  /\ blindSpots m = (400 - visitedCount) / 400 * 100
  /\ areaObserved m + blindSpots m = 100.
Proof.
  cbv zeta. unfold computeMetrics. cbn [areaObserved blindSpots].
  change (IZR (GRID_SIZE * GRID_SIZE)) with 400.
  repeat split. field.
Qed.

(** C7. The metrics a tick recomputes have
    [areaObserved = visitedCells / totalCells * 100] and
    [blindSpots = (totalCells - visitedCells) / totalCells * 100] with
    [totalCells = 400], and their sum is exactly 100.  Every tick returns a
    state whose metrics have this sum: the movement branch recomputes them,
    and the other ticks keep the previous metrics. *)
Theorem C7_area_plus_blind_is_100 (toFixed : R -> nat -> string)
    (numToString : R -> string) (now deltaTime : R) (h : Hook)
    (random : nat -> R) (n : nat) :
  wfGrid (grid (state h)) ->
  exists h' n',
    updateSimulation toFixed numToString now deltaTime h random n = (Some h', n')
    /\ (areaObserved (metrics (state h)) + blindSpots (metrics (state h)) = 100 ->
        areaObserved (metrics (state h')) + blindSpots (metrics (state h')) = 100)
    /\ (isRunning (state h) = true -> isPaused (state h) = false -> ~ reacquires h ->
        let visitedCount :=
          INR (List.length (filter visited (List.concat (grid (state h'))))) in
        areaObserved (metrics (state h')) = visitedCount / 400 * 100
        /\ blindSpots (metrics (state h')) = (400 - visitedCount) / 400 * 100
        /\ areaObserved (metrics (state h')) + blindSpots (metrics (state h')) = 100).
Proof.
  intros Hwf.
  destruct (negb (isRunning (state h)) || isPaused (state h)) eqn:Hidle.
  - rewrite (tick_idle toFixed numToString now deltaTime h random n Hidle).
    exists h, n. split; [reflexivity |]. split; [auto |].
    intros Hr Hp _. rewrite Hr, Hp in Hidle. discriminate.
  - apply orb_false_elim in Hidle as [Hr Hp]. apply negb_false_iff in Hr.
    destruct (needsTarget (targetPositionRef h) (drone (state h))) eqn:Hq.
    + apply needsTarget_reacquires in Hq.
      rewrite (tick_reacquire toFixed numToString now deltaTime h random n Hr Hp Hq).
      cbv zeta. eexists. eexists. split; [reflexivity |]. simpl.
      split; [auto |]. intros _ _ Hnq. contradiction.
    + assert (~ reacquires h) as Hnq
          by (rewrite <- needsTarget_reacquires; congruence).
      destruct (not_reacquires_target h Hnq) as [target Ht].
      rewrite (tick_move toFixed numToString now deltaTime h random n target Hr Hp Ht Hnq).
      destruct (moveTick_wf toFixed numToString deltaTime h target Hwf)
        as [g' [_ [_ Hm]]].
      rewrite Hm. eexists. eexists. split; [reflexivity |]. cbn [option_map state metrics grid].
      split; [intros _ | intros _ _ _]; apply computeMetrics_area_blind.
Qed.

Lemma C7_area_plus_blind_is_100_witness :
  wfGrid (grid (state movingHook))
  /\ exists h' n',
       updateSimulation noFixed noPrint 0 0.1 movingHook zeroRandom 0%nat = (Some h', n')
       /\ (areaObserved (metrics (state movingHook)) + blindSpots (metrics (state movingHook))
           = 100 ->
           areaObserved (metrics (state h')) + blindSpots (metrics (state h')) = 100)
       /\ (isRunning (state movingHook) = true -> isPaused (state movingHook) = false ->
           ~ reacquires movingHook ->
           let visitedCount :=
             INR (List.length (filter visited (List.concat (grid (state h'))))) in
           areaObserved (metrics (state h')) = visitedCount / 400 * 100
           /\ blindSpots (metrics (state h')) = (400 - visitedCount) / 400 * 100
           /\ areaObserved (metrics (state h')) + blindSpots (metrics (state h')) = 100).
Proof.
  split; [exact sampleGrid_wf |].
  exact (C7_area_plus_blind_is_100 noFixed noPrint 0 0.1 movingHook zeroRandom 0%nat
           sampleGrid_wf).
Defined.

(** ** Timeline *)

Lemma slice0_length {A} (k : nat) (xs : list A) : (List.length (JS.slice0 k xs) <= k)%nat.
Proof. unfold JS.slice0. apply firstn_le_length. Qed.

Lemma slice0_head {A} (k : nat) (a : A) (xs : list A) :
  nth_error (JS.slice0 (S k) (a :: xs)) 0 = Some a.
Proof. reflexivity. Qed.

Lemma logDetections_closed (toFixed : R -> nat -> string) (numToString : R -> string)
    (e : R) (newIntruders prevIntruders : list Intruder) (tl : list TimelineEvent) :
  logDetections toFixed numToString e newIntruders prevIntruders tl
  = (rev (map (detectionEvent toFixed numToString e)
            (newlyDetected newIntruders prevIntruders)) ++ tl)%list.
Proof.
  unfold logDetections, newlyDetected.
  generalize (combine newIntruders prevIntruders) as ps. intros ps. revert tl.
  induction ps as [| p ps IH]; intros tl; simpl; [reflexivity |].
  destruct (detected (fst p) && negb (detected (snd p))).
  - rewrite IH. simpl. rewrite <- app_assoc. reflexivity.
  - apply IH.
Qed.

(** C9. Each writer of the timeline leaves at most 50 entries with the event
    inserted last at index 0.  [addTimelineEvent] puts its event at index 0;
    [setEnvironment] leaves the single environment-change event; a movement
    tick stores the first 50 entries of its detection events, the latest
    detection first, followed by the previous timeline, so that whenever an
    intruder was newly detected the event of the last of them is at index 0.
    Ticks that do not write keep a timeline of at most 50 entries within that
    bound. *)
Theorem C9_timeline_capped_newest_first (toFixed : R -> nat -> string)
    (numToString : R -> string) (now deltaTime : R) (h : Hook)
    (event : TimelineEvent) (env : Environment) (random : nat -> R) (n : nat) :
  ((List.length (timeline (state (addTimelineEvent event h))) <= 50)%nat
   /\ nth_error (timeline (state (addTimelineEvent event h))) 0 = Some event)
  /\ (let h' := fst (setEnvironment numToString now env h random n) in
      timeline (state h') = [ environmentEvent numToString now env ]
      /\ (List.length (timeline (state h')) <= 50)%nat
      /\ nth_error (timeline (state h')) 0 = Some (environmentEvent numToString now env))
  /\ (wfGrid (grid (state h)) ->
      exists h' n',
        updateSimulation toFixed numToString now deltaTime h random n = (Some h', n')
        /\ ((List.length (timeline (state h)) <= 50)%nat ->
            (List.length (timeline (state h')) <= 50)%nat)
        /\ (isRunning (state h) = true -> isPaused (state h) = false -> ~ reacquires h ->
            let risen := newlyDetected (intruders (state h')) (intruders (state h)) in
            let events :=
              map (detectionEvent toFixed numToString (elapsedTime (state h'))) risen in
            timeline (state h') = JS.slice0 50 (rev events ++ timeline (state h))
            /\ (List.length (timeline (state h')) <= 50)%nat
            /\ forall earlier i, risen = (earlier ++ [i])%list ->
                 nth_error (timeline (state h')) 0
                 = Some (detectionEvent toFixed numToString (elapsedTime (state h')) i))).
Proof.
  split; [| split].
  - split; [apply slice0_length | reflexivity].
  - unfold setEnvironment, bind, ret.
    destruct (generateObstacles env random n) as [obs n1].
    destruct (generateIntruders env random n1) as [intrs n2].
    destruct (createGrid (Environment_eqb env fog_of_war) random n2) as [g n3].
    simpl. split; [reflexivity |]. split; [lia | reflexivity].
  - intros Hwf.
    destruct (negb (isRunning (state h)) || isPaused (state h)) eqn:Hidle.
    + rewrite (tick_idle toFixed numToString now deltaTime h random n Hidle).
      exists h, n. split; [reflexivity |]. split; [auto |].
      intros Hr Hp _. rewrite Hr, Hp in Hidle. discriminate.
    + apply orb_false_elim in Hidle as [Hr Hp]. apply negb_false_iff in Hr.
      destruct (needsTarget (targetPositionRef h) (drone (state h))) eqn:Hq.
      * apply needsTarget_reacquires in Hq.
        rewrite (tick_reacquire toFixed numToString now deltaTime h random n Hr Hp Hq).
        cbv zeta. eexists. eexists. split; [reflexivity |]. simpl.
        split; [auto |]. intros _ _ Hnq. contradiction.
      * assert (~ reacquires h) as Hnq
            by (rewrite <- needsTarget_reacquires; congruence).
        destruct (not_reacquires_target h Hnq) as [target Ht].
        rewrite (tick_move toFixed numToString now deltaTime h random n target Hr Hp Ht Hnq).
        destruct (moveTick_wf toFixed numToString deltaTime h target Hwf)
          as [g' [_ [_ Hm]]].
        rewrite Hm. eexists. eexists. split; [reflexivity |].
        cbn [option_map state timeline intruders elapsedTime].
        split; [intros _; apply slice0_length |]. intros _ _ _. cbv zeta.
        rewrite logDetections_closed.
        split; [reflexivity |]. split; [apply slice0_length |].
        intros earlier i Hrisen. rewrite Hrisen.
        rewrite map_app, rev_app_distr. reflexivity.
Qed.

Lemma C9_timeline_capped_newest_first_witness :
  wfGrid (grid (state movingHook))
  /\ exists h' n',
       updateSimulation noFixed noPrint 0 0.1 movingHook zeroRandom 0%nat = (Some h', n')
       /\ ((List.length (timeline (state movingHook)) <= 50)%nat ->
           (List.length (timeline (state h')) <= 50)%nat)
       /\ (isRunning (state movingHook) = true -> isPaused (state movingHook) = false ->
           ~ reacquires movingHook ->
           let risen := newlyDetected (intruders (state h')) (intruders (state movingHook)) in
           let events := map (detectionEvent noFixed noPrint (elapsedTime (state h'))) risen in
           timeline (state h') = JS.slice0 50 (rev events ++ timeline (state movingHook))
           /\ (List.length (timeline (state h')) <= 50)%nat
           /\ forall earlier i, risen = (earlier ++ [i])%list ->
                nth_error (timeline (state h')) 0
                = Some (detectionEvent noFixed noPrint (elapsedTime (state h')) i)).
Proof.
  split; [exact sampleGrid_wf |].
  destruct (C9_timeline_capped_newest_first noFixed noPrint 0 0.1 movingHook
              (environmentEvent noPrint 0 open_grid) open_grid zeroRandom 0%nat)
    as [_ [_ Htick]].
  exact (Htick sampleGrid_wf).
Defined.

(** ** Movement and detection *)

Lemma hypot_swap (a b c d : R) : JS.hypot (a - b) (c - d) = JS.hypot (b - a) (d - c).
Proof. unfold JS.hypot. f_equal. ring. Qed.

(** The step of a tick has the length of [min (2 dt, distance)]. *)
Lemma move_step_norm (dx dz m : R) :
  0 < JS.hypot dx dz ->
  dx / JS.hypot dx dz * m * (dx / JS.hypot dx dz * m)
  + dz / JS.hypot dx dz * m * (dz / JS.hypot dx dz * m) = m * m.
Proof.
  intros Hd. pose proof (hypot_sqr dx dz) as Hs.
  set (d := JS.hypot dx dz) in *.
  transitivity ((dx * dx + dz * dz) / (d * d) * (m * m)); [field; lra |].
  rewrite <- Hs. field. lra.
Qed.

Lemma moveDrone_far (dt : R) (target : Position) (d : DroneState) :
  0.5 <= JS.hypot (px target - px (position d)) (pz target - pz (position d)) ->
  let dx := px target - px (position d) in
  let dz := pz target - pz (position d) in
  let distance := JS.hypot dx dz in
  position (moveDrone dt target d)
  = {| px := px (position d) + dx / distance * JS.min (2 * dt) distance;
       py := py (position d);
       pz := pz (position d) + dz / distance * JS.min (2 * dt) distance |}
  /\ fovRange (moveDrone dt target d) = fovRange d.
Proof.
  intros Hfar. cbv zeta. unfold moveDrone. cbn [position fovRange].
  unfold JS.gtb. rewrite ltb_true by lra. split; reflexivity.
Qed.

Lemma min_step_sqr (dt distance : R) :
  0 <= distance -> Rabs dt <= 1 ->
  JS.min (2 * dt) distance * JS.min (2 * dt) distance <= 4.
Proof.
  intros Hd Hdt. unfold Rabs in Hdt. unfold JS.min, Rmin.
  destruct (Rcase_abs dt); destruct (Rle_dec (2 * dt) distance); nra.
Qed.

(** From the origin, a step of length at most 2 stays within 4 of [(1, 1)]. *)
Lemma near_after_step (mx mz : R) :
  mx * mx + mz * mz <= 4 -> JS.hypot (1 - (0 + mx)) (1 - (0 + mz)) <= 4.
Proof.
  intros H. apply hypot_le_iff; [lra |].
  assert (- 3 <= mx + mz) as Hsum.
  { apply Rnot_lt_le. intros Hlt.
    assert (9 < (mx + mz) * (mx + mz)) by nra.
    pose proof (Rle_0_sqr (mx - mz)) as Hsq. unfold Rsqr in Hsq. nra. }
  nra.
Qed.

Lemma detectIntruder_in_range (newDrone : DroneState) (e : R) (i : Intruder) :
  JS.hypot (px (intr_position i) - px (position newDrone))
           (pz (intr_position i) - pz (position newDrone)) <= fovRange newDrone ->
  detected i = false ->
  detectIntruder newDrone e i
  = {| intr_id := intr_id i; intr_position := intr_position i;
       detected := true; threatLevel := threatLevel i; detectedAt := Some e |}.
Proof.
  intros Hr Hd. unfold detectIntruder. rewrite leb_true by exact Hr. rewrite Hd.
  reflexivity.
Qed.

(** C1 (as the code has it). Agent at [(0, y, 0)] with sensor radius 4, a
    single undetected intruder at [(1, _, 1)], Running and not paused.  On a
    tick that takes the movement branch (there is a current target, at least
    0.5 away) with [|dt| <= 1] for [dt = deltaTime * speed], the intruder
    becomes detected with [detectedAt = elapsedTime + dt], and a
    detection-category event for it is put in front of the previous timeline
    (kept to 50 entries). *)
Theorem C1_detection_scenario (toFixed : R -> nat -> string)
    (numToString : R -> string) (now deltaTime : R) (h : Hook) (i : Intruder)
    (random : nat -> R) (n : nat) :
  isRunning (state h) = true -> isPaused (state h) = false ->
  wfGrid (grid (state h)) ->
  px (position (drone (state h))) = 0 -> pz (position (drone (state h))) = 0 ->
  fovRange (drone (state h)) = 4 ->
  intruders (state h) = [ i ] ->
  px (intr_position i) = 1 -> pz (intr_position i) = 1 -> detected i = false ->
  ~ reacquires h ->
  Rabs (deltaTime * speed (state h)) <= 1 ->
  let newElapsed := elapsedTime (state h) + deltaTime * speed (state h) in
  let found :=
    {| intr_id := intr_id i; intr_position := intr_position i;
       detected := true; threatLevel := threatLevel i;
       detectedAt := Some newElapsed |} in
  exists h',
    updateSimulation toFixed numToString now deltaTime h random n = (Some h', n)
    /\ intruders (state h') = [ found ]
    /\ timeline (state h')
       = JS.slice0 50 (detectionEvent toFixed numToString newElapsed found
                       :: timeline (state h))
    /\ nth_error (timeline (state h')) 0
       = Some (detectionEvent toFixed numToString newElapsed found)
    /\ ev_type (detectionEvent toFixed numToString newElapsed found) = detection.
Proof.
  intros Hr Hp Hwf Hx Hz Hfov Hin Hix Hiz Hid Hnq Hdt. cbv zeta.
  destruct (not_reacquires_target h Hnq) as [target Ht].
  rewrite (tick_move toFixed numToString now deltaTime h random n target Hr Hp Ht Hnq).
  destruct (moveTick_wf toFixed numToString deltaTime h target Hwf) as [g' [_ [_ Hm]]].
  rewrite Hm. eexists. split; [reflexivity |].
  cbn [option_map state intruders timeline].
  assert (0.5 <= JS.hypot (px target - px (position (drone (state h))))
                          (pz target - pz (position (drone (state h))))) as Hfar.
  { rewrite hypot_swap. apply Rnot_lt_le. intros Hlt. apply Hnq. right.
    exists target. split; assumption. }
  destruct (moveDrone_far (deltaTime * speed (state h)) target (drone (state h)) Hfar)
    as [Hpos Hrange].
  set (dt := deltaTime * speed (state h)) in *.
  set (newDrone := moveDrone dt target (drone (state h))) in *.
  assert (detectIntruder newDrone (elapsedTime (state h) + dt) i
          = {| intr_id := intr_id i; intr_position := intr_position i;
               detected := true; threatLevel := threatLevel i;
               detectedAt := Some (elapsedTime (state h) + dt) |}) as Hdet.
  { apply detectIntruder_in_range; [| exact Hid].
    rewrite Hrange, Hfov, Hpos, Hix, Hiz. cbn [px pz]. rewrite Hx, Hz.
    rewrite Hx, Hz in Hfar.
    apply near_after_step.
    rewrite move_step_norm by lra.
    apply min_step_sqr; [apply hypot_nonneg | exact Hdt]. }
  rewrite Hin. cbn [map]. rewrite Hdet.
  split; [reflexivity |].
  unfold logDetections. cbn [combine fold_left fst snd detected]. rewrite Hid.
  cbn [negb andb].
  repeat split.
Qed.

Lemma C1_detection_scenario_witness :
  ~ reacquires movingHook
  /\ Rabs (0.1 * speed (state movingHook)) <= 1
  /\ exists h',
       updateSimulation noFixed noPrint 0 0.1 movingHook zeroRandom 0%nat = (Some h', 0%nat)
       /\ intruders (state h')
          = [ {| intr_id := "intruder-0"; intr_position := {| px := 1; py := 2; pz := 1 |};
                 detected := true; threatLevel := high;
                 detectedAt := Some (0 + 0.1 * 1) |} ].
Proof.
  assert (Rabs (0.1 * speed (state movingHook)) <= 1) as Hdt.
  { simpl. unfold Rabs. destruct (Rcase_abs (0.1 * 1)); lra. }
  split; [exact movingHook_moves |]. split; [exact Hdt |].
  destruct (C1_detection_scenario noFixed noPrint 0 0.1 movingHook sampleIntruder
              zeroRandom 0%nat eq_refl eq_refl sampleGrid_wf eq_refl eq_refl eq_refl
              eq_refl eq_refl eq_refl eq_refl movingHook_moves Hdt)
    as [h' [Hrun [Hintr _]]].
  exists h'. split; [exact Hrun | exact Hintr].
Defined.

Lemma hastyHook_moves : ~ reacquires hastyHook.
Proof.
  intros [H | [t [Ht Hlt]]]; [discriminate |].
  injection Ht as <-. simpl in Hlt.
  apply hypot_lt_iff in Hlt; lra.
Qed.

Lemma hypot_east : JS.hypot (9 - 0) (0 - 0) = 9.
Proof.
  unfold JS.hypot. replace ((9 - 0) * (9 - 0) + (0 - 0) * (0 - 0)) with (9 * 9) by ring.
  apply sqrt_square. lra.
Qed.

(** C1 fails as stated.  First, with no current target (the hook right after
    [startSimulation]) the tick only acquires a target: the intruder stays
    undetected and no event is logged.  Second, after [setSpeed 100] a tick
    with [deltaTime = 0.1] carries the agent 9 units east to its target, more
    than 4 away from the intruder, which stays undetected. *)
Lemma C1_tick_without_detection :
  (exists h' n',
     updateSimulation noFixed noPrint 0 0.1 (mkHook sampleState None) zeroRandom 0%nat
     = (Some h', n')
     /\ map detected (intruders (state h')) = [ false ]
     /\ map detectedAt (intruders (state h')) = [ None ]
     /\ timeline (state h') = [])
  /\ (exists h',
        updateSimulation noFixed noPrint 0 0.1 hastyHook zeroRandom 0%nat = (Some h', 0%nat)
        /\ map detected (intruders (state h')) = [ false ]
        /\ timeline (state h') = []).
Proof.
  split.
  - rewrite (tick_reacquire noFixed noPrint 0 0.1 (mkHook sampleState None) zeroRandom 0%nat
               eq_refl eq_refl (or_introl eq_refl)).
    cbv zeta. eexists. eexists. split; [reflexivity |]. simpl. repeat split.
  - rewrite (tick_move noFixed noPrint 0 0.1 hastyHook zeroRandom 0%nat eastTarget
               eq_refl eq_refl eq_refl hastyHook_moves).
    destruct (moveTick_wf noFixed noPrint 0.1 hastyHook eastTarget sampleGrid_wf)
      as [g' [_ [_ Hm]]].
    rewrite Hm. eexists. split; [reflexivity |].
    cbn [option_map state intruders timeline].
    assert (detectIntruder
              (moveDrone (0.1 * speed (state hastyHook)) eastTarget (drone (state hastyHook)))
              (elapsedTime (state hastyHook) + 0.1 * speed (state hastyHook)) sampleIntruder
            = sampleIntruder) as Hmiss.
    { unfold detectIntruder.
      assert (0.5 <= JS.hypot (px eastTarget - px (position (drone (state hastyHook))))
                              (pz eastTarget - pz (position (drone (state hastyHook)))))
        as Hfar by (simpl; rewrite hypot_east; lra).
      destruct (moveDrone_far (0.1 * speed (state hastyHook)) eastTarget
                  (drone (state hastyHook)) Hfar) as [Hpos Hrange].
      rewrite Hpos, Hrange. simpl. rewrite hypot_east.
      unfold JS.min. rewrite Rmin_right by lra.
      rewrite leb_false; [reflexivity |].
      apply Rnot_le_lt. intros Hle. apply hypot_le_iff in Hle; lra. }
    simpl intruders. cbn [map]. rewrite Hmiss. split; [reflexivity |]. reflexivity.
Qed.

(** C6. On a movement tick (Running, not paused, current target at least 0.5
    away) over a 20 x 20 grid, the grid returned is again 20 x 20 and differs
    from the previous one exactly on the cells whose offset [(dx, dz)] from the
    agent's grid cell has [|dx| <= 3], [|dz| <= 3] and
    [hypot (dx, dz) <= fovRange].  Each of those cells gets [visited = true],
    [lastVisited] the new elapsed time, [coverageValue = 1],
    [uncertaintyValue = max (0, uncertaintyValue - 0.1)] and
    [isVisible = true], its other fields kept; every other cell is the
    previous one, and there is no cell outside [0, 20) x [0, 20). *)
Theorem C6_coverage_marks_window_only (toFixed : R -> nat -> string)
    (numToString : R -> string) (now deltaTime : R) (h : Hook)
    (random : nat -> R) (n : nat) :
  isRunning (state h) = true -> isPaused (state h) = false ->
  wfGrid (grid (state h)) ->
  ~ reacquires h ->
  exists h',
    updateSimulation toFixed numToString now deltaTime h random n = (Some h', n)
    /\ wfGrid (grid (state h'))
    /\ forall gx gz,
         let droneGridX := JS.floor (px (position (drone (state h'))) + 10) in
         let droneGridZ := JS.floor (pz (position (drone (state h'))) + 10) in
         (inBounds gx gz = false -> gridAt (grid (state h')) gx gz = None)
         /\ gridAt (grid (state h')) gx gz
            = option_map
                (fun c =>
                   if inWindow droneGridX droneGridZ (fovRange (drone (state h'))) gx gz
                   then {| cell_x := cell_x c; cell_y := cell_y c;
                           visited := true;
                           lastVisited := elapsedTime (state h');
                           coverageValue := 1;
                           threatValue := threatValue c;
                           uncertaintyValue := JS.max 0 (uncertaintyValue c - 0.1);
                           isVisible := true |}
                   else c)
                (gridAt (grid (state h)) gx gz).
Proof.
  intros Hr Hp Hwf Hnq.
  destruct (not_reacquires_target h Hnq) as [target Ht].
  rewrite (tick_move toFixed numToString now deltaTime h random n target Hr Hp Ht Hnq).
  unfold moveTick.
  destruct (markObserved_spec (grid (state h))
              (JS.floor (px (position (moveDrone (deltaTime * speed (state h)) target
                                         (drone (state h)))) + 10))
              (JS.floor (pz (position (moveDrone (deltaTime * speed (state h)) target
                                         (drone (state h)))) + 10))
              (fovRange (moveDrone (deltaTime * speed (state h)) target (drone (state h))))
              (elapsedTime (state h) + deltaTime * speed (state h)) Hwf)
    as [g' [Hg' [Hwf' Hcells]]].
  rewrite Hg'. eexists. split; [reflexivity |].
  cbn [option_map state grid drone elapsedTime].
  split; [exact Hwf' |]. intros gx gz. cbv zeta. split.
  - intros Hout. destruct (gridAt g' gx gz) as [c |] eqn:Ec; [| reflexivity].
    rewrite (gridAt_Some_inBounds g' gx gz c Hwf' Ec) in Hout. discriminate.
  - rewrite Hcells. reflexivity.
Qed.

(** In the sample scenario a tick with [deltaTime = 0.1] carries the agent to
    [(0.2, 2, 0)], grid cell [(10, 10)]. *)
Lemma movingHook_tick_drone (h' : Hook) (n' : nat) :
  updateSimulation noFixed noPrint 0 0.1 movingHook zeroRandom 0%nat = (Some h', n') ->
  JS.floor (px (position (drone (state h'))) + 10) = 10%Z
  /\ JS.floor (pz (position (drone (state h'))) + 10) = 10%Z
  /\ fovRange (drone (state h')) = 4.
Proof.
  rewrite (tick_move noFixed noPrint 0 0.1 movingHook zeroRandom 0%nat eastTarget
             eq_refl eq_refl eq_refl movingHook_moves).
  destruct (moveTick_wf noFixed noPrint 0.1 movingHook eastTarget sampleGrid_wf)
    as [g' [_ [_ Hm]]].
  rewrite Hm. intros Heq. injection Heq as <- _. cbn [state drone].
  assert (0.5 <= JS.hypot (px eastTarget - px (position initialDroneState))
                          (pz eastTarget - pz (position initialDroneState)))
    as Hfar by (simpl; rewrite hypot_east; lra).
  destruct (moveDrone_far (0.1 * 1) eastTarget initialDroneState Hfar) as [Hpos Hrange].
  rewrite Hpos, Hrange. simpl. rewrite hypot_east.
  unfold JS.min. rewrite Rmin_left by lra.
  repeat split; apply floor_eq; simpl; lra.
Qed.

Lemma sampleGrid_cells :
  (exists c, gridAt sampleGrid 10 10 = Some c /\ visited c = false)
  /\ (exists c, gridAt sampleGrid 14 10 = Some c /\ visited c = false).
Proof.
  split; eexists; (split; [vm_compute; reflexivity | reflexivity]).
Qed.

(** Witness in the sample scenario: the agent's own cell [(10, 10)] becomes
    visited, while the cell [(14, 10)], at distance 4 from it and so within the
    sensor radius 4 but outside the 3-cell window, is left as it was. *)
Lemma C6_coverage_marks_window_only_witness :
  isRunning (state movingHook) = true /\ isPaused (state movingHook) = false
  /\ wfGrid (grid (state movingHook))
  /\ ~ reacquires movingHook
  /\ exists h',
       updateSimulation noFixed noPrint 0 0.1 movingHook zeroRandom 0%nat = (Some h', 0%nat)
       /\ wfGrid (grid (state h'))
       /\ option_map visited (gridAt (grid (state h')) 10 10) = Some true
       /\ gridAt (grid (state h')) 14 10 = gridAt (grid (state movingHook)) 14 10.
Proof.
  split; [reflexivity |]. split; [reflexivity |].
  split; [exact sampleGrid_wf |]. split; [exact movingHook_moves |].
  destruct (C6_coverage_marks_window_only noFixed noPrint 0 0.1 movingHook zeroRandom 0%nat
              eq_refl eq_refl sampleGrid_wf movingHook_moves) as [h' [Hrun [Hwf Hcells]]].
  exists h'. split; [exact Hrun |]. split; [exact Hwf |].
  destruct (movingHook_tick_drone h' 0%nat Hrun) as [Hgx [Hgz Hfov]].
  destruct sampleGrid_cells as [[c0 [Hc0 _]] [c4 [Hc4 _]]].
  split.
  - destruct (Hcells 10%Z 10%Z) as [_ Hcell]. cbv zeta in Hcell.
    rewrite Hgx, Hgz, Hfov in Hcell. rewrite Hcell.
    change (grid (state movingHook)) with sampleGrid. rewrite Hc0.
    unfold inWindow. simpl Z.sub. simpl Z.abs. simpl Z.leb. cbn [andb].
    rewrite leb_true; [reflexivity |].
    apply hypot_le_iff; lra.
  - destruct (Hcells 14%Z 10%Z) as [_ Hcell]. cbv zeta in Hcell.
    rewrite Hgx, Hgz, Hfov in Hcell. rewrite Hcell.
    change (grid (state movingHook)) with sampleGrid. rewrite Hc4.
    reflexivity.
Defined.

(** * Further properties of the code *)

(** ** Decision engine *)

Lemma clamp_bounds (v : R) : -9 <= JS.max (-9) (JS.min 9 v) <= 9.
Proof.
  unfold JS.max, JS.min, Rmax, Rmin.
  destruct (Rle_dec 9 v); destruct (Rle_dec (-9) _); lra.
Qed.

Lemma clampPosition_inField (p : Position) :
  inField (clampPosition p) /\ py (clampPosition p) = py p.
Proof.
  unfold inField, clampPosition, setXZ. cbn [px py pz].
  split; [split; apply clamp_bounds | reflexivity].
Qed.

Lemma decideZPA_py (d : DroneState) : py (fst (decideZPA d)) = py (position d).
Proof.
  unfold decideZPA.
  destruct (JS.geb _ 8); cbv beta iota zeta; destruct (JS.gtb _ 9); reflexivity.
Qed.

Lemma decideCPA_py (d : DroneState) (g : Grid) :
  py (fst (decideCPA d g)) = py (position d).
Proof.
  unfold decideCPA.
  destruct (sortSectors _) as [| t ts]; [reflexivity |].
  destruct (Nat.ltb 0 (score t)); [| reflexivity].
  destruct (JS.gtb _ 5); [reflexivity |].
  destruct (filter _ (List.concat g)) as [| c cs]; [reflexivity |].
  destruct (filter _ (c :: cs)); reflexivity.
Qed.

Lemma decideTFA_py (toFixed : R -> nat -> string) (now : R) (d : DroneState)
    (ds : list Intruder) :
  py (fst (decideTFA toFixed now d ds)) = py (position d).
Proof.
  unfold decideTFA.
  destruct (Nat.ltb 0 (List.length ds)); [| reflexivity].
  cbv zeta. destruct (JS.gtb _ 4); [reflexivity |].
  destruct (JS.ltb _ 2.5); reflexivity.
Qed.

Lemma decidePDAP_py (toFixed : R -> nat -> string) (d : DroneState) (g : Grid)
    (ds : list Intruder) :
  py (fst (decidePDAP toFixed d g ds)) = py (position d).
Proof.
  unfold decidePDAP. cbv zeta.
  destruct (bestTarget _) as [[tx tz] |]; [| reflexivity].
  destruct (bestScore _); reflexivity.
Qed.

Lemma waypoint_in_field (toFixed : R -> nat -> string) (now : R)
    (algorithm : Algorithm) (d : DroneState) (g : Grid) (intrs : list Intruder)
    (obs : list Obstacle) (random : nat -> R) (n : nat) :
  let p := fst (fst (getNextPosition toFixed now algorithm d g intrs obs random n)) in
  inField p /\ py p = py (position d).
Proof.
  cbv zeta. unfold getNextPosition, bind, ret.
  destruct algorithm; cbn [fst snd].
  - unfold decideRPA, bind, ret, Math_random. cbn [fst snd].
    destruct (clampPosition_inField
                (setXZ (position d)
                   (JS.max (-9) (JS.min 9 (px (position d)
                      + cos (random n * PI * 2) * (1 + random (S n) * 2))))
                   (JS.max (-9) (JS.min 9 (pz (position d)
                      + sin (random n * PI * 2) * (1 + random (S n) * 2))))))
      as [Hf Hy].
    split; [exact Hf | rewrite Hy; reflexivity].
  - destruct (clampPosition_inField (fst (decideZPA d))) as [Hf Hy].
    split; [exact Hf | rewrite Hy; apply decideZPA_py].
  - destruct (clampPosition_inField (fst (decideCPA d g))) as [Hf Hy].
    split; [exact Hf | rewrite Hy; apply decideCPA_py].
  - destruct (clampPosition_inField
                (fst (decideTFA toFixed now d (filter detected intrs)))) as [Hf Hy].
    split; [exact Hf | rewrite Hy; apply decideTFA_py].
  - destruct (clampPosition_inField
                (fst (decidePDAP toFixed d g (filter detected intrs)))) as [Hf Hy].
    split; [exact Hf | rewrite Hy; apply decidePDAP_py].
Qed.

(** X1. Whatever the strategy, the grid, the intruders and the random draws,
    the waypoint [getNextPosition] returns lies in the field ([x] and [z] in
    [-9, 9]) at the agent's own altitude [y]. *)
Theorem X1_waypoint_in_field (toFixed : R -> nat -> string) (now : R)
    (algorithm : Algorithm) (d : DroneState) (g : Grid) (intrs : list Intruder)
    (obs : list Obstacle) (random : nat -> R) (n : nat) :
  let p := fst (fst (getNextPosition toFixed now algorithm d g intrs obs random n)) in
  inField p /\ py p = py (position d).
Proof. apply waypoint_in_field. Qed.

Lemma gridAt_In (g : Grid) (x z : Z) (c : GridCell) :
  gridAt g x z = Some c -> In c (List.concat g).
Proof.
  unfold gridAt. destruct ((x <? 0)%Z || (z <? 0)%Z); [discriminate |].
  destruct (nth_error g (Z.to_nat x)) as [row |] eqn:Er; [| discriminate].
  intros Hc. apply in_concat. exists row. split; eapply nth_error_In; eassumption.
Qed.

Lemma no_unvisited_all_visited (g : Grid) :
  filter (fun c => negb (visited c)) (List.concat g) = [] ->
  forall c, In c (List.concat g) -> visited c = true.
Proof.
  intros Hf c Hin. destruct (visited c) eqn:Ev; [reflexivity |].
  assert (In c (filter (fun c => negb (visited c)) (List.concat g))) as Habs
      by (apply filter_In; split; [exact Hin | now rewrite Ev]).
  rewrite Hf in Habs. contradiction.
Qed.

(** With no unvisited cell left, the sector scores stay 0. *)
Lemma scoreSector_all_visited (g : Grid) (s : Sector) :
  (forall c, In c (List.concat g) -> visited c = true) -> scoreSector g s = s.
Proof.
  intros Hall. unfold scoreSector. generalize sampleOffsets as offs.
  induction offs as [| d offs IH]; [reflexivity |]. simpl.
  destruct (gridAt g _ _) as [c |] eqn:Ec; [| exact IH].
  rewrite (Hall c (gridAt_In _ _ _ _ Ec)). exact IH.
Qed.

Lemma wellFormedReasons_one (r : string) (w : Z) (ic : string) :
  (0 <= w <= 100)%Z -> wellFormedReasons [ mkReason 1 r w ic ].
Proof.
  intros Hw. unfold wellFormedReasons. simpl.
  split; [lia |]. split; [reflexivity |]. repeat constructor; simpl; lia.
Qed.

Lemma wellFormedReasons_two (r1 r2 : string) (w1 w2 : Z) (ic1 ic2 : string) :
  (0 <= w1 <= 100)%Z -> (0 <= w2 <= 100)%Z ->
  wellFormedReasons [ mkReason 1 r1 w1 ic1; mkReason 2 r2 w2 ic2 ].
Proof.
  intros H1 H2. unfold wellFormedReasons. simpl.
  split; [lia |]. split; [reflexivity |]. repeat constructor; simpl; lia.
Qed.

Lemma decideCPA_all_visited (d : DroneState) (g : Grid) :
  (forall c, In c (List.concat g) -> visited c = true) ->
  decideCPA d g
  = (setXZ (position d) 0 0, [ mkReason 1 "Mission Complete - RTB" 100 "Home" ]).
Proof.
  intros Hall. unfold decideCPA.
  assert (map (scoreSector g) sectors0 = sectors0) as ->.
  { unfold sectors0. cbn [map]. now rewrite !scoreSector_all_visited. }
  reflexivity.
Qed.

Lemma insertSector_nonempty (s : Sector) (l : list Sector) : insertSector s l <> [].
Proof. destruct l as [| t rest]; simpl; [| destruct (Nat.ltb _ _)]; discriminate. Qed.

Lemma sortSectors_scored_nonempty (g : Grid) :
  sortSectors (map (scoreSector g) sectors0) <> [].
Proof.
  unfold sectors0. cbn [map sortSectors fold_right]. apply insertSector_nonempty.
Qed.

Lemma decideCPA_reasons_swept (d : DroneState) (g : Grid) :
  filter (fun c => negb (visited c)) (List.concat g) = [] ->
  wellFormedReasons (snd (decideCPA d g)).
Proof.
  intros Hu.
  rewrite decideCPA_all_visited by (apply no_unvisited_all_visited; exact Hu).
  apply wellFormedReasons_one. lia.
Qed.

Lemma decideCPA_reasons_pending (d : DroneState) (g : Grid) (c : GridCell)
    (cs : list GridCell) :
  filter (fun c => negb (visited c)) (List.concat g) = c :: cs ->
  wellFormedReasons (snd (decideCPA d g)).
Proof.
  intros Hu. unfold decideCPA. rewrite Hu.
  destruct (sortSectors (map (scoreSector g) sectors0)) as [| t ts] eqn:Hs.
  { exfalso. exact (sortSectors_scored_nonempty g Hs). }
  destruct (Nat.ltb 0 (score t)); [| apply wellFormedReasons_one; lia].
  destruct (JS.gtb _ 5); [apply wellFormedReasons_one; lia |].
  match goal with
  | |- context [filter ?f (c :: cs)] => destruct (filter f (c :: cs))
  end; cbn [snd]; apply wellFormedReasons_one; lia.
Qed.

Lemma decideCPA_reasons (d : DroneState) (g : Grid) :
  wellFormedReasons (snd (decideCPA d g)).
Proof.
  destruct (filter (fun c => negb (visited c)) (List.concat g)) as [| c cs] eqn:Hu.
  - now apply decideCPA_reasons_swept.
  - now apply (decideCPA_reasons_pending d g c cs).
Qed.

Lemma decideZPA_reasons (d : DroneState) : wellFormedReasons (snd (decideZPA d)).
Proof.
  unfold decideZPA.
  destruct (JS.geb _ 8); cbv beta iota zeta; cbn [snd app];
    apply wellFormedReasons_two; lia.
Qed.

Lemma decideTFA_reasons (toFixed : R -> nat -> string) (now : R) (d : DroneState)
    (ds : list Intruder) :
  wellFormedReasons (snd (decideTFA toFixed now d ds)).
Proof.
  unfold decideTFA.
  destruct (Nat.ltb 0 (List.length ds)); [| apply wellFormedReasons_two; lia].
  cbv zeta. destruct (JS.gtb _ 4); [cbn [snd app]; apply wellFormedReasons_two; lia |].
  destruct (JS.ltb _ 2.5); cbn [snd app]; apply wellFormedReasons_two; lia.
Qed.

Lemma decidePDAP_reasons (toFixed : R -> nat -> string) (d : DroneState) (g : Grid)
    (ds : list Intruder) :
  wellFormedReasons (snd (decidePDAP toFixed d g ds)).
Proof.
  unfold decidePDAP. cbv zeta.
  destruct (bestTarget _) as [[tx tz] |]; [| apply wellFormedReasons_one; lia].
  destruct (bestScore _); [apply wellFormedReasons_two | apply wellFormedReasons_one]; lia.
Qed.

Lemma slice0_short {A} (k : nat) (xs : list A) :
  (List.length xs <= k)%nat -> JS.slice0 k xs = xs.
Proof. intros H. unfold JS.slice0. now apply firstn_all2. Qed.

(** X2. Every decision comes with a justification: for each of the five
    strategies [getNextPosition] returns one or two reasons, never none, the
    first of rank 1 and every weight between 0 and 100.  (The CPA arm that
    would leave the list empty needs a sector with an unvisited sample and no
    unvisited cell at all.) *)
Theorem X2_decision_reasons_well_formed (toFixed : R -> nat -> string) (now : R)
    (algorithm : Algorithm) (d : DroneState) (g : Grid) (intrs : list Intruder)
    (obs : list Obstacle) (random : nat -> R) (n : nat) :
  wellFormedReasons
    (snd (fst (getNextPosition toFixed now algorithm d g intrs obs random n))).
Proof.
  assert (forall rs, wellFormedReasons rs -> wellFormedReasons (JS.slice0 3 rs)) as Hcut.
  { intros rs H. rewrite slice0_short; [exact H |]. destruct H as [[_ H] _]. lia. }
  unfold getNextPosition, bind, ret.
  destruct algorithm; cbn [fst snd]; apply Hcut.
  - unfold decideRPA, bind, ret, Math_random. cbn [fst snd].
    apply wellFormedReasons_one. lia.
  - apply decideZPA_reasons.
  - apply decideCPA_reasons.
  - apply decideTFA_reasons.
  - apply decidePDAP_reasons.
Qed.

(** X3. Sector sweep ends at home: when no cell of the grid is unvisited (in
    particular on an empty grid), CPA sends the agent to the origin with the
    single reason 'Mission Complete - RTB' and draws no random number. *)
Theorem X3_cpa_returns_to_base (toFixed : R -> nat -> string) (now : R)
    (d : DroneState) (g : Grid) (intrs : list Intruder) (obs : list Obstacle)
    (random : nat -> R) (n : nat) :
  (forall c, In c (List.concat g) -> visited c = true) ->
  getNextPosition toFixed now CPA d g intrs obs random n
  = (({| px := 0; py := py (position d); pz := 0 |},
      [ mkReason 1 "Mission Complete - RTB" 100 "Home" ]), n).
Proof.
  intros Hall. unfold getNextPosition, bind, ret.
  rewrite (decideCPA_all_visited d g Hall).
  unfold clampPosition, setXZ. cbn [fst snd px py pz].
  rewrite max_clamp_id by lra. reflexivity.
Qed.

Lemma X3_cpa_returns_to_base_witness :
  (forall c, In c (List.concat ([] : Grid)) -> visited c = true)
  /\ getNextPosition noFixed 0 CPA (droneAt 3 4) [] [] [] zeroRandom 0%nat
     = (({| px := 0; py := 2; pz := 0 |},
         [ mkReason 1 "Mission Complete - RTB" 100 "Home" ]), 0%nat).
Proof.
  assert (forall c, In c (List.concat ([] : Grid)) -> visited c = true) as Hall
      by (intros c []).
  split; [exact Hall |].
  exact (X3_cpa_returns_to_base noFixed 0 (droneAt 3 4) [] [] [] zeroRandom 0%nat Hall).
Defined.

Lemma no_detected_filter (intrs : list Intruder) :
  Forall (fun i => detected i = false) intrs -> filter detected intrs = [].
Proof.
  induction 1 as [| i rest Hi _ IH]; [reflexivity |]. simpl. now rewrite Hi.
Qed.

Lemma spiral_bounds (t : R) :
  let r := 3 + sin (t * 0.5) * 5 in
  cos t * r * (cos t * r) + sin t * r * (sin t * r) <= 64
  /\ -9 <= cos t * r <= 9 /\ -9 <= sin t * r <= 9.
Proof.
  cbv zeta. pose proof (SIN_bound (t * 0.5)) as Hs.
  pose proof (sin2_cos2 t) as Hsc. unfold Rsqr in Hsc.
  set (r := 3 + sin (t * 0.5) * 5) in *.
  assert (r * r <= 64) as Hr by (unfold r; nra).
  assert (cos t * r * (cos t * r) + sin t * r * (sin t * r) = r * r) as Hn.
  { transitivity ((sin t * sin t + cos t * cos t) * (r * r)); [ring |].
    rewrite Hsc. ring. }
  split; [lra |]. split; nra.
Qed.

(** X4. The TFA spiral search stays near the centre: while no intruder is
    detected, whatever the clock reads, the waypoint is
    [(cos t * r, sin t * r)] with [t = now / 1000] and
    [r = 3 + 5 sin (t / 2)], untouched by the final clamp and at most 8 units
    from the origin, with the two reasons 'Scanning for hostiles (Spiral)' and
    'Sector clear'. *)
Theorem X4_tfa_spiral_within_radius_8 (toFixed : R -> nat -> string) (now : R)
    (d : DroneState) (g : Grid) (intrs : list Intruder) (obs : list Obstacle)
    (random : nat -> R) (n : nat) :
  Forall (fun i => detected i = false) intrs ->
  let t := now / 1000 in
  let r := 3 + sin (t * 0.5) * 5 in
  getNextPosition toFixed now TFA d g intrs obs random n
  = (({| px := cos t * r; py := py (position d); pz := sin t * r |},
      [ mkReason 1 "Scanning for hostiles (Spiral)" 50 "Search";
        mkReason 2 "Sector clear" 30 "CheckCircle" ]), n)
  /\ JS.hypot (cos t * r) (sin t * r) <= 8.
Proof.
  intros Hnone. cbv zeta.
  destruct (spiral_bounds (now / 1000)) as [Hnorm [Hx Hz]]. cbv zeta in *.
  split.
  - unfold getNextPosition, bind, ret. rewrite (no_detected_filter intrs Hnone).
    unfold decideTFA. cbn [List.length Nat.ltb Nat.leb fst snd JS.slice0 firstn].
    unfold clampPosition, setXZ. cbn [px py pz].
    rewrite !max_clamp_id by assumption. reflexivity.
  - apply hypot_le_iff; lra.
Qed.

Lemma X4_tfa_spiral_within_radius_8_witness :
  Forall (fun i => detected i = false) [ sampleIntruder ]
  /\ JS.hypot (cos (5000 / 1000) * (3 + sin (5000 / 1000 * 0.5) * 5))
              (sin (5000 / 1000) * (3 + sin (5000 / 1000 * 0.5) * 5)) <= 8.
Proof.
  assert (Forall (fun i => detected i = false) [ sampleIntruder ]) as H
      by (repeat constructor).
  split; [exact H |].
  exact (proj2 (X4_tfa_spiral_within_radius_8 noFixed 5000 initialDroneState sampleGrid
                  [ sampleIntruder ] [] zeroRandom 0%nat H)).
Defined.

(** *** PDAP *)

Section Pdap.

Variable d : DroneState.
Variable g : Grid.

Let step := considerCandidate d g (pdapMaxRange d) (pdapMoveCost d).

Lemma consider_cases (b : Best) (c : Candidate) :
  step b c = b
  \/ (candDist d c <= pdapMaxRange d
      /\ bestTarget (step b c) = Some (cand_x c, cand_z c)
      /\ bestScore (step b c) <> None
      /\ primeReason (step b c)
         = match cand_type c with
           | cand_threat => "Engaging identified threat"
           | cand_sector => "Exploring high-value sector"
           end%string).
Proof.
  unfold step, considerCandidate, candDist. cbv zeta.
  destruct (JS.gtb _ (pdapMaxRange d)) eqn:Hfar; [left; reflexivity |].
  match goal with
  | |- context [if ?b then _ else _] => destruct b
  end; [right | left; reflexivity].
  cbn [bestTarget bestScore primeReason].
  split; [| split; [reflexivity | split; [discriminate | reflexivity]]].
  unfold JS.gtb, JS.ltb in Hfar.
  destruct (Rlt_dec (pdapMaxRange d) _); [discriminate | lra].
Qed.

Lemma consider_first_in_range (b : Best) (c : Candidate) :
  bestScore b = None -> candDist d c <= pdapMaxRange d ->
  bestTarget (step b c) = Some (cand_x c, cand_z c).
Proof.
  intros Hb Hin. unfold step, considerCandidate, candDist in *. cbv zeta.
  unfold JS.gtb at 1. rewrite ltb_false by exact Hin. rewrite Hb. reflexivity.
Qed.

Lemma scanned_step (cands : list Candidate) (b : Best) (c : Candidate) :
  In c cands -> scanned d cands b -> scanned d cands (step b c).
Proof.
  intros Hc [H1 [H2 H3]].
  destruct (consider_cases b c) as [-> | [Hin [Ht [Hs _]]]]; [repeat split; assumption |].
  split; [rewrite Ht; discriminate |]. split; [intros _; exact Hs |].
  intros p Hp. rewrite Ht in Hp. injection Hp as <-.
  exists c. repeat split; assumption.
Qed.

Lemma scanned_fold (cands rest : list Candidate) (b : Best) :
  (forall c, In c rest -> In c cands) -> scanned d cands b ->
  scanned d cands (fold_left step rest b).
Proof.
  revert b. induction rest as [| c rest IH]; intros b Hsub Hb; [exact Hb |].
  simpl. apply IH; [intros c' Hc'; apply Hsub; now right |].
  apply scanned_step; [apply Hsub; now left | exact Hb].
Qed.

Lemma target_found_stays (cands rest : list Candidate) (b : Best) :
  (forall c, In c rest -> In c cands) -> scanned d cands b ->
  bestTarget b <> None -> bestTarget (fold_left step rest b) <> None.
Proof.
  revert b. induction rest as [| c rest IH]; intros b Hsub Hb Hsome; [exact Hsome |].
  simpl. apply IH; [intros c' Hc'; apply Hsub; now right | |].
  - apply scanned_step; [apply Hsub; now left | exact Hb].
  - destruct (consider_cases b c) as [-> | [_ [Ht _]]]; [exact Hsome |].
    rewrite Ht. discriminate.
Qed.

Lemma target_found_if_reachable (cands rest : list Candidate) (b : Best) :
  (forall c, In c rest -> In c cands) -> scanned d cands b ->
  (exists c, In c rest /\ candDist d c <= pdapMaxRange d) ->
  bestTarget (fold_left step rest b) <> None.
Proof.
  revert b. induction rest as [| c rest IH]; intros b Hsub Hb [c0 [Hin Hr]];
    [contradiction |].
  simpl.
  assert (scanned d cands (step b c)) as Hb'
      by (apply scanned_step; [apply Hsub; now left | exact Hb]).
  assert (forall c', In c' rest -> In c' cands) as Hsub'
      by (intros c' Hc'; apply Hsub; now right).
  destruct (bestTarget (step b c)) as [p |] eqn:Ht.
  - apply (target_found_stays cands rest _ Hsub' Hb'). rewrite Ht. discriminate.
  - destruct Hin as [-> | Hin].
    + destruct (bestTarget b) as [q |] eqn:Hq.
      * exfalso. destruct (consider_cases b c0) as [Heq | [_ [Ht' _]]]; congruence.
      * destruct Hb as [H1 _]. rewrite (consider_first_in_range b c0 (H1 Hq) Hr) in Ht.
        discriminate.
    + apply IH; [exact Hsub' | exact Hb' | exists c0; split; assumption].
Qed.

End Pdap.

Lemma lattice_near (v : R) :
  -10 <= v <= 10 -> exists s, In s [-8; -4; 0; 4; 8] /\ -2 <= v - s <= 2.
Proof.
  intros [Hl Hu].
  destruct (Rle_dec v (-6)); [exists (-8); simpl; split; [tauto | lra] |].
  destruct (Rle_dec v (-2)); [exists (-4); simpl; split; [tauto | lra] |].
  destruct (Rle_dec v 2); [exists 0; simpl; split; [tauto | lra] |].
  destruct (Rle_dec v 6); [exists 4; simpl; split; [tauto | lra] |].
  exists 8; simpl; split; [tauto | lra].
Qed.

Lemma pdapMaxRange_ge_10 (d : DroneState) : 10 <= pdapMaxRange d.
Proof. unfold pdapMaxRange. destruct (JS.gtb _ 50); lra. Qed.

Lemma sector_candidate_reachable (d : DroneState) :
  -10 <= px (position d) <= 10 -> -10 <= pz (position d) <= 10 ->
  exists c, In c sectorCandidates /\ candDist d c <= pdapMaxRange d.
Proof.
  intros Hx Hz.
  destruct (lattice_near _ Hx) as [sx [Hsx Hdx]].
  destruct (lattice_near _ Hz) as [sz [Hsz Hdz]].
  exists (mkCand sx sz cand_sector 0). split.
  - unfold sectorCandidates. apply in_flat_map. exists sx. split; [exact Hsx |].
    apply in_map_iff. exists sz. split; [reflexivity | exact Hsz].
  - pose proof (pdapMaxRange_ge_10 d) as Hm. unfold candDist. cbn [cand_x cand_z].
    apply hypot_le_iff; [lra |]. nra.
Qed.

Lemma pdap_targets_candidate (toFixed : R -> nat -> string) (now : R)
    (d : DroneState) (g : Grid) (intrs : list Intruder) (obs : list Obstacle)
    (random : nat -> R) (n : nat) :
  -10 <= px (position d) <= 10 -> -10 <= pz (position d) <= 10 ->
  exists c,
    In c (pdapCandidates intrs)
    /\ candDist d c <= pdapMaxRange d
    /\ fst (fst (getNextPosition toFixed now PDAP d g intrs obs random n))
       = clampPosition (setXZ (position d) (cand_x c) (cand_z c))
    /\ map weight (snd (fst (getNextPosition toFixed now PDAP d g intrs obs random n)))
       = [ 95; 60 ]%Z.
Proof.
  intros Hx Hz.
  unfold getNextPosition, bind, ret. cbn [fst snd].
  unfold decidePDAP. cbv zeta.
  fold (pdapMaxRange d). fold (pdapMoveCost d). fold (pdapCandidates intrs).
  set (b0 := mkBest None None _).
  assert (scanned d (pdapCandidates intrs) b0) as Hb0.
  { unfold scanned, b0. cbn [bestTarget bestScore].
    split; [reflexivity |]. split; [intros H; now elim H |]. intros p Hp. discriminate. }
  pose proof (scanned_fold d g (pdapCandidates intrs) (pdapCandidates intrs) b0
                (fun c H => H) Hb0) as [_ [Hscore Hcand]].
  assert (bestTarget (fold_left (considerCandidate d g (pdapMaxRange d) (pdapMoveCost d))
                        (pdapCandidates intrs) b0) <> None) as Hsome.
  { apply (target_found_if_reachable d g (pdapCandidates intrs)); [auto | exact Hb0 |].
    destruct (sector_candidate_reachable d Hx Hz) as [c [Hc Hr]].
    exists c. split; [| exact Hr]. unfold pdapCandidates. apply in_or_app. now right. }
  destruct (bestTarget _) as [[tx tz] |] eqn:Ht; [| now elim Hsome].
  destruct (Hcand _ eq_refl) as [c [Hc [Hp Hr]]]. injection Hp as -> ->.
  destruct (bestScore _) as [bs |] eqn:Hs; [| exfalso; apply Hscore; [discriminate | reflexivity]].
  exists c. repeat split; assumption.
Qed.

(** X5. PDAP always finds a target: for an agent with [x] and [z] in
    [-10, 10], at any battery level and on any grid, the scan ends on one of
    its candidates (a detected intruder's position or a lattice point of the
    5 x 5 sector lattice) lying within the battery-dependent range; the
    waypoint is that candidate, clamped, and the reasons have weights 95 and
    60.  The 'Returning to base' fallback is never taken there. *)
Theorem X5_pdap_always_targets_candidate (toFixed : R -> nat -> string) (now : R)
    (d : DroneState) (g : Grid) (intrs : list Intruder) (obs : list Obstacle)
    (random : nat -> R) (n : nat) :
  -10 <= px (position d) <= 10 -> -10 <= pz (position d) <= 10 ->
  exists c,
    In c (pdapCandidates intrs)
    /\ candDist d c <= pdapMaxRange d
    /\ fst (fst (getNextPosition toFixed now PDAP d g intrs obs random n))
       = clampPosition (setXZ (position d) (cand_x c) (cand_z c))
    /\ map weight (snd (fst (getNextPosition toFixed now PDAP d g intrs obs random n)))
       = [ 95; 60 ]%Z.
Proof. now apply pdap_targets_candidate. Qed.

Lemma X5_pdap_always_targets_candidate_witness :
  exists c,
    In c (pdapCandidates [ sampleIntruder ])
    /\ candDist initialDroneState c <= pdapMaxRange initialDroneState
    /\ fst (fst (getNextPosition noFixed 0 PDAP initialDroneState sampleGrid
                   [ sampleIntruder ] [] zeroRandom 0%nat))
       = clampPosition (setXZ (position initialDroneState) (cand_x c) (cand_z c))
    /\ map weight (snd (fst (getNextPosition noFixed 0 PDAP initialDroneState sampleGrid
                               [ sampleIntruder ] [] zeroRandom 0%nat)))
       = [ 95; 60 ]%Z.
Proof.
  apply (X5_pdap_always_targets_candidate noFixed 0 initialDroneState sampleGrid
           [ sampleIntruder ] [] zeroRandom 0%nat); simpl; lra.
Defined.

(** ** What ticks keep *)

Lemma cellAdvances_refl (c : GridCell) : cellAdvances c c.
Proof.
  unfold cellAdvances. split; [reflexivity |]. split; [reflexivity |].
  split; [reflexivity |]. split; [auto |]. split; [auto |]. intros H. lra.
Qed.

Lemma cellAdvances_trans (a b c : GridCell) :
  cellAdvances a b -> cellAdvances b c -> cellAdvances a c.
Proof.
  unfold cellAdvances.
  intros [Hx [Hy [Ht [Hv [Hi Hu]]]]] [Hx' [Hy' [Ht' [Hv' [Hi' Hu']]]]].
  split; [congruence |]. split; [congruence |]. split; [congruence |].
  split; [auto |]. split; [auto |].
  intros H0. specialize (Hu H0). destruct Hu as [Hb Hle]. specialize (Hu' Hb). lra.
Qed.

Lemma markCell_advances (e : R) (c : GridCell) : cellAdvances c (markCell e c).
Proof.
  unfold cellAdvances, markCell. cbn [cell_x cell_y threatValue visited isVisible
                                      uncertaintyValue].
  split; [reflexivity |]. split; [reflexivity |]. split; [reflexivity |].
  split; [auto |]. split; [auto |].
  intros H0. unfold JS.max, Rmax. destruct (Rle_dec 0 (uncertaintyValue c - 0.1)); lra.
Qed.

Lemma gridAdvances_refl (g : Grid) : gridAdvances g g.
Proof.
  intros gx gz. destruct (gridAt g gx gz); [apply cellAdvances_refl | exact I].
Qed.

Lemma gridAdvances_trans (a b c : Grid) :
  gridAdvances a b -> gridAdvances b c -> gridAdvances a c.
Proof.
  intros Hab Hbc gx gz. specialize (Hab gx gz). specialize (Hbc gx gz).
  destruct (gridAt a gx gz), (gridAt b gx gz), (gridAt c gx gz); try contradiction;
    [eapply cellAdvances_trans; eassumption | exact I].
Qed.

Lemma markObserved_advances (g g' : Grid) (dgx dgz : Z) (fov e : R) :
  wfGrid g -> markObserved g dgx dgz fov e = Some g' -> gridAdvances g g'.
Proof.
  intros Hwf Hm. destruct (markObserved_spec g dgx dgz fov e Hwf) as [g1 [Hg1 [_ Hcells]]].
  rewrite Hm in Hg1. injection Hg1 as <-.
  intros gx gz. rewrite Hcells. destruct (gridAt g gx gz) as [c |]; [| exact I].
  cbn [option_map]. destruct (inWindow dgx dgz fov gx gz);
    [apply markCell_advances | apply cellAdvances_refl].
Qed.

Lemma intruderAdvances_trans (a b c : Intruder) :
  intruderAdvances a b -> intruderAdvances b c -> intruderAdvances a c.
Proof.
  intros [-> | Hab] [-> | Hbc]; try (now left); try (now right).
  destruct Hab as [_ [Hd _]]. destruct Hbc as [Hd' _]. congruence.
Qed.

Lemma detectIntruder_advances (nd : DroneState) (e : R) (i : Intruder) :
  intruderAdvances i (detectIntruder nd e i).
Proof.
  unfold detectIntruder. destruct (JS.leb _ _ && negb (detected i)) eqn:Hc; [| now left].
  right. apply andb_true_iff in Hc as [_ Hd]. apply negb_true_iff in Hd.
  cbn [detected detectedAt intr_id intr_position threatLevel].
  repeat split; try assumption. discriminate.
Qed.

Lemma Forall2_map_step {A} (P : A -> A -> Prop) (f : A -> A) (l : list A) :
  (forall a, P a (f a)) -> Forall2 P l (map f l).
Proof. intros H. induction l; simpl; constructor; auto. Qed.

Lemma Forall2_same {A} (P : A -> A -> Prop) (l : list A) :
  (forall a, P a a) -> Forall2 P l l.
Proof. intros H. induction l; constructor; auto. Qed.

Lemma Forall2_chain {A} (P : A -> A -> Prop) (l1 l2 l3 : list A) :
  (forall a b c, P a b -> P b c -> P a c) ->
  Forall2 P l1 l2 -> Forall2 P l2 l3 -> Forall2 P l1 l3.
Proof.
  intros Ht H12. revert l3. induction H12 as [| a b l1 l2 Hab _ IH]; intros l3 H23;
    inversion H23; subst; constructor; eauto.
Qed.

Lemma sameControls_refl (s : SimulationState) : sameControls s s.
Proof. unfold sameControls. repeat split. Qed.

Lemma sameControls_trans (a b c : SimulationState) :
  sameControls a b -> sameControls b c -> sameControls a c.
Proof. unfold sameControls. intuition congruence. Qed.

Lemma advances_refl (h : Hook) : advances h h.
Proof.
  split; [apply gridAdvances_refl |]. split; [| apply sameControls_refl].
  apply Forall2_same. intros i. now left.
Qed.

Lemma advances_trans (a b c : Hook) : advances a b -> advances b c -> advances a c.
Proof.
  intros [Hg [Hi Hc]] [Hg' [Hi' Hc']]. split; [| split].
  - eapply gridAdvances_trans; eassumption.
  - eapply Forall2_chain; [exact intruderAdvances_trans | eassumption | eassumption].
  - eapply sameControls_trans; eassumption.
Qed.

(** Every tick on a 20 x 20 grid returns, and only advances the world. *)
Lemma tick_advances (toFixed : R -> nat -> string) (numToString : R -> string)
    (now deltaTime : R) (h : Hook) (random : nat -> R) (n : nat) :
  wfGrid (grid (state h)) ->
  exists h' n',
    updateSimulation toFixed numToString now deltaTime h random n = (Some h', n')
    /\ wfGrid (grid (state h')) /\ advances h h'.
Proof.
  intros Hwf.
  destruct (negb (isRunning (state h)) || isPaused (state h)) eqn:Hidle.
  - rewrite (tick_idle toFixed numToString now deltaTime h random n Hidle).
    exists h, n. split; [reflexivity |]. split; [exact Hwf | apply advances_refl].
  - apply orb_false_elim in Hidle as [Hr Hp]. apply negb_false_iff in Hr.
    destruct (needsTarget (targetPositionRef h) (drone (state h))) eqn:Hq.
    + apply needsTarget_reacquires in Hq.
      rewrite (tick_reacquire toFixed numToString now deltaTime h random n Hr Hp Hq).
      cbv zeta. eexists. eexists. split; [reflexivity |].
      split; [exact Hwf |]. unfold advances. cbn [state withDecisionReasons grid intruders].
      split; [apply gridAdvances_refl |]. split; [| unfold sameControls; repeat split].
      apply Forall2_same. intros i. now left.
    + assert (~ reacquires h) as Hnq
          by (rewrite <- needsTarget_reacquires; congruence).
      destruct (not_reacquires_target h Hnq) as [target Ht].
      rewrite (tick_move toFixed numToString now deltaTime h random n target Hr Hp Ht Hnq).
      destruct (moveTick_wf toFixed numToString deltaTime h target Hwf)
        as [g' [Hg' [Hwf' Hm]]].
      rewrite Hm. eexists. eexists. split; [reflexivity |].
      cbn [option_map state grid]. split; [exact Hwf' |].
      unfold advances. cbn [state grid intruders].
      split; [eapply markObserved_advances; eassumption |].
      split; [apply Forall2_map_step; apply detectIntruder_advances |].
      unfold sameControls. repeat split.
Qed.

(** ** Runs of ticks *)

Section RunInvariant.

Variable toFixed : R -> nat -> string.
Variable numToString : R -> string.
Variable Inv : Hook -> Prop.
Variable Rel : Hook -> Hook -> Prop.
Variable okInput : R -> Prop.

Hypothesis Rel_trans : forall a b c, Rel a b -> Rel b c -> Rel a c.
Hypothesis tick_step :
  forall now deltaTime h random n,
    Inv h -> okInput deltaTime ->
    exists h' n',
      updateSimulation toFixed numToString now deltaTime h random n = (Some h', n')
      /\ Inv h' /\ Rel h h'.

Lemma runTicks_keeps (inputs : list (R * R)) (h : Hook) (random : nat -> R) (n : nat) :
  Inv h -> Forall (fun i => okInput (snd i)) inputs ->
  exists hs n',
    runTicks toFixed numToString inputs h random n = (Some hs, n')
    /\ List.length hs = List.length inputs
    /\ Forall (fun h' => Inv h' /\ Rel h h') hs.
Proof.
  revert h n. induction inputs as [| [now deltaTime] rest IH]; intros h n Hinv Hin.
  - exists [], n. repeat split. constructor.
  - inversion Hin as [| ? ? Hd Hrest]; subst. simpl in Hd.
    destruct (tick_step now deltaTime h random n Hinv Hd) as [h1 [n1 [Ht [Hinv1 Hrel1]]]].
    destruct (IH h1 n1 Hinv1 Hrest) as [hs [n2 [Hrun [Hlen Hall]]]].
    exists (h1 :: hs), n2. split.
    + simpl. unfold bind. rewrite Ht. fold (runTicks toFixed numToString rest).
      rewrite Hrun. reflexivity.
    + split; [simpl; now rewrite Hlen |]. constructor; [split; assumption |].
      eapply Forall_impl; [| exact Hall]. intros h' [Hi Hr]. split; [exact Hi |].
      eapply Rel_trans; eassumption.
Qed.

End RunInvariant.

Lemma runTicks_advances (toFixed : R -> nat -> string) (numToString : R -> string)
    (inputs : list (R * R)) (h : Hook) (random : nat -> R) (n : nat) :
  wfGrid (grid (state h)) ->
  exists hs n',
    runTicks toFixed numToString inputs h random n = (Some hs, n')
    /\ List.length hs = List.length inputs
    /\ Forall (fun h' => wfGrid (grid (state h')) /\ advances h h') hs.
Proof.
  intros Hwf.
  apply (runTicks_keeps toFixed numToString (fun h => wfGrid (grid (state h))) advances
           (fun _ => True) advances_trans).
  - intros now deltaTime h0 random0 n0 Hwf0 _. now apply tick_advances.
  - exact Hwf.
  - apply Forall_forall. intros i _. exact I.
Qed.

(** X6. Coverage is never lost: over any sequence of ticks on a 20 x 20 grid
    (any time deltas, any speed) every tick returns, the grid keeps its shape,
    and each cell keeps its coordinates and threat value; a visited cell stays
    visited, a visible cell stays visible, and an uncertainty that is not
    negative never rises and never drops below 0. *)
Theorem X6_cells_only_advance (toFixed : R -> nat -> string) (numToString : R -> string)
    (inputs : list (R * R)) (h : Hook) (random : nat -> R) (n : nat) :
  wfGrid (grid (state h)) ->
  exists hs n',
    runTicks toFixed numToString inputs h random n = (Some hs, n')
    /\ List.length hs = List.length inputs
    /\ Forall (fun h' => wfGrid (grid (state h'))
                         /\ gridAdvances (grid (state h)) (grid (state h'))) hs.
Proof.
  intros Hwf.
  destruct (runTicks_advances toFixed numToString inputs h random n Hwf)
    as [hs [n' [Hrun [Hlen Hall]]]].
  exists hs, n'. split; [exact Hrun |]. split; [exact Hlen |].
  eapply Forall_impl; [| exact Hall]. intros h' [Hw [Hg _]]. split; assumption.
Qed.

Lemma X6_cells_only_advance_witness :
  wfGrid (grid (state movingHook))
  /\ exists hs n',
       runTicks noFixed noPrint [ (0, 0.1); (0, 0.1) ] movingHook zeroRandom 0%nat
       = (Some hs, n')
       /\ List.length hs = 2%nat
       /\ Forall (fun h' => wfGrid (grid (state h'))
                            /\ gridAdvances (grid (state movingHook)) (grid (state h'))) hs.
Proof.
  split; [exact sampleGrid_wf |].
  exact (X6_cells_only_advance noFixed noPrint [ (0, 0.1); (0, 0.1) ] movingHook
           zeroRandom 0%nat sampleGrid_wf).
Defined.

(** X7. Detections are permanent: over any sequence of ticks the intruder
    list keeps its length and order, and each intruder either is exactly as
    before or went from undetected to detected with a [detectedAt] stamp,
    keeping id, position and threat level.  An intruder once detected is never
    changed again, so [detectedAt] is written once. *)
Theorem X7_detections_are_permanent (toFixed : R -> nat -> string)
    (numToString : R -> string) (inputs : list (R * R)) (h : Hook)
    (random : nat -> R) (n : nat) :
  wfGrid (grid (state h)) ->
  exists hs n',
    runTicks toFixed numToString inputs h random n = (Some hs, n')
    /\ Forall (fun h' =>
                 Forall2 intruderAdvances (intruders (state h)) (intruders (state h'))
                 /\ Forall2 (fun i i' => detected i = true -> i' = i)
                      (intruders (state h)) (intruders (state h'))) hs.
Proof.
  intros Hwf.
  destruct (runTicks_advances toFixed numToString inputs h random n Hwf)
    as [hs [n' [Hrun [_ Hall]]]].
  exists hs, n'. split; [exact Hrun |].
  eapply Forall_impl; [| exact Hall]. intros h' [_ [_ [Hi _]]]. split; [exact Hi |].
  eapply Forall2_impl; [| exact Hi].
  intros i i' [-> | [Hd _]] Hdet; [reflexivity | congruence].
Qed.

Lemma X7_detections_are_permanent_witness :
  wfGrid (grid (state movingHook))
  /\ exists hs n',
       runTicks noFixed noPrint [ (0, 0.1); (0, 0.1) ] movingHook zeroRandom 0%nat
       = (Some hs, n')
       /\ Forall (fun h' =>
                    Forall2 intruderAdvances (intruders (state movingHook))
                      (intruders (state h'))
                    /\ Forall2 (fun i i' => detected i = true -> i' = i)
                         (intruders (state movingHook)) (intruders (state h'))) hs.
Proof.
  split; [exact sampleGrid_wf |].
  exact (X7_detections_are_permanent noFixed noPrint [ (0, 0.1); (0, 0.1) ] movingHook
           zeroRandom 0%nat sampleGrid_wf).
Defined.

(** X8. Ticks leave the controls alone: over any sequence of ticks the run and
    pause flags, the speed, the selected algorithm, environment and heatmap,
    and the obstacles are those of the start.  In particular no tick ever
    stops the simulation, whatever the battery. *)
Theorem X8_ticks_keep_controls (toFixed : R -> nat -> string)
    (numToString : R -> string) (inputs : list (R * R)) (h : Hook)
    (random : nat -> R) (n : nat) :
  wfGrid (grid (state h)) ->
  exists hs n',
    runTicks toFixed numToString inputs h random n = (Some hs, n')
    /\ Forall (fun h' => sameControls (state h) (state h')) hs.
Proof.
  intros Hwf.
  destruct (runTicks_advances toFixed numToString inputs h random n Hwf)
    as [hs [n' [Hrun [_ Hall]]]].
  exists hs, n'. split; [exact Hrun |].
  eapply Forall_impl; [| exact Hall]. intros h' [_ [_ [_ Hc]]]. exact Hc.
Qed.

Lemma X8_ticks_keep_controls_witness :
  wfGrid (grid (state movingHook))
  /\ exists hs n',
       runTicks noFixed noPrint [ (0, 0.1); (0, 0.1) ] movingHook zeroRandom 0%nat
       = (Some hs, n')
       /\ Forall (fun h' => sameControls (state movingHook) (state h')) hs.
Proof.
  split; [exact sampleGrid_wf |].
  exact (X8_ticks_keep_controls noFixed noPrint [ (0, 0.1); (0, 0.1) ] movingHook
           zeroRandom 0%nat sampleGrid_wf).
Defined.

(** ** Kinematics *)

Lemma hypot_scale (k a b : R) : 0 <= k -> JS.hypot (k * a) (k * b) = k * JS.hypot a b.
Proof.
  intros Hk. unfold JS.hypot.
  replace (k * a * (k * a) + k * b * (k * b)) with (k * k * (a * a + b * b)) by ring.
  rewrite sqrt_mult by nra. rewrite sqrt_square by exact Hk. reflexivity.
Qed.

(** In the movement branch the agent moves along the segment to its target,
    by the fraction [k = min (2 dt, distance) / distance] of it. *)
Lemma moveDrone_along_segment (dt : R) (target : Position) (d : DroneState) :
  let dx := px target - px (position d) in
  let dz := pz target - pz (position d) in
  let distance := JS.hypot dx dz in
  0.5 <= distance -> 0 <= dt ->
  exists k,
    0 <= k <= 1
    /\ k * distance = JS.min (2 * dt) distance
    /\ px (position (moveDrone dt target d)) = px (position d) + k * dx
    /\ pz (position (moveDrone dt target d)) = pz (position d) + k * dz
    /\ py (position (moveDrone dt target d)) = py (position d).
Proof.
  cbv zeta. intros Hfar Hdt.
  destruct (moveDrone_far dt target d Hfar) as [Hpos _]. cbv zeta in Hpos.
  set (distance := JS.hypot (px target - px (position d)) (pz target - pz (position d))) in *.
  exists (JS.min (2 * dt) distance / distance).
  assert (0 <= JS.min (2 * dt) distance <= distance) as [Hm0 Hm1].
  { unfold JS.min, Rmin. destruct (Rle_dec (2 * dt) distance); lra. }
  split.
  - split.
    + apply Rmult_le_pos; [exact Hm0 |]. apply Rlt_le, Rinv_0_lt_compat. lra.
    + apply Rmult_le_reg_r with distance; [lra |]. field_simplify; lra.
  - split; [field; lra |]. rewrite Hpos. cbn [px py pz].
    repeat split; field; lra.
Qed.

Lemma segment_in_range (a b k : R) :
  -9 <= a <= 9 -> -9 <= b <= 9 -> 0 <= k <= 1 -> -9 <= a + k * (b - a) <= 9.
Proof. intros Ha Hb Hk. split; nra. Qed.

(** X9. The agent never overshoots: on a movement tick (Running, not paused,
    current target at distance [d >= 0.5]) with [dt >= 0], the distance to the
    target after the tick is [d - min (2 dt, d)], so it never grows and is 0
    once [2 dt >= d]; the altitude [y] and the target are kept and [isMoving]
    is set. *)
Theorem X9_movement_never_overshoots (toFixed : R -> nat -> string)
    (numToString : R -> string) (now deltaTime : R) (h : Hook) (target : Position)
    (random : nat -> R) (n : nat) :
  isRunning (state h) = true -> isPaused (state h) = false ->
  wfGrid (grid (state h)) ->
  targetPositionRef h = Some target -> ~ reacquires h ->
  0 <= deltaTime * speed (state h) ->
  let dist (p : Position) := JS.hypot (px target - px p) (pz target - pz p) in
  let d := dist (position (drone (state h))) in
  exists h',
    updateSimulation toFixed numToString now deltaTime h random n = (Some h', n)
    /\ targetPositionRef h' = Some target
    /\ dist (position (drone (state h')))
       = d - JS.min (2 * (deltaTime * speed (state h))) d
    /\ 0 <= dist (position (drone (state h'))) <= d
    /\ py (position (drone (state h'))) = py (position (drone (state h)))
    /\ isMoving (drone (state h')) = true.
Proof.
  intros Hr Hp Hwf Ht Hnq Hdt. cbv zeta.
  rewrite (tick_move toFixed numToString now deltaTime h random n target Hr Hp Ht Hnq).
  destruct (moveTick_wf toFixed numToString deltaTime h target Hwf) as [g' [_ [_ Hm]]].
  rewrite Hm. eexists. split; [reflexivity |].
  cbn [option_map state drone targetPositionRef]. split; [reflexivity |].
  assert (0.5 <= JS.hypot (px target - px (position (drone (state h))))
                          (pz target - pz (position (drone (state h))))) as Hfar.
  { rewrite hypot_swap. apply Rnot_lt_le. intros Hlt. apply Hnq. right.
    exists target. split; assumption. }
  destruct (moveDrone_along_segment (deltaTime * speed (state h)) target
              (drone (state h)) Hfar Hdt) as [k [[Hk0 Hk1] [Hkd [Hx [Hz Hy]]]]].
  set (dt := deltaTime * speed (state h)) in *.
  set (dx := px target - px (position (drone (state h)))) in *.
  set (dz := pz target - pz (position (drone (state h)))) in *.
  assert (JS.hypot (px target - px (position (moveDrone dt target (drone (state h)))))
                   (pz target - pz (position (moveDrone dt target (drone (state h)))))
          = JS.hypot dx dz - JS.min (2 * dt) (JS.hypot dx dz)) as Hdist.
  { rewrite Hx, Hz.
    replace (px target - (px (position (drone (state h))) + k * dx))
      with ((1 - k) * dx) by (unfold dx; ring).
    replace (pz target - (pz (position (drone (state h))) + k * dz))
      with ((1 - k) * dz) by (unfold dz; ring).
    rewrite hypot_scale by lra. rewrite <- Hkd. ring. }
  split; [exact Hdist |]. split.
  - rewrite Hdist. unfold JS.min, Rmin.
    destruct (Rle_dec (2 * dt) (JS.hypot dx dz)); lra.
  - split; [exact Hy |]. unfold moveDrone. cbn [isMoving].
    unfold JS.gtb. apply ltb_true. fold dx dz. lra.
Qed.

Lemma X9_movement_never_overshoots_witness :
  ~ reacquires movingHook
  /\ 0 <= 0.1 * speed (state movingHook)
  /\ exists h',
       updateSimulation noFixed noPrint 0 0.1 movingHook zeroRandom 0%nat = (Some h', 0%nat)
       /\ JS.hypot (px eastTarget - px (position (drone (state h'))))
                   (pz eastTarget - pz (position (drone (state h'))))
          <= JS.hypot (px eastTarget - px (position (drone (state movingHook))))
                      (pz eastTarget - pz (position (drone (state movingHook)))).
Proof.
  assert (0 <= 0.1 * speed (state movingHook)) as Hdt by (simpl; lra).
  split; [exact movingHook_moves |]. split; [exact Hdt |].
  destruct (X9_movement_never_overshoots noFixed noPrint 0 0.1 movingHook eastTarget
              zeroRandom 0%nat eq_refl eq_refl sampleGrid_wf eq_refl movingHook_moves Hdt)
    as [h' [Hrun [_ [_ [[_ Hle] _]]]]].
  exists h'. split; [exact Hrun | exact Hle].
Defined.

Lemma tick_patrolsField (toFixed : R -> nat -> string) (numToString : R -> string)
    (now deltaTime : R) (h : Hook) (random : nat -> R) (n : nat) :
  wfGrid (grid (state h)) /\ 0 <= speed (state h) /\ patrolsField h ->
  0 <= deltaTime ->
  exists h' n',
    updateSimulation toFixed numToString now deltaTime h random n = (Some h', n')
    /\ (wfGrid (grid (state h')) /\ 0 <= speed (state h') /\ patrolsField h')
    /\ True.
Proof.
  intros [Hwf [Hs [Hd Htf]]] Hdt.
  destruct (negb (isRunning (state h)) || isPaused (state h)) eqn:Hidle.
  - rewrite (tick_idle toFixed numToString now deltaTime h random n Hidle).
    exists h, n. split; [reflexivity |]. split; [| exact I].
    split; [exact Hwf |]. split; [exact Hs |]. split; [exact Hd | exact Htf].
  - apply orb_false_elim in Hidle as [Hr Hp]. apply negb_false_iff in Hr.
    destruct (needsTarget (targetPositionRef h) (drone (state h))) eqn:Hq.
    + apply needsTarget_reacquires in Hq.
      rewrite (tick_reacquire toFixed numToString now deltaTime h random n Hr Hp Hq).
      cbv zeta. eexists. eexists. split; [reflexivity |]. split; [| exact I].
      cbn [state withDecisionReasons grid speed]. split; [exact Hwf |].
      split; [exact Hs |]. split; [exact Hd |].
      cbn [targetPositionRef]. intros t Ht. injection Ht as <-.
      apply waypoint_in_field.
    + assert (~ reacquires h) as Hnq
          by (rewrite <- needsTarget_reacquires; congruence).
      destruct (not_reacquires_target h Hnq) as [target Ht].
      rewrite (tick_move toFixed numToString now deltaTime h random n target Hr Hp Ht Hnq).
      destruct (moveTick_wf toFixed numToString deltaTime h target Hwf)
        as [g' [_ [Hwf' Hm]]].
      rewrite Hm. eexists. eexists. split; [reflexivity |]. split; [| exact I].
      cbn [option_map state grid speed]. split; [exact Hwf' |]. split; [exact Hs |].
      unfold patrolsField. cbn [state drone targetPositionRef].
      split; [| intros t Ht'; injection Ht' as <-; exact (Htf target Ht)].
      assert (0.5 <= JS.hypot (px target - px (position (drone (state h))))
                              (pz target - pz (position (drone (state h))))) as Hfar.
      { rewrite hypot_swap. apply Rnot_lt_le. intros Hlt. apply Hnq. right.
        exists target. split; assumption. }
      assert (0 <= deltaTime * speed (state h)) as Hdts by nra.
      destruct (moveDrone_along_segment (deltaTime * speed (state h)) target
                  (drone (state h)) Hfar Hdts) as [k [Hk [_ [Hx [Hz _]]]]].
      destruct Hd as [Hdx Hdz]. destruct (Htf target Ht) as [Htx Htz].
      unfold inField. rewrite Hx, Hz.
      split; apply segment_in_range; assumption.
Qed.

(** X10. The agent stays in the field: started with the agent (and its
    current target, if any) within [-9, 9] on both axes, a speed that is not
    negative and time deltas that are not negative, every tick of any
    sequence returns and leaves the agent within the field. *)
Theorem X10_agent_stays_in_field (toFixed : R -> nat -> string)
    (numToString : R -> string) (inputs : list (R * R)) (h : Hook)
    (random : nat -> R) (n : nat) :
  wfGrid (grid (state h)) -> 0 <= speed (state h) -> patrolsField h ->
  Forall (fun i => 0 <= snd i) inputs ->
  exists hs n',
    runTicks toFixed numToString inputs h random n = (Some hs, n')
    /\ List.length hs = List.length inputs
    /\ Forall (fun h' => inField (position (drone (state h')))) hs.
Proof.
  intros Hwf Hs Hf Hin.
  destruct (runTicks_keeps toFixed numToString
              (fun h => wfGrid (grid (state h)) /\ 0 <= speed (state h) /\ patrolsField h)
              (fun _ _ => True) (fun dT => 0 <= dT) (fun _ _ _ _ _ => I)
              (tick_patrolsField toFixed numToString) inputs h random n
              (conj Hwf (conj Hs Hf)) Hin)
    as [hs [n' [Hrun [Hlen Hall]]]].
  exists hs, n'. split; [exact Hrun |]. split; [exact Hlen |].
  eapply Forall_impl; [| exact Hall]. intros h' [[_ [_ [Hd _]]] _]. exact Hd.
Qed.

Lemma movingHook_patrolsField : patrolsField movingHook.
Proof.
  split.
  - unfold inField. simpl. lra.
  - intros t Ht. injection Ht as <-. unfold inField. simpl. lra.
Qed.

Lemma X10_agent_stays_in_field_witness :
  patrolsField movingHook
  /\ Forall (fun i : R * R => 0 <= snd i) [ (0, 0.1); (0, 0.1) ]
  /\ exists hs n',
       runTicks noFixed noPrint [ (0, 0.1); (0, 0.1) ] movingHook zeroRandom 0%nat
       = (Some hs, n')
       /\ List.length hs = 2%nat
       /\ Forall (fun h' => inField (position (drone (state h')))) hs.
Proof.
  assert (0 <= speed (state movingHook)) as Hs by (simpl; lra).
  assert (Forall (fun i : R * R => 0 <= snd i) [ (0, 0.1); (0, 0.1) ]) as Hin
      by (repeat constructor; simpl; lra).
  split; [exact movingHook_patrolsField |]. split; [exact Hin |].
  exact (X10_agent_stays_in_field noFixed noPrint [ (0, 0.1); (0, 0.1) ] movingHook
           zeroRandom 0%nat sampleGrid_wf Hs movingHook_patrolsField Hin).
Defined.

(** ** Metrics ranges *)

Lemma wfGrid_cell_count (g : Grid) : wfGrid g -> List.length (List.concat g) = 400%nat.
Proof.
  intros [Hlen HF]. change (Z.to_nat GRID_SIZE) with 20%nat in *.
  assert (List.length (List.concat g) = (20 * List.length g)%nat) as Hcount.
  { clear Hlen. induction HF as [| row rest Hrow _ IH]; [reflexivity |].
    cbn [List.concat List.length]. rewrite length_app, Hrow, IH. lia. }
  rewrite Hcount, Hlen. reflexivity.
Qed.

Lemma filter_length_le {A} (f : A -> bool) (l : list A) :
  (List.length (filter f l) <= List.length l)%nat.
Proof. induction l as [| a l IH]; simpl; [lia |]. destruct (f a); simpl; lia. Qed.

Lemma detected_count_grows (nd : DroneState) (e : R) (l : list Intruder) :
  (List.length (filter detected l)
   <= List.length (filter detected (map (detectIntruder nd e) l)))%nat.
Proof.
  induction l as [| i l IH]; simpl; [lia |].
  destruct (detected i) eqn:Hd.
  - assert (detectIntruder nd e i = i) as ->.
    { unfold detectIntruder. rewrite Hd, andb_false_r. reflexivity. }
    rewrite Hd. simpl. lia.
  - destruct (detected (detectIntruder nd e i)); simpl; lia.
Qed.

(** X11. The metrics a movement tick publishes are in range and consistent
    with the state they come with: [areaObserved] and [blindSpots] lie in
    [0, 100]; [battery] is the agent's battery; [totalIntruders] is the length
    of the intruder list, which is the length before the tick;
    [intrudersDetected] counts the detected intruders, is at most
    [totalIntruders] and not below the number detected before the tick; and
    the elapsed time has advanced by [dt = deltaTime * speed]. *)
Theorem X11_metrics_in_range (toFixed : R -> nat -> string)
    (numToString : R -> string) (now deltaTime : R) (h : Hook)
    (random : nat -> R) (n : nat) :
  isRunning (state h) = true -> isPaused (state h) = false ->
  wfGrid (grid (state h)) -> ~ reacquires h ->
  exists h',
    updateSimulation toFixed numToString now deltaTime h random n = (Some h', n)
    /\ 0 <= areaObserved (metrics (state h')) <= 100
    /\ 0 <= blindSpots (metrics (state h')) <= 100
    /\ m_battery (metrics (state h')) = battery (drone (state h'))
    /\ totalIntruders (metrics (state h')) = List.length (intruders (state h'))
    /\ List.length (intruders (state h')) = List.length (intruders (state h))
    /\ intrudersDetected (metrics (state h'))
       = List.length (filter detected (intruders (state h')))
    /\ (List.length (filter detected (intruders (state h)))
        <= intrudersDetected (metrics (state h'))
        <= totalIntruders (metrics (state h')))%nat
    /\ elapsedTime (state h') = elapsedTime (state h) + deltaTime * speed (state h).
Proof.
  intros Hr Hp Hwf Hnq.
  destruct (not_reacquires_target h Hnq) as [target Ht].
  rewrite (tick_move toFixed numToString now deltaTime h random n target Hr Hp Ht Hnq).
  destruct (moveTick_wf toFixed numToString deltaTime h target Hwf) as [g' [_ [Hwf' Hm]]].
  rewrite Hm. eexists. split; [reflexivity |].
  cbn [option_map state metrics drone intruders elapsedTime].
  unfold computeMetrics.
  cbn [areaObserved blindSpots m_battery totalIntruders intrudersDetected].
  change (IZR (GRID_SIZE * GRID_SIZE)) with 400.
  pose proof (filter_length_le visited (List.concat g')) as Hv.
  rewrite (wfGrid_cell_count g' Hwf') in Hv.
  apply le_INR in Hv.
  assert (INR 400 = 400) as H400 by (rewrite INR_IZR_INZ; reflexivity).
  rewrite H400 in Hv.
  pose proof (pos_INR (List.length (filter visited (List.concat g')))) as Hv0.
  set (v := INR (List.length (filter visited (List.concat g')))) in *.
  split; [lra |]. split; [lra |]. split; [reflexivity |]. split; [reflexivity |].
  split; [apply length_map |]. split; [reflexivity |].
  split; [| reflexivity]. split; [apply detected_count_grows | apply filter_length_le].
Qed.

Lemma X11_metrics_in_range_witness :
  wfGrid (grid (state movingHook)) /\ ~ reacquires movingHook
  /\ exists h',
       updateSimulation noFixed noPrint 0 0.1 movingHook zeroRandom 0%nat = (Some h', 0%nat)
       /\ 0 <= areaObserved (metrics (state h')) <= 100
       /\ 0 <= blindSpots (metrics (state h')) <= 100.
Proof.
  split; [exact sampleGrid_wf |]. split; [exact movingHook_moves |].
  destruct (X11_metrics_in_range noFixed noPrint 0 0.1 movingHook zeroRandom 0%nat
              eq_refl eq_refl sampleGrid_wf movingHook_moves)
    as [h' [Hrun [Ha [Hb _]]]].
  exists h'. split; [exact Hrun |]. split; [exact Ha | exact Hb].
Defined.

(** ** Control actions and the tick *)

(** X12. Pause and stop freeze the world: a tick on a paused hook, or on a
    stopped one, returns that very hook and draws no random number, whatever
    the time delta.  Pausing keeps the target and resuming a running hook
    restores it exactly; stopping clears the target. *)
Theorem X12_pause_and_stop_freeze (toFixed : R -> nat -> string)
    (numToString : R -> string) (now deltaTime : R) (h : Hook)
    (random : nat -> R) (n : nat) :
  updateSimulation toFixed numToString now deltaTime (pauseSimulation h) random n
  = (Some (pauseSimulation h), n)
  /\ updateSimulation toFixed numToString now deltaTime (stopSimulation h) random n
     = (Some (stopSimulation h), n)
  /\ targetPositionRef (stopSimulation h) = None
  /\ (isPaused (state h) = false -> resumeSimulation (pauseSimulation h) = h).
Proof.
  split; [| split; [| split]].
  - apply tick_idle. cbn [pauseSimulation state withRunFlags isRunning isPaused].
    apply orb_true_r.
  - apply tick_idle. reflexivity.
  - reflexivity.
  - intros Hp. destruct h as [s t]. unfold resumeSimulation, pauseSimulation.
    cbn [state targetPositionRef withRunFlags isRunning isPaused] in *. f_equal.
    destruct s. cbn in *. subst. reflexivity.
Qed.

Lemma X12_pause_and_stop_freeze_witness :
  isPaused (state movingHook) = false
  /\ resumeSimulation (pauseSimulation movingHook) = movingHook.
Proof.
  split; [reflexivity |].
  exact (proj2 (proj2 (proj2 (X12_pause_and_stop_freeze noFixed noPrint 0 0.1 movingHook
                                zeroRandom 0%nat))) eq_refl).
Defined.

Lemma tick_without_target (toFixed : R -> nat -> string) (numToString : R -> string)
    (now deltaTime : R) (s : SimulationState) (random : nat -> R) (n : nat) :
  isRunning s = true -> isPaused s = false ->
  updateSimulation toFixed numToString now deltaTime (mkHook s None) random n
  = let r := getNextPosition toFixed now (currentAlgorithm s) (drone s) (grid s)
               (intruders s) (obstacles s) random n in
    (Some {| state := withDecisionReasons s (snd (fst r));
             targetPositionRef := Some (fst (fst r)) |}, snd r).
Proof.
  intros Hr Hp.
  exact (tick_reacquire toFixed numToString now deltaTime (mkHook s None) random n
           Hr Hp (or_introl eq_refl)).
Qed.

(** X13. Selecting an algorithm forces an immediate re-decision: on a Running
    hook, the tick after [setAlgorithm a] consults strategy [a], whatever
    target was current before, stores its waypoint as the new target and its
    reasons as [decisionReasons], and leaves the agent, grid, intruders,
    metrics, timeline and clock as they were.  The same holds for the first
    tick after [stopSimulation] followed by [startSimulation], with the
    algorithm in force. *)
Theorem X13_new_algorithm_decides_next_tick (toFixed : R -> nat -> string)
    (numToString : R -> string) (now deltaTime : R) (h : Hook) (a : Algorithm)
    (random : nat -> R) (n : nat) :
  (isRunning (state h) = true -> isPaused (state h) = false ->
   let r := getNextPosition toFixed now a (drone (state h)) (grid (state h))
              (intruders (state h)) (obstacles (state h)) random n in
   updateSimulation toFixed numToString now deltaTime (setAlgorithm a h) random n
   = (Some {| state := withDecisionReasons (state (setAlgorithm a h)) (snd (fst r));
              targetPositionRef := Some (fst (fst r)) |}, snd r))
  /\ (let r := getNextPosition toFixed now (currentAlgorithm (state h)) (drone (state h))
                 (grid (state h)) (intruders (state h)) (obstacles (state h)) random n in
      updateSimulation toFixed numToString now deltaTime
        (startSimulation (stopSimulation h)) random n
      = (Some {| state := withDecisionReasons (state (startSimulation (stopSimulation h)))
                            (snd (fst r));
                 targetPositionRef := Some (fst (fst r)) |}, snd r)).
Proof.
  split.
  - intros Hr Hp.
    exact (tick_without_target toFixed numToString now deltaTime (state (setAlgorithm a h))
             random n Hr Hp).
  - exact (tick_without_target toFixed numToString now deltaTime
             (state (startSimulation (stopSimulation h))) random n eq_refl eq_refl).
Qed.

Lemma X13_new_algorithm_decides_next_tick_witness :
  isRunning (state movingHook) = true /\ isPaused (state movingHook) = false
  /\ option_map targetPositionRef
       (fst (updateSimulation noFixed noPrint 0 0.1 (setAlgorithm CPA movingHook)
               zeroRandom 0%nat))
     = Some (Some (fst (fst (getNextPosition noFixed 0 CPA (drone (state movingHook))
                               (grid (state movingHook)) (intruders (state movingHook))
                               (obstacles (state movingHook)) zeroRandom 0%nat)))).
Proof.
  split; [reflexivity |]. split; [reflexivity |].
  rewrite (proj1 (X13_new_algorithm_decides_next_tick noFixed noPrint 0 0.1 movingHook CPA
                    zeroRandom 0%nat) eq_refl eq_refl).
  reflexivity.
Defined.

(** ** World generation *)

Lemma forPush_Forall_idx {A} (P : nat -> A -> Prop) (idx : list nat)
    (body : nat -> Gen A) random n :
  (forall i m, In i idx -> P i (fst (body i random m))) ->
  Forall2 P idx (fst (forPush idx body random n)).
Proof.
  revert n. induction idx as [| i rest IH]; intros n HP; simpl; [constructor |].
  unfold bind. pose proof (HP i n (or_introl eq_refl)) as Hi.
  destruct (body i random n) as [a n1].
  specialize (IH n1 (fun j m Hj => HP j m (or_intror Hj))).
  destruct (forPush rest body random n1) as [out n2].
  simpl in *. now constructor.
Qed.

Lemma Forall2_Forall_r {A B} (P : A -> B -> Prop) (Q : B -> Prop) (l : list A)
    (l' : list B) :
  (forall a b, In a l -> P a b -> Q b) -> Forall2 P l l' -> Forall Q l'.
Proof.
  intros H HF. induction HF as [| a b l l' Hab _ IH]; constructor.
  - apply (H a b); [now left | exact Hab].
  - apply IH. intros a' b' Hin. apply H. now right.
Qed.

Lemma nth_cluster_center (k : nat) :
  In (nth (Nat.modulo k 4) clusterCenters (0, 0)) clusterCenters.
Proof.
  apply nth_In. change (List.length clusterCenters) with 4%nat.
  apply Nat.mod_upper_bound. discriminate.
Qed.

Lemma generateIntruder_shape (env : Environment) (i : nat) (random : nat -> R) (m : nat) :
  unitDraws random ->
  let it := fst (generateIntruder env i random m) in
  intr_id it = ("intruder-" ++ JS.natToString i)%string
  /\ detected it = false /\ detectedAt it = None
  /\ py (intr_position it) = 0
  /\ -7 <= px (intr_position it) <= 7 /\ -7 <= pz (intr_position it) <= 7
  /\ (env = dynamic_risk -> (0 < i)%nat -> nearCluster (intr_position it)).
Proof.
  intros Hu. cbv zeta. unfold generateIntruder, bind, Math_random, ret.
  pose proof (Hu m) as H0. pose proof (Hu (S m)) as H1.
  pose proof (Hu (S (S m))) as H2. pose proof (Hu (S (S (S m)))) as H3.
  destruct (Environment_eqb env dynamic_risk && Nat.ltb 0 i) eqn:Hc;
    cbn [fst snd intr_id detected detectedAt intr_position px py pz].
  - pose proof (nth_cluster_center (Nat.div i 2)) as Hin.
    set (c := nth (Nat.modulo (Nat.div i 2) 4) clusterCenters (0, 0)) in *.
    assert (-5 <= fst c <= 5 /\ -5 <= snd c <= 5) as [Hcx Hcz].
    { simpl in Hin. destruct Hin as [<- | [<- | [<- | [<- | []]]]]; simpl; lra. }
    repeat split; try lra.
    intros _ _. exists c. cbn [px pz]. split; [exact Hin |]. split; lra.
  - repeat split; try lra.
    intros -> Hi. apply Nat.ltb_lt in Hi. simpl in Hc. rewrite Hi in Hc. discriminate.
Qed.

(** X14. Generated intruders, for draws in [0, 1): every preset gives 4
    intruders, 'dynamic-risk' 8, with ids 'intruder-0', 'intruder-1', ... in
    order, all undetected with no [detectedAt], at height 0 and within
    [-7, 7] on both axes, so inside the patrol field.  In 'dynamic-risk'
    every intruder but the first lies within 1.5 of one of the cluster centres
    (+-5, +-5). *)
Theorem X14_generated_intruders (env : Environment) (random : nat -> R) (n : nat) :
  unitDraws random ->
  let intrs := fst (generateIntruders env random n) in
  map intr_id intrs
  = map (fun i => ("intruder-" ++ JS.natToString i)%string) (seq 0 (intruderCount env))
  /\ Forall (fun it => detected it = false /\ detectedAt it = None
                        /\ py (intr_position it) = 0
                        /\ -7 <= px (intr_position it) <= 7
                        /\ -7 <= pz (intr_position it) <= 7) intrs
  /\ (env = dynamic_risk -> Forall (fun it => nearCluster (intr_position it)) (tl intrs)).
Proof.
  intros Hu. cbv zeta.
  assert (generateIntruders env = forPush (seq 0 (intruderCount env)) (generateIntruder env))
    as Hgen by (destruct env; reflexivity).
  rewrite Hgen. clear Hgen.
  pose proof (forPush_Forall_idx
                (fun i it =>
                   intr_id it = ("intruder-" ++ JS.natToString i)%string
                   /\ (detected it = false /\ detectedAt it = None
                       /\ py (intr_position it) = 0
                       /\ -7 <= px (intr_position it) <= 7
                       /\ -7 <= pz (intr_position it) <= 7)
                   /\ (env = dynamic_risk -> (0 < i)%nat -> nearCluster (intr_position it)))
                (seq 0 (intruderCount env)) (generateIntruder env) random n) as HF.
  match type of HF with
  | ?A -> _ => assert A as Hbody
  end.
  { intros i m _. pose proof (generateIntruder_shape env i random m Hu) as H.
    cbv zeta in H. cbv beta. tauto. }
  specialize (HF Hbody). clear Hbody. split; [| split].
  - induction HF as [| i it idx l [Hid _] _ IH]; [reflexivity |].
    simpl. now rewrite Hid, IH.
  - eapply Forall2_Forall_r; [| exact HF]. intros i it _ [_ [H _]]. exact H.
  - intros ->. simpl seq in HF. inversion HF as [| i it idx l _ Hrest]; subst.
    cbn [tl]. eapply Forall2_Forall_r; [| exact Hrest].
    intros i it Hin [_ [_ Hnear]]. apply Hnear; [reflexivity |].
    simpl in Hin. lia.
Qed.

Lemma zeroRandom_unit : unitDraws zeroRandom.
Proof. intros k. unfold zeroRandom. lra. Qed.

Lemma X14_generated_intruders_witness :
  unitDraws zeroRandom
  /\ map intr_id (fst (generateIntruders open_grid zeroRandom 0%nat))
     = [ "intruder-0"; "intruder-1"; "intruder-2"; "intruder-3" ]%string.
Proof.
  split; [exact zeroRandom_unit |].
  exact (proj1 (X14_generated_intruders open_grid zeroRandom 0%nat zeroRandom_unit)).
Defined.

Lemma wallObstacles_shape : Forall (obstacleShape maze_facility) (wallObstacles 0 wallPositions).
Proof.
  unfold wallPositions. cbn [wallObstacles].
  repeat (constructor;
          [unfold obstacleShape; cbn; repeat split; try lra; intros _; reflexivity |]).
  constructor.
Qed.

(** X15. Generated obstacles, for draws in [0, 1): the presets give 0, 15, 9,
    6, 10 and 8 obstacles; all are static except those of 'changing-env',
    which are all dynamic and the only ones that may be hidden; every obstacle
    stands at height 0 within [-8, 8] on both axes and has positive width,
    height and depth. *)
Theorem X15_generated_obstacles (env : Environment) (random : nat -> R) (n : nat) :
  unitDraws random ->
  List.length (fst (generateObstacles env random n)) = obstacleCount env
  /\ Forall (obstacleShape env) (fst (generateObstacles env random n)).
Proof.
  intros Hu.
  assert (forall m, 0 <= random m < 1) as Hr by exact Hu.
  destruct env; unfold generateObstacles.
  - split; [reflexivity | constructor].
  - split; [now rewrite forPush_length |]. apply forPush_Forall. intros i m.
    unfold bind, Math_random, ret. cbn [fst].
    pose proof (Hr m). pose proof (Hr (S m)). pose proof (Hr (S (S m))).
    pose proof (Hr (S (S (S m)))). pose proof (Hr (S (S (S (S m))))).
    unfold obstacleShape. cbn. repeat split; try lra; try (intros _; reflexivity).
  - split; [reflexivity | exact wallObstacles_shape].
  - split; [now rewrite forPush_length |]. apply forPush_Forall. intros i m.
    unfold bind, Math_random, ret. cbn [fst].
    pose proof (Hr m). pose proof (Hr (S m)).
    unfold obstacleShape. cbn. repeat split; try lra; try (intros _; reflexivity).
  - split; [now rewrite forPush_length |]. apply forPush_Forall. intros i m.
    unfold bind, Math_random, ret. cbn [fst].
    pose proof (Hr m). pose proof (Hr (S m)).
    unfold obstacleShape. cbn. repeat split; try lra. intros Hne. now elim Hne.
  - split; [now rewrite forPush_length |]. apply forPush_Forall. intros i m.
    unfold bind, Math_random, ret. cbn [fst].
    pose proof (Hr m). pose proof (Hr (S m)).
    unfold obstacleShape. cbn. repeat split; try lra; try (intros _; reflexivity).
Qed.

Lemma X15_generated_obstacles_witness :
  unitDraws zeroRandom
  /\ List.length (fst (generateObstacles urban_dense zeroRandom 0%nat)) = 15%nat
  /\ Forall (obstacleShape urban_dense) (fst (generateObstacles urban_dense zeroRandom 0%nat)).
Proof.
  split; [exact zeroRandom_unit |].
  exact (X15_generated_obstacles urban_dense zeroRandom 0%nat zeroRandom_unit).
Defined.

Lemma Forall2_nth_error_r {A B} (P : A -> B -> Prop) (l : list A) (l' : list B)
    (k : nat) (b : B) :
  Forall2 P l l' -> nth_error l' k = Some b ->
  exists a, nth_error l k = Some a /\ P a b.
Proof.
  intros HF. revert k. induction HF as [| a0 b0 l l' H0 _ IH]; intros k Hk.
  - destruct k; discriminate.
  - destruct k as [| k]; simpl in *.
    + injection Hk as <-. exists a0. split; [reflexivity | exact H0].
    + apply IH. exact Hk.
Qed.

Lemma nth_error_seq_value (start len k a : nat) :
  nth_error (seq start len) k = Some a -> a = (start + k)%nat.
Proof.
  revert start k. induction len as [| len IH]; intros start k H.
  - destruct k; discriminate.
  - destruct k as [| k]; simpl in H.
    + injection H as <-. lia.
    + apply IH in H. lia.
Qed.

Lemma createCell_fresh (fogOfWar : bool) (x y : nat) (random : nat -> R) (m : nat) :
  unitDraws random ->
  freshCell fogOfWar (Z.of_nat x) (Z.of_nat y) (fst (createCell fogOfWar x y random m)).
Proof.
  intros Hu. pose proof (Hu m) as H0. pose proof (Hu (S m)) as H1.
  unfold createCell, bind, Math_random, ret, freshCell.
  destruct fogOfWar; cbn; repeat split; try lra; try discriminate.
Qed.

Lemma wfGrid_gridAt (g : Grid) (gx gz : Z) :
  wfGrid g -> inBounds gx gz = true -> exists c, gridAt g gx gz = Some c.
Proof.
  intros Hwf Hb. apply inBounds_spec in Hb as [Hx Hz]. unfold GRID_SIZE in *.
  pose proof Hwf as [Hlen _]. change (Z.to_nat GRID_SIZE) with 20%nat in Hlen.
  unfold gridAt.
  assert ((gx <? 0)%Z = false) as -> by (apply Z.ltb_ge; lia).
  assert ((gz <? 0)%Z = false) as -> by (apply Z.ltb_ge; lia). simpl.
  destruct (nth_error g (Z.to_nat gx)) as [row |] eqn:Er.
  - pose proof (wfGrid_row g row _ Hwf Er) as Hrow.
    change (Z.to_nat GRID_SIZE) with 20%nat in Hrow.
    destruct (nth_error row (Z.to_nat gz)) as [c |] eqn:Ec; [now exists c |].
    apply nth_error_None in Ec. lia.
  - apply nth_error_None in Er. lia.
Qed.

(** X16. A fresh grid, for draws in [0, 1): [createGrid] returns 20 rows of
    20 cells; every in-bounds index holds a cell, and the cell at [(gx, gz)]
    carries those coordinates, is unvisited with [lastVisited = 0] and
    [coverageValue = 0], has [threatValue] in [0, 0.3), and is visible with
    uncertainty in [0, 0.5) without fog of war, invisible with uncertainty 1
    under it. *)
Theorem X16_fresh_grid (fogOfWar : bool) (random : nat -> R) (n : nat) :
  unitDraws random ->
  let g := fst (createGrid fogOfWar random n) in
  wfGrid g
  /\ (forall gx gz, inBounds gx gz = true -> exists c, gridAt g gx gz = Some c)
  /\ (forall gx gz c, gridAt g gx gz = Some c -> freshCell fogOfWar gx gz c).
Proof.
  intros Hu. cbv zeta.
  pose proof (createGrid_wf fogOfWar random n) as Hwf.
  split; [exact Hwf |]. split; [intros gx gz; now apply wfGrid_gridAt |].
  intros gx gz c Hc.
  assert (Forall2 (fun x row =>
                     Forall2 (fun y c => freshCell fogOfWar (Z.of_nat x) (Z.of_nat y) c)
                       (seq 0 (Z.to_nat GRID_SIZE)) row)
            (seq 0 (Z.to_nat GRID_SIZE)) (fst (createGrid fogOfWar random n))) as Hrows.
  { unfold createGrid. apply forPush_Forall_idx. intros x m _.
    apply forPush_Forall_idx. intros y m' _. now apply createCell_fresh. }
  unfold gridAt in Hc.
  destruct (gx <? 0)%Z eqn:Ex; [discriminate |].
  destruct (gz <? 0)%Z eqn:Ez; [discriminate |]. simpl in Hc.
  apply Z.ltb_ge in Ex. apply Z.ltb_ge in Ez.
  destruct (nth_error _ (Z.to_nat gx)) as [row |] eqn:Er; [| discriminate].
  destruct (Forall2_nth_error_r _ _ _ _ _ Hrows Er) as [x [Hx Hrow]].
  destruct (Forall2_nth_error_r _ _ _ _ _ Hrow Hc) as [y [Hy Hcell]].
  apply nth_error_seq_value in Hx. apply nth_error_seq_value in Hy.
  subst x y. simpl Nat.add in Hcell. rewrite !Z2Nat.id in Hcell by assumption.
  exact Hcell.
Qed.

Lemma X16_fresh_grid_witness :
  unitDraws zeroRandom
  /\ wfGrid sampleGrid
  /\ (forall gx gz c, gridAt sampleGrid gx gz = Some c -> freshCell true gx gz c).
Proof.
  split; [exact zeroRandom_unit |].
  destruct (X16_fresh_grid true zeroRandom 0%nat zeroRandom_unit) as [Hwf [_ Hcells]].
  split; [exact Hwf | exact Hcells].
Defined.

Lemma generateIntruders_length (env : Environment) (random : nat -> R) (n : nat) :
  List.length (fst (generateIntruders env random n)) = intruderCount env.
Proof.
  unfold generateIntruders. rewrite forPush_length, length_seq.
  destruct env; reflexivity.
Qed.

Lemma generateIntruders_undetected (env : Environment) (random : nat -> R) (n : nat) :
  Forall (fun i => detected i = false) (fst (generateIntruders env random n)).
Proof.
  unfold generateIntruders. apply forPush_Forall. intros i m.
  apply generateIntruder_undetected.
Qed.

Lemma generateObstacles_length (env : Environment) (random : nat -> R) (n : nat) :
  List.length (fst (generateObstacles env random n)) = obstacleCount env.
Proof.
  destruct env; unfold generateObstacles; try reflexivity; now rewrite forPush_length.
Qed.

Lemma createGrid_unvisited (fogOfWar : bool) (random : nat -> R) (n : nat) :
  Forall (Forall (fun c => visited c = false /\ isVisible c = negb fogOfWar))
    (fst (createGrid fogOfWar random n)).
Proof.
  unfold createGrid. apply forPush_Forall. intros x m.
  apply forPush_Forall. intros y m'.
  unfold createCell, bind, Math_random, ret. destruct fogOfWar; split; reflexivity.
Qed.

(** X17. Reset gives a fresh world of the same kind: whatever the state and
    the random draws, [resetSimulation] leaves the hook Idle with no target,
    the agent back at [(0, 2, 0)] with battery 100, an empty timeline and
    reason list, the clock at 0, and a 20 x 20 grid of unvisited cells.  Speed,
    algorithm, environment and heatmap are kept.  The numbers of intruders and
    obstacles are those of the environment preset, all intruders are
    undetected, and [totalIntruders] equals the length of the intruder list
    although it is counted on a second, separately drawn population.  A
    second reset therefore gives the same counts. *)
Theorem X17_reset_structure (h : Hook) (random random' : nat -> R) (n n' : nat) :
  let h1 := fst (resetSimulation h random n) in
  let h2 := fst (resetSimulation h1 random' n') in
  (isRunning (state h1) = false /\ isPaused (state h1) = false
   /\ targetPositionRef h1 = None /\ drone (state h1) = initialDroneState
   /\ timeline (state h1) = [] /\ decisionReasons (state h1) = []
   /\ elapsedTime (state h1) = 0)
  /\ (wfGrid (grid (state h1))
      /\ Forall (Forall (fun c => visited c = false)) (grid (state h1)))
  /\ (speed (state h1) = speed (state h)
      /\ currentAlgorithm (state h1) = currentAlgorithm (state h)
      /\ currentEnvironment (state h1) = currentEnvironment (state h)
      /\ activeHeatmap (state h1) = activeHeatmap (state h))
  /\ (List.length (intruders (state h1)) = intruderCount (currentEnvironment (state h))
      /\ totalIntruders (metrics (state h1)) = List.length (intruders (state h1))
      /\ intrudersDetected (metrics (state h1)) = 0%nat
      /\ Forall (fun i => detected i = false) (intruders (state h1))
      /\ List.length (obstacles (state h1)) = obstacleCount (currentEnvironment (state h)))
  /\ (List.length (intruders (state h2)) = List.length (intruders (state h1))
      /\ List.length (obstacles (state h2)) = List.length (obstacles (state h1))
      /\ totalIntruders (metrics (state h2)) = totalIntruders (metrics (state h1))).
Proof.
  assert (forall (h0 : Hook) (r : nat -> R) (m : nat),
            let h1 := fst (resetSimulation h0 r m) in
            (isRunning (state h1) = false /\ isPaused (state h1) = false
             /\ targetPositionRef h1 = None /\ drone (state h1) = initialDroneState
             /\ timeline (state h1) = [] /\ decisionReasons (state h1) = []
             /\ elapsedTime (state h1) = 0)
            /\ (wfGrid (grid (state h1))
                /\ Forall (Forall (fun c => visited c = false)) (grid (state h1)))
            /\ (speed (state h1) = speed (state h0)
                /\ currentAlgorithm (state h1) = currentAlgorithm (state h0)
                /\ currentEnvironment (state h1) = currentEnvironment (state h0)
                /\ activeHeatmap (state h1) = activeHeatmap (state h0))
            /\ (List.length (intruders (state h1))
                = intruderCount (currentEnvironment (state h0))
                /\ totalIntruders (metrics (state h1)) = List.length (intruders (state h1))
                /\ intrudersDetected (metrics (state h1)) = 0%nat
                /\ Forall (fun i => detected i = false) (intruders (state h1))
                /\ List.length (obstacles (state h1))
                   = obstacleCount (currentEnvironment (state h0)))) as Hone.
  { intros h0 r m. cbv zeta. unfold resetSimulation, bind, ret.
    set (env := currentEnvironment (state h0)).
    pose proof (createGrid_wf (Environment_eqb env fog_of_war) r m) as Hwf.
    pose proof (createGrid_unvisited (Environment_eqb env fog_of_war) r m) as Hun.
    destruct (createGrid (Environment_eqb env fog_of_war) r m) as [g n1].
    pose proof (generateIntruders_length env r n1) as Hil.
    pose proof (generateIntruders_undetected env r n1) as Hiu.
    destruct (generateIntruders env r n1) as [intrs n2].
    pose proof (generateObstacles_length env r n2) as Hol.
    destruct (generateObstacles env r n2) as [obs n3].
    pose proof (generateIntruders_length env r n3) as Hal.
    destruct (generateIntruders env r n3) as [again n4].
    cbn [fst snd] in *. cbn.
    split; [repeat split |]. split.
    - split; [exact Hwf |]. eapply Forall_impl; [| exact Hun].
      intros row Hrow. eapply Forall_impl; [| exact Hrow]. intros c [Hv _]. exact Hv.
    - split; [repeat split |].
      split; [exact Hil |]. split; [congruence |]. split; [reflexivity |].
      split; [exact Hiu | exact Hol]. }
  cbv zeta.
  destruct (Hone h random n) as [Hidle [Hgrid [Hkept [Hil [Htot [Hdet [Hund Hol]]]]]]].
  destruct (Hone (fst (resetSimulation h random n)) random' n')
    as [_ [_ [[_ [_ [Henv _]]] [Hil2 [Htot2 [_ [_ Hol2]]]]]]].
  destruct Hkept as [Hs [Ha [He Hh]]].
  split; [exact Hidle |]. split; [exact Hgrid |]. split; [repeat split; assumption |].
  split; [repeat split; assumption |].
  rewrite He in Hil2, Hol2. split; [congruence |]. split; congruence.
Qed.

(** X18. Selecting an environment rebuilds the world for that preset and goes
    Idle: the hook has no target, the agent is back at its initial state, the
    clock is 0, the grid is 20 x 20 and unvisited, with every cell invisible
    exactly for 'fog-of-war'; intruders and obstacles have the counts of the
    preset, intruders undetected and [totalIntruders] their number.  Speed,
    algorithm and heatmap are kept, and so are the decision reasons of the
    previous world, which [resetSimulation] would clear. *)
Theorem X18_environment_change_structure (numToString : R -> string) (now : R)
    (env : Environment) (h : Hook) (random : nat -> R) (n : nat) :
  let h' := fst (setEnvironment numToString now env h random n) in
  (isRunning (state h') = false /\ isPaused (state h') = false
   /\ targetPositionRef h' = None /\ drone (state h') = initialDroneState
   /\ elapsedTime (state h') = 0 /\ currentEnvironment (state h') = env)
  /\ (wfGrid (grid (state h'))
      /\ Forall (Forall (fun c => visited c = false
                                  /\ isVisible c = negb (Environment_eqb env fog_of_war)))
           (grid (state h')))
  /\ (List.length (intruders (state h')) = intruderCount env
      /\ totalIntruders (metrics (state h')) = List.length (intruders (state h'))
      /\ Forall (fun i => detected i = false) (intruders (state h'))
      /\ List.length (obstacles (state h')) = obstacleCount env)
  /\ (speed (state h') = speed (state h)
      /\ currentAlgorithm (state h') = currentAlgorithm (state h)
      /\ activeHeatmap (state h') = activeHeatmap (state h)
      /\ decisionReasons (state h') = decisionReasons (state h)).
Proof.
  cbv zeta. unfold setEnvironment, bind, ret.
  pose proof (generateObstacles_length env random n) as Hol.
  destruct (generateObstacles env random n) as [obs n1].
  pose proof (generateIntruders_length env random n1) as Hil.
  pose proof (generateIntruders_undetected env random n1) as Hiu.
  destruct (generateIntruders env random n1) as [intrs n2].
  pose proof (createGrid_wf (Environment_eqb env fog_of_war) random n2) as Hwf.
  pose proof (createGrid_unvisited (Environment_eqb env fog_of_war) random n2) as Hun.
  destruct (createGrid (Environment_eqb env fog_of_war) random n2) as [g n3].
  cbn [fst snd] in *. cbn.
  split; [repeat split |]. split; [split; [exact Hwf | exact Hun] |].
  split; [| repeat split].
  split; [exact Hil |]. split; [reflexivity |]. split; [exact Hiu | exact Hol].
Qed.

Lemma firstn_app_firstn {A} (k : nat) (xs ys : list A) :
  firstn k (xs ++ firstn k ys) = firstn k (xs ++ ys).
Proof.
  rewrite !firstn_app, firstn_firstn. f_equal. f_equal. lia.
Qed.

(** X19. The timeline is a newest-first log that loses only its oldest
    entries: starting from a timeline of at most 50 entries, after any number
    of [addTimelineEvent] calls it holds the first 50 entries of the events in
    reverse order of arrival followed by the previous timeline, so its length
    is the smaller of 50 and the number of entries offered.  The calls change
    no other field of the hook. *)
Theorem X19_timeline_keeps_latest_50 (events : list TimelineEvent) (h : Hook) :
  (List.length (timeline (state h)) <= 50)%nat ->
  let h' := fold_left (fun acc e => addTimelineEvent e acc) events h in
  timeline (state h') = firstn 50 (rev events ++ timeline (state h))
  /\ List.length (timeline (state h'))
     = Nat.min 50 (List.length events + List.length (timeline (state h)))
  /\ targetPositionRef h' = targetPositionRef h
  /\ drone (state h') = drone (state h)
  /\ grid (state h') = grid (state h)
  /\ intruders (state h') = intruders (state h)
  /\ metrics (state h') = metrics (state h)
  /\ sameControls (state h) (state h').
Proof.
  intros Hle. cbv zeta.
  assert (timeline (state (fold_left (fun acc e => addTimelineEvent e acc) events h))
          = firstn 50 (rev events ++ timeline (state h))
          /\ targetPositionRef (fold_left (fun acc e => addTimelineEvent e acc) events h)
             = targetPositionRef h
          /\ drone (state (fold_left (fun acc e => addTimelineEvent e acc) events h))
             = drone (state h)
          /\ grid (state (fold_left (fun acc e => addTimelineEvent e acc) events h))
             = grid (state h)
          /\ intruders (state (fold_left (fun acc e => addTimelineEvent e acc) events h))
             = intruders (state h)
          /\ metrics (state (fold_left (fun acc e => addTimelineEvent e acc) events h))
             = metrics (state h)
          /\ sameControls (state h)
               (state (fold_left (fun acc e => addTimelineEvent e acc) events h))) as Hmain.
  { revert h Hle. induction events as [| e events IH]; intros h Hle.
    - cbn [fold_left rev app]. rewrite firstn_all2 by exact Hle.
      repeat split.
    - cbn [fold_left rev].
      assert (List.length (timeline (state (addTimelineEvent e h))) <= 50)%nat as Hle'
          by apply slice0_length.
      destruct (IH (addTimelineEvent e h) Hle') as [Ht [Hr [Hd [Hg [Hi [Hm Hc]]]]]].
      split.
      + rewrite Ht. unfold addTimelineEvent at 1. cbn [state timeline]. unfold JS.slice0.
        rewrite firstn_app_firstn, <- app_assoc. reflexivity.
      + split; [exact Hr |]. split; [exact Hd |]. split; [exact Hg |].
        split; [exact Hi |]. split; [exact Hm |].
        eapply sameControls_trans; [| exact Hc]. unfold sameControls. repeat split. }
  destruct Hmain as [Ht Hrest]. split; [exact Ht |]. split; [| exact Hrest].
  rewrite Ht, length_firstn, length_app, length_rev. reflexivity.
Qed.

Lemma X19_timeline_keeps_latest_50_witness :
  (List.length (timeline (state movingHook)) <= 50)%nat
  /\ timeline (state (fold_left (fun acc e => addTimelineEvent e acc)
                        [ environmentEvent noPrint 1 open_grid;
                          environmentEvent noPrint 2 fog_of_war ] movingHook))
     = [ environmentEvent noPrint 2 fog_of_war; environmentEvent noPrint 1 open_grid ].
Proof.
  assert (List.length (timeline (state movingHook)) <= 50)%nat as Hle by (simpl; lia).
  split; [exact Hle |].
  exact (proj1 (X19_timeline_keeps_latest_50
                  [ environmentEvent noPrint 1 open_grid;
                    environmentEvent noPrint 2 fog_of_war ] movingHook Hle)).
Defined.

(** ** Alert pipeline *)

Section AlertProofs.

Variable numToString : R -> string.
Variable toUpperCase : string -> string.
Variable cooldownMs : R.
Variable shot : option string.

Let handle := handleDetection numToString toUpperCase cooldownMs shot.
Let handleAll := handleDetections numToString toUpperCase cooldownMs shot.

Lemma truthy_Some_positive (t : R) : 0 < t -> truthy (Some t) = true.
Proof.
  intros Ht. unfold truthy, JS.eqb. destruct (Req_dec_T t 0); [lra | reflexivity].
Qed.

(** Inside the cooldown a detection is dropped without a trace. *)
Lemma handleDetection_suppressed (now : R) (det : Detection) (a : AlertHook) (t0 : R) :
  lastAlertTimeRef a = Some t0 -> t0 <> 0 -> now - t0 < cooldownMs ->
  handle now det a = (a, None).
Proof.
  intros Hr Ht Hc. unfold handle, handleDetection. rewrite Hr.
  unfold truthy, JS.eqb. destruct (Req_dec_T t0 0); [contradiction |].
  rewrite ltb_true by exact Hc. reflexivity.
Qed.

(** A detection is either dropped, leaving the hook as it was, or accepted:
    counted, stamped and logged. *)
Lemma handleDetection_cases (now : R) (det : Detection) (a : AlertHook) :
  (handle now det a = (a, None)
   /\ exists t0, lastAlertTimeRef a = Some t0 /\ t0 <> 0 /\ now - t0 < cooldownMs)
  \/ (exists e, handle now det a
                = ({| alertState :=
                        {| isAlertActive := true;
                           lastAlertTime := Some now;
                           alertCount := alertCount (alertState a) + 1;
                           isMuted := isMuted (alertState a) |};
                      lastAlertTimeRef := Some now |}, Some e)
                /\ timestamp (timelineEvent e) = now / 1000
                /\ ev_type (timelineEvent e) = alert
                /\ severity (timelineEvent e) = danger
                /\ alarmPlayed e = negb (isMuted (alertState a))
                /\ (forall t0, lastAlertTimeRef a = Some t0 -> 0 < t0 ->
                     cooldownMs <= now - t0)).
Proof.
  unfold handle, handleDetection.
  destruct (truthy (lastAlertTimeRef a)
            && JS.ltb (now - match lastAlertTimeRef a with Some t => t | None => 0 end)
                 cooldownMs) eqn:Hc.
  - left. split; [reflexivity |].
    apply andb_true_iff in Hc as [Ht Hlt]. apply ltb_spec in Hlt.
    destruct (lastAlertTimeRef a) as [t0 |]; [| discriminate].
    exists t0. split; [reflexivity |]. split; [| exact Hlt].
    unfold truthy, JS.eqb in Ht. destruct (Req_dec_T t0 0); [discriminate | assumption].
  - right. eexists. split; [reflexivity |]. cbn [timelineEvent timestamp ev_type severity
                                                   alarmPlayed].
    repeat split. intros t0 Hr Hpos. rewrite Hr in Hc.
    rewrite (truthy_Some_positive t0 Hpos) in Hc. cbn [andb] in Hc.
    apply Rnot_lt_le. intros Hlt. rewrite ltb_true in Hc by exact Hlt. discriminate.
Qed.

Lemma handleDetections_spaced (arrivals : list (R * Detection)) (a : AlertHook) :
  Forall (fun p => 0 < fst p) arrivals ->
  (forall t0, lastAlertTimeRef a = Some t0 -> 0 < t0) ->
  let a' := fst (handleAll arrivals a) in
  let outs := snd (handleAll arrivals a) in
  alertCount (alertState a') = (alertCount (alertState a) + List.length outs)%nat
  /\ spacedBy (cooldownMs / 1000) (alertTimes outs)
  /\ (forall t0 t rest, lastAlertTimeRef a = Some t0 -> alertTimes outs = t :: rest ->
       cooldownMs / 1000 <= t - t0 / 1000)
  /\ Forall (fun e => ev_type (timelineEvent e) = alert
                       /\ severity (timelineEvent e) = danger) outs
  /\ (List.length outs <= List.length arrivals)%nat.
Proof.
  revert a. induction arrivals as [| [now det] rest IH]; intros a Hpos Href; cbv zeta.
  - unfold handleAll. cbn [handleDetections fst snd alertTimes map List.length spacedBy].
    split; [lia |]. split; [exact I |].
    split; [intros t0 t more _ H; discriminate |]. split; [constructor | lia].
  - inversion Hpos as [| ? ? Hnow Hrest]; subst. cbn [fst] in Hnow.
    unfold handleAll. cbn [handleDetections].
    fold handle. fold handleAll.
    destruct (handleDetection_cases now det a)
      as [[Heq _] | [e [Heq [Hts [Hty [Hsev [_ Hgap]]]]]]]; rewrite Heq.
    + specialize (IH a Hrest Href). cbv zeta in IH.
      destruct (handleAll rest a) as [a2 outs]. cbn [fst snd] in *.
      destruct IH as [Hc [Hs [Hh [Hf Hl]]]].
      split; [exact Hc |]. split; [exact Hs |]. split; [exact Hh |].
      split; [exact Hf | cbn [List.length]; lia].
    + set (a1 := {| alertState := _; lastAlertTimeRef := Some now |}).
      assert (forall t0, lastAlertTimeRef a1 = Some t0 -> 0 < t0) as Href1
          by (intros t0 H; injection H as <-; exact Hnow).
      specialize (IH a1 Hrest Href1). cbv zeta in IH.
      destruct (handleAll rest a1) as [a2 outs]. cbn [fst snd] in *.
      destruct IH as [Hc [Hs [Hh [Hf Hl]]]].
      split; [rewrite Hc; cbn; lia |]. split.
      * unfold alertTimes in *. cbn [map]. rewrite Hts.
        destruct (map (fun e0 => timestamp (timelineEvent e0)) outs) as [| t2 more] eqn:Hm;
          [exact I |].
        split; [| exact Hs]. eapply Hh; reflexivity.
      * split.
        -- intros t0 t more Ht0 Hhead. unfold alertTimes in Hhead. cbn [map] in Hhead.
           injection Hhead as <- _. rewrite Hts.
           pose proof (Hgap t0 Ht0 (Href t0 Ht0)). lra.
        -- split; [constructor; [split; assumption | exact Hf] | cbn; lia].
Qed.

End AlertProofs.

(** X20. The alert cooldown: fed detections at positive clock readings,
    starting with no alert on record (or one at a positive time), the alert
    hook accepts a detection only if at least [cooldownMs] have passed since
    the last accepted one.  The alert count grows by exactly the number of
    accepted detections, each of which sends one timeline event of type
    'alert' and severity 'danger'; the events of neighbouring accepted
    detections, and the first one and the alert on record, are at least
    [cooldownMs / 1000] seconds apart. *)
Theorem X20_alert_cooldown (numToString : R -> string) (toUpperCase : string -> string)
    (cooldownMs : R) (shot : option string) (arrivals : list (R * Detection))
    (a : AlertHook) :
  Forall (fun p => 0 < fst p) arrivals ->
  (forall t0, lastAlertTimeRef a = Some t0 -> 0 < t0) ->
  let a' := fst (handleDetections numToString toUpperCase cooldownMs shot arrivals a) in
  let outs := snd (handleDetections numToString toUpperCase cooldownMs shot arrivals a) in
  alertCount (alertState a') = (alertCount (alertState a) + List.length outs)%nat
  /\ spacedBy (cooldownMs / 1000) (alertTimes outs)
  /\ (forall t0 t rest, lastAlertTimeRef a = Some t0 -> alertTimes outs = t :: rest ->
       cooldownMs / 1000 <= t - t0 / 1000)
  /\ Forall (fun e => ev_type (timelineEvent e) = alert
                       /\ severity (timelineEvent e) = danger) outs
  /\ (List.length outs <= List.length arrivals)%nat.
Proof. apply handleDetections_spaced. Qed.

Lemma X20_alert_cooldown_witness :
  Forall (fun p : R * Detection => 0 < fst p)
    [ (1000, sampleDetection); (2000, sampleDetection); (5000, sampleDetection) ]
  /\ (forall t0, lastAlertTimeRef initialAlertHook = Some t0 -> 0 < t0)
  /\ spacedBy (3000 / 1000)
       (alertTimes
          (snd (handleDetections noPrint (fun s => s) 3000 None
                  [ (1000, sampleDetection); (2000, sampleDetection);
                    (5000, sampleDetection) ] initialAlertHook))).
Proof.
  assert (Forall (fun p : R * Detection => 0 < fst p)
            [ (1000, sampleDetection); (2000, sampleDetection); (5000, sampleDetection) ])
    as Hpos by (repeat constructor; simpl; lra).
  assert (forall t0, lastAlertTimeRef initialAlertHook = Some t0 -> 0 < t0) as Href
      by (intros t0 H; discriminate H).
  split; [exact Hpos |]. split; [exact Href |].
  exact (proj1 (proj2 (X20_alert_cooldown noPrint (fun s => s) 3000 None
                         [ (1000, sampleDetection); (2000, sampleDetection);
                           (5000, sampleDetection) ] initialAlertHook Hpos Href))).
Defined.

(** X21. Muting and resetting do not touch the cooldown.  [toggleMute] is its
    own inverse, and a muted hook accepts and drops exactly the detections the
    unmuted one does, with the same count, time stamp and timeline event; only
    the alarm is silent.  [resetAlerts] puts the count back to 0 and ends the
    flash but keeps the last alert time, so a detection inside the cooldown is
    still dropped right after a reset. *)
Theorem X21_mute_and_reset_keep_cooldown (numToString : R -> string)
    (toUpperCase : string -> string) (cooldownMs : R) (shot : option string) (now : R)
    (det : Detection) (a : AlertHook) :
  toggleMute (toggleMute a) = a
  /\ (let r := handleDetection numToString toUpperCase cooldownMs shot now det a in
      let r' := handleDetection numToString toUpperCase cooldownMs shot now det
                  (toggleMute a) in
      fst r' = toggleMute (fst r)
      /\ option_map timelineEvent (snd r') = option_map timelineEvent (snd r)
      /\ option_map alarmPlayed (snd r') = option_map (fun e => negb (alarmPlayed e)) (snd r))
  /\ (alertCount (alertState (resetAlerts a)) = 0%nat
      /\ isAlertActive (alertState (resetAlerts a)) = false
      /\ lastAlertTimeRef (resetAlerts a) = lastAlertTimeRef a
      /\ lastAlertTime (alertState (resetAlerts a)) = lastAlertTime (alertState a))
  /\ (forall t0, lastAlertTimeRef a = Some t0 -> t0 <> 0 -> now - t0 < cooldownMs ->
      handleDetection numToString toUpperCase cooldownMs shot now det (resetAlerts a)
      = (resetAlerts a, None)).
Proof.
  split; [| split; [| split]].
  - destruct a as [[act last cnt muted] ref]. unfold toggleMute. cbn.
    rewrite negb_involutive. reflexivity.
  - cbv zeta. unfold handleDetection. cbn [toggleMute lastAlertTimeRef alertState isMuted].
    destruct (truthy (lastAlertTimeRef a) && _); cbn [fst snd option_map alarmPlayed
                                                        timelineEvent];
      repeat split.
  - repeat split.
  - intros t0 Hr Ht Hc.
    apply (handleDetection_suppressed numToString toUpperCase cooldownMs shot now det
             (resetAlerts a) t0); assumption.
Qed.

Lemma X21_mute_and_reset_keep_cooldown_witness :
  let a := {| alertState := {| isAlertActive := true; lastAlertTime := Some 1000;
                               alertCount := 1; isMuted := false |};
              lastAlertTimeRef := Some 1000 |} in
  handleDetection noPrint (fun s => s) 3000 None 2000 sampleDetection (resetAlerts a)
  = (resetAlerts a, None).
Proof.
  cbv zeta.
  apply (proj2 (proj2 (proj2 (X21_mute_and_reset_keep_cooldown noPrint (fun s => s) 3000
                                None 2000 sampleDetection _))) 1000);
    [reflexivity | lra | lra].
Defined.

(** ** Clock display *)

Lemma string_length_append (a b : string) :
  String.length (a ++ b) = (String.length a + String.length b)%nat.
Proof. induction a as [| c a IH]; simpl; [reflexivity | now rewrite IH]. Qed.

Lemma padStart2_two_digits (z : Z) :
  (0 <= z < 100)%Z -> String.length (padStart2 (intToString z)) = 2%nat.
Proof.
  intros Hz.
  assert (forallb (fun k => Nat.eqb (String.length (padStart2 (intToString (Z.of_nat k)))) 2)
            (seq 0 100) = true) as Hall by (vm_compute; reflexivity).
  rewrite forallb_forall in Hall.
  specialize (Hall (Z.to_nat z)). rewrite Z2Nat.id in Hall by lia.
  apply Nat.eqb_eq. apply Hall. apply in_seq. lia.
Qed.

Lemma minutes_seconds_split (seconds : R) :
  0 <= seconds ->
  let mins := JS.floor (seconds / 60) in
  let secs := JS.floor (JS_rem seconds 60) in
  (0 <= mins)%Z /\ (0 <= secs <= 59)%Z /\ (60 * mins + secs = JS.floor seconds)%Z.
Proof.
  intros Hs. cbv zeta. unfold JS_rem, Math_trunc.
  rewrite leb_true by (apply Rmult_le_pos; lra).
  unfold JS.floor. set (q := Zfloor (seconds / 60)).
  pose proof (Zfloor_bound (seconds / 60)) as [Hq0 Hq1]. fold q in Hq0, Hq1.
  assert (0 <= seconds - 60 * IZR q < 60) as [Hr0 Hr1] by (split; lra).
  pose proof (Zfloor_bound (seconds - 60 * IZR q)) as [Hc0 Hc1].
  split; [apply Zfloor_lub; simpl; lra |]. split.
  - split; [apply Zfloor_lub; simpl; lra |].
    assert (IZR (Zfloor (seconds - 60 * IZR q)) < 60) as Hlt by lra.
    apply lt_IZR in Hlt. lia.
  - replace seconds with (seconds - 60 * IZR q + IZR (60 * q)) at 2
      by (rewrite mult_IZR; lra).
    rewrite Zfloor_addz. lia.
Qed.

(** X22. The clock display splits a time correctly: for [seconds >= 0],
    [formatTime] shows [mins = floor (seconds / 60)] and
    [secs = floor (seconds % 60)] with [mins >= 0], [secs] between 0 and 59
    and [60 * mins + secs = floor (seconds)], each padded to two digits around
    a colon; below 6000 seconds the text is exactly five characters long. *)
Theorem X22_formatTime_minutes_seconds (seconds : R) :
  0 <= seconds ->
  exists mins secs,
    (0 <= mins)%Z /\ (0 <= secs <= 59)%Z /\ (60 * mins + secs = JS.floor seconds)%Z
    /\ formatTime seconds
       = (padStart2 (intToString mins) ++ ":" ++ padStart2 (intToString secs))%string
    /\ (seconds < 6000 -> String.length (formatTime seconds) = 5%nat).
Proof.
  intros Hs. destruct (minutes_seconds_split seconds Hs) as [Hm [Hc Hsum]].
  cbv zeta in *.
  exists (JS.floor (seconds / 60)), (JS.floor (JS_rem seconds 60)).
  split; [exact Hm |]. split; [exact Hc |]. split; [exact Hsum |].
  split; [reflexivity |]. intros Hlt. unfold formatTime.
  assert (JS.floor (seconds / 60) < 100)%Z as Hm100.
  { apply lt_IZR. pose proof (Zfloor_bound (seconds / 60)) as [Hb _].
    unfold JS.floor. lra. }
  rewrite !string_length_append, !padStart2_two_digits by lia. reflexivity.
Qed.

Lemma X22_formatTime_minutes_seconds_witness :
  0 <= 75.5 /\ formatTime 75.5 = "01:15"%string.
Proof.
  assert (0 <= 75.5) as Hs by lra.
  split; [exact Hs |].
  destruct (X22_formatTime_minutes_seconds 75.5 Hs) as [mins [secs [Hm [Hc [Hsum [Hf _]]]]]].
  assert (JS.floor 75.5 = 75%Z) as H75 by (apply floor_eq; simpl; lra).
  rewrite H75 in Hsum.
  assert (mins = 1%Z) as -> by lia. assert (secs = 15%Z) as -> by lia.
  rewrite Hf. reflexivity.
Defined.

(** ** Hop lengths *)

Lemma clamp_step_sqr (v delta : R) :
  -9 <= v <= 9 ->
  (JS.max (-9) (JS.min 9 (v + delta)) - v) * (JS.max (-9) (JS.min 9 (v + delta)) - v)
  <= delta * delta.
Proof.
  intros Hv. unfold JS.max, JS.min, Rmax, Rmin.
  destruct (Rle_dec 9 (v + delta)); destruct (Rle_dec (-9) _); nra.
Qed.

Lemma clamp_idem (v : R) :
  JS.max (-9) (JS.min 9 (JS.max (-9) (JS.min 9 v))) = JS.max (-9) (JS.min 9 v).
Proof. apply max_clamp_id. apply clamp_bounds. Qed.

Lemma clampPosition_clamped (p : Position) (a b : R) :
  clampPosition (setXZ p (JS.max (-9) (JS.min 9 a)) (JS.max (-9) (JS.min 9 b)))
  = clampPosition (setXZ p a b).
Proof. unfold clampPosition, setXZ. cbn [px py pz]. now rewrite !clamp_idem. Qed.

(** A clamped step of the unit vector [(c, s)] scaled by [len] is a hop of at
    most [len]. *)
Lemma clamped_hop_le (d : DroneState) (c s len bound : R) :
  inField (position d) -> c * c + s * s = 1 -> 0 <= len <= bound ->
  hop d (clampPosition (setXZ (position d) (px (position d) + c * len)
                                           (pz (position d) + s * len))) <= bound.
Proof.
  intros [Hx Hz] Hunit Hlen. unfold hop, clampPosition, setXZ. cbn [px py pz].
  apply hypot_le_iff; [lra |].
  pose proof (clamp_step_sqr (px (position d)) (c * len) Hx) as H1.
  pose proof (clamp_step_sqr (pz (position d)) (s * len) Hz) as H2.
  assert (c * len * (c * len) + s * len * (s * len) = len * len) as Hn
      by (transitivity ((c * c + s * s) * (len * len)); [ring | rewrite Hunit; ring]).
  nra.
Qed.

Lemma cos_sin_unit (a : R) : cos a * cos a + sin a * sin a = 1.
Proof. pose proof (sin2_cos2 a) as H. unfold Rsqr in H. lra. Qed.

Lemma detected_filter_nonempty (intrs : list Intruder) :
  (exists i, In i intrs /\ detected i = true) ->
  Nat.ltb 0 (List.length (filter detected intrs)) = true.
Proof.
  intros [i [Hin Hd]].
  assert (In i (filter detected intrs)) as Hf by (apply filter_In; split; assumption).
  destruct (filter detected intrs); [contradiction | reflexivity].
Qed.

(** X23. Random patrol and pursuit move in short hops: for an agent in the
    field, the RPA waypoint (draws in [0, 1)) and, as soon as some intruder is
    detected, the TFA waypoint are at most 3 units from the agent, whatever
    the heading drawn or the position of the intruders. *)
Theorem X23_short_hops (toFixed : R -> nat -> string) (now : R) (d : DroneState)
    (g : Grid) (intrs : list Intruder) (obs : list Obstacle) (random : nat -> R) (n : nat) :
  inField (position d) ->
  (unitDraws random ->
   hop d (fst (fst (getNextPosition toFixed now RPA d g intrs obs random n))) <= 3)
  /\ ((exists i, In i intrs /\ detected i = true) ->
      hop d (fst (fst (getNextPosition toFixed now TFA d g intrs obs random n))) <= 3).
Proof.
  intros Hf. split.
  - intros Hu. unfold getNextPosition, decideRPA, bind, ret, Math_random. cbn [fst snd].
    rewrite clampPosition_clamped.
    pose proof (Hu (S n)) as Hr.
    apply (clamped_hop_le d (cos (random n * PI * 2)) (sin (random n * PI * 2))
             (1 + random (S n) * 2) 3 Hf (cos_sin_unit _)). lra.
  - intros Hdet. unfold getNextPosition, bind, ret. cbn [fst snd].
    unfold decideTFA. rewrite (detected_filter_nonempty intrs Hdet). cbv zeta.
    destruct (JS.gtb _ 4); [| destruct (JS.ltb _ 2.5)]; cbn [fst].
    + apply (clamped_hop_le d _ _ 3 3 Hf (cos_sin_unit _)). lra.
    + match goal with
      | |- context [cos ?a * 2] =>
          replace (px (position d) - cos a * 2) with (px (position d) + (- cos a) * 2)
            by ring;
          replace (pz (position d) - sin a * 2) with (pz (position d) + (- sin a) * 2)
            by ring;
          apply (clamped_hop_le d (- cos a) (- sin a) 2 3 Hf);
          [pose proof (cos_sin_unit a); nra | lra]
      end.
    + apply (clamped_hop_le d _ _ 1 3 Hf (cos_sin_unit _)). lra.
Qed.

Lemma X23_short_hops_witness :
  inField (position initialDroneState) /\ unitDraws zeroRandom
  /\ hop initialDroneState
       (fst (fst (getNextPosition noFixed 0 RPA initialDroneState sampleGrid
                    [ sampleIntruder ] [] zeroRandom 0%nat))) <= 3.
Proof.
  assert (inField (position initialDroneState)) as Hf by (unfold inField; simpl; lra).
  split; [exact Hf |]. split; [exact zeroRandom_unit |].
  exact (proj1 (X23_short_hops noFixed 0 initialDroneState sampleGrid [ sampleIntruder ] []
                  zeroRandom 0%nat Hf) zeroRandom_unit).
Defined.

(** ** The hook as first built *)

(** X24. A fresh dashboard: whatever the random draws, the hook
    [useSimulation] first builds is Idle with no target, speed 1, algorithm
    PDAP, environment 'open-grid', no obstacles, four undetected intruders
    matching [totalIntruders], the agent at its initial state, a 20 x 20 grid
    of unvisited visible cells, and an empty timeline and reason list.  A tick
    before [startSimulation] changes nothing; the first tick after it leaves
    the world as it is and takes a PDAP decision with reasons of weights 95
    and 60. *)
Theorem X24_fresh_hook (toFixed : R -> nat -> string) (numToString : R -> string)
    (now deltaTime : R) (random random' : nat -> R) (n n' : nat) :
  let h := fst (initialHook random n) in
  (isRunning (state h) = false /\ isPaused (state h) = false
   /\ targetPositionRef h = None /\ speed (state h) = 1
   /\ currentAlgorithm (state h) = PDAP /\ currentEnvironment (state h) = open_grid
   /\ activeHeatmap (state h) = none /\ drone (state h) = initialDroneState
   /\ obstacles (state h) = [] /\ timeline (state h) = []
   /\ decisionReasons (state h) = [] /\ elapsedTime (state h) = 0)
  /\ (List.length (intruders (state h)) = 4%nat
      /\ totalIntruders (metrics (state h)) = List.length (intruders (state h))
      /\ Forall (fun i => detected i = false) (intruders (state h)))
  /\ (wfGrid (grid (state h))
      /\ Forall (Forall (fun c => visited c = false /\ isVisible c = true))
           (grid (state h)))
  /\ updateSimulation toFixed numToString now deltaTime h random' n' = (Some h, n')
  /\ exists h1 n1,
       updateSimulation toFixed numToString now deltaTime (startSimulation h) random' n'
       = (Some h1, n1)
       /\ state h1 = withDecisionReasons (state (startSimulation h))
                       (decisionReasons (state h1))
       /\ map weight (decisionReasons (state h1)) = [ 95; 60 ]%Z
       /\ exists t, targetPositionRef h1 = Some t /\ inField t.
Proof.
  cbv zeta. unfold initialHook, bind, ret.
  pose proof (generateIntruders_length open_grid random n) as Hil.
  pose proof (generateIntruders_undetected open_grid random n) as Hiu.
  destruct (generateIntruders open_grid random n) as [intrs n1].
  pose proof (createGrid_wf false random n1) as Hwf.
  pose proof (createGrid_unvisited false random n1) as Hun.
  destruct (createGrid false random n1) as [g n2].
  cbn [fst snd] in *.
  split; [cbn; repeat split |].
  split; [cbn [state intruders metrics withTotalIntruders totalIntruders];
          split; [exact Hil |]; split; [symmetry; exact Hil | exact Hiu] |].
  split; [cbn [state grid]; split; [exact Hwf | exact Hun] |].
  split; [apply tick_idle; reflexivity |].
  rewrite tick_reacquire by (reflexivity || (left; reflexivity)).
  cbv zeta. eexists. eexists. split; [reflexivity |].
  cbn [state startSimulation withRunFlags withDecisionReasons decisionReasons
       targetPositionRef currentAlgorithm drone grid intruders obstacles].
  split; [reflexivity |].
  destruct (pdap_targets_candidate toFixed now initialDroneState g intrs [] random' n')
    as [c [_ [_ [_ Hw]]]]; [simpl; lra | simpl; lra |].
  split; [exact Hw |].
  eexists. split; [reflexivity |]. apply waypoint_in_field.
Qed.

(** ** Zigzag steps *)

(** X25. A zigzag decision changes one coordinate: for an agent in the field,
    ZPA either advances the row, keeping [z] and moving [x] by 2 (or to [-9]
    when [x + 2] would pass 9), with the reason 'Advancing to next row', or
    continues the column, keeping [x] and moving [z] by at most 2, with the
    reason 'Continuing zigzag pattern'; 'Systematic coverage' always
    follows. *)
Theorem X25_zpa_step (toFixed : R -> nat -> string) (now : R) (d : DroneState)
    (g : Grid) (intrs : list Intruder) (obs : list Obstacle) (random : nat -> R) (n : nat) :
  inField (position d) ->
  let r := fst (getNextPosition toFixed now ZPA d g intrs obs random n) in
  (snd r = [ mkReason 1 "Advancing to next row" 80 "ArrowRight";
             mkReason 2 "Systematic coverage" 60 "Grid3x3" ]
   /\ pz (fst r) = pz (position d)
   /\ (px (position d) + 2 <= 9 -> px (fst r) = px (position d) + 2)
   /\ (9 < px (position d) + 2 -> px (fst r) = -9))
  \/ (snd r = [ mkReason 1 "Continuing zigzag pattern" 80 "TrendingUp";
                mkReason 2 "Systematic coverage" 60 "Grid3x3" ]
      /\ px (fst r) = px (position d)
      /\ -2 <= pz (fst r) - pz (position d) <= 2).
Proof.
  intros [Hx Hz]. cbv zeta. unfold getNextPosition, bind, ret. cbn [fst snd].
  unfold decideZPA.
  destruct (JS.geb _ 8); cbv beta iota zeta.
  - left. unfold JS.gtb, setXZ. cbn [px py pz].
    destruct (Rlt_dec 9 (px (position d) + 2)) as [Hw | Hw].
    + rewrite ltb_true by exact Hw. unfold clampPosition, setXZ. cbn [fst snd px py pz app].
      rewrite !max_clamp_id by lra. repeat split; lra.
    + rewrite ltb_false by lra. unfold clampPosition, setXZ. cbn [fst snd px py pz app].
      rewrite !max_clamp_id by lra. repeat split; lra.
  - right. unfold JS.gtb, setXZ. cbn [px py pz].
    rewrite ltb_false by lra. unfold clampPosition, setXZ. cbn [fst snd px py pz app].
    rewrite (max_clamp_id (px (position d))) by lra.
    split; [reflexivity |]. split; [reflexivity |].
    destruct (Z.rem _ 2 =? 0)%Z; unfold JS.max, JS.min, Rmax, Rmin;
      destruct (Rle_dec 9 _); destruct (Rle_dec (-9) _); lra.
Qed.

Lemma X25_zpa_step_witness :
  inField (position (droneAt 0 9))
  /\ px (fst (fst (getNextPosition noFixed 0 ZPA (droneAt 0 9) [] [] [] zeroRandom 0%nat)))
     = px (position (droneAt 0 9)).
Proof.
  assert (inField (position (droneAt 0 9))) as Hf by (unfold inField; simpl; lra).
  split; [exact Hf |].
  destruct (X25_zpa_step noFixed 0 (droneAt 0 9) [] [] [] zeroRandom 0%nat Hf)
    as [[Hr _] | [_ [Hx _]]]; [| exact Hx].
  rewrite (zpa_x0_z9 noFixed 0 (droneAt 0 9) [] [] [] zeroRandom 0%nat eq_refl eq_refl)
    in Hr.
  discriminate Hr.
Defined.

(** ** Detection rule *)

Lemma detectIntruder_rule (nd : DroneState) (e : R) (i : Intruder) :
  detected i = false ->
  (detected (detectIntruder nd e i) = true
   <-> JS.hypot (px (intr_position i) - px (position nd))
                (pz (intr_position i) - pz (position nd)) <= fovRange nd)
  /\ (detected (detectIntruder nd e i) = true -> detectedAt (detectIntruder nd e i) = Some e).
Proof.
  intros Hd. unfold detectIntruder. rewrite Hd. cbn [negb]. rewrite andb_true_r.
  destruct (JS.leb _ (fovRange nd)) eqn:Hr.
  - apply leb_spec in Hr. cbn [detected detectedAt]. split; [tauto | reflexivity].
  - rewrite Hd. split; [| discriminate]. split; [discriminate |].
    intros Hle. apply leb_spec in Hle. congruence.
Qed.

Lemma newlyDetected_count (nd : DroneState) (e : R) (l : list Intruder) :
  List.length (newlyDetected (map (detectIntruder nd e) l) l)
  = (List.length (filter detected (map (detectIntruder nd e) l))
     - List.length (filter detected l))%nat.
Proof.
  unfold newlyDetected. rewrite length_map.
  induction l as [| i l IH]; [reflexivity |].
  cbn [map combine filter fst snd].
  pose proof (detected_count_grows nd e l) as Hg.
  destruct (detected i) eqn:Hd.
  - assert (detectIntruder nd e i = i) as ->
        by (unfold detectIntruder; rewrite Hd, andb_false_r; reflexivity).
    rewrite Hd. cbn [negb andb List.length]. rewrite IH. lia.
  - destruct (detected (detectIntruder nd e i)); cbn [negb andb List.length];
      rewrite IH; lia.
Qed.

(** X26. Who gets detected: on a movement tick an intruder that was not yet
    detected is detected exactly when its planar distance to the agent's
    position after the move is at most the sensor radius, and is then stamped
    with the new elapsed time; the timeline gains one event per intruder so
    detected, up to its cap of 50. *)
Theorem X26_detection_rule (toFixed : R -> nat -> string) (numToString : R -> string)
    (now deltaTime : R) (h : Hook) (random : nat -> R) (n : nat) :
  isRunning (state h) = true -> isPaused (state h) = false ->
  wfGrid (grid (state h)) -> ~ reacquires h ->
  exists h',
    updateSimulation toFixed numToString now deltaTime h random n = (Some h', n)
    /\ Forall2 (fun i i' =>
                  detected i = false ->
                  (detected i' = true
                   <-> JS.hypot (px (intr_position i) - px (position (drone (state h'))))
                                (pz (intr_position i) - pz (position (drone (state h'))))
                       <= fovRange (drone (state h')))
                  /\ (detected i' = true -> detectedAt i' = Some (elapsedTime (state h'))))
         (intruders (state h)) (intruders (state h'))
    /\ List.length (timeline (state h'))
       = Nat.min 50
           (List.length (filter detected (intruders (state h')))
            - List.length (filter detected (intruders (state h)))
            + List.length (timeline (state h))).
Proof.
  intros Hr Hp Hwf Hnq.
  destruct (not_reacquires_target h Hnq) as [target Ht].
  rewrite (tick_move toFixed numToString now deltaTime h random n target Hr Hp Ht Hnq).
  destruct (moveTick_wf toFixed numToString deltaTime h target Hwf) as [g' [_ [_ Hm]]].
  rewrite Hm. eexists. split; [reflexivity |].
  cbn [option_map state intruders drone elapsedTime timeline]. split.
  - apply Forall2_map_step. intros i. apply detectIntruder_rule.
  - rewrite logDetections_closed. unfold JS.slice0.
    rewrite length_firstn, length_app, length_rev, length_map, newlyDetected_count.
    reflexivity.
Qed.

Lemma X26_detection_rule_witness :
  wfGrid (grid (state movingHook)) /\ ~ reacquires movingHook
  /\ exists h',
       updateSimulation noFixed noPrint 0 0.1 movingHook zeroRandom 0%nat = (Some h', 0%nat)
       /\ List.length (timeline (state h'))
          = Nat.min 50
              (List.length (filter detected (intruders (state h')))
               - List.length (filter detected (intruders (state movingHook)))
               + List.length (timeline (state movingHook))).
Proof.
  split; [exact sampleGrid_wf |]. split; [exact movingHook_moves |].
  destruct (X26_detection_rule noFixed noPrint 0 0.1 movingHook zeroRandom 0%nat
              eq_refl eq_refl sampleGrid_wf movingHook_moves) as [h' [Hrun [_ Hlen]]].
  exists h'. split; [exact Hrun | exact Hlen].
Defined.
